(** * py21cmmc core modules: a shallow embedding of [src/py21cmmc/core.py]

    The development follows the file top to bottom: Python values and
    exceptions, [ModuleBase] (equality, required cores, setup), [CoreBase]
    (storage), [CoreCoevalModule] (construction, setup, model building),
    [CoreLightConeModule] and [CoreLuminosityFunction].  The simulation engine
    [py21cmfast] and the cosmoHammer chain are external: they enter as section
    variables or as plain data read through the accessors the code uses. *)

From Stdlib Require Import ZArith List Bool Lia.
From stdpp Require Import base option list strings gmap fin_maps.

Set Warnings "-register-all".

(** ** Python values *)

(** An entry of a floating-point array: a number or not-a-number. *)
Inductive fnum :=
  | FVal (x : Z)
  | FNaN.
Arguments FVal x%_Z.

(** Values stored in attributes, keyword arguments and the context.
    Numeric scalars are kept as integers; [VCallable] is a function object,
    compared by identity; [VArray] is a one-dimensional [numpy.ndarray]. *)
Inductive pyval :=
  | VNone
  | VBool (b : bool)
  | VNum (n : Z)
  | VStr (s : string)
  | VList (l : list pyval)
  | VTuple (l : list pyval)
  | VDict (d : list (string * pyval))
  | VCallable (f : nat)
  | VArray (a : list fnum).
Arguments VNum n%_Z.

Abbreviation pydict := (list (string * pyval)).

(** [d.get(k)] / [k in d] on a dict kept in insertion order. *)
Fixpoint dict_get (k : string) (d : pydict) : option pyval :=
  match d with
  | [] => None
  | (k', v) :: d' => if String.eqb k k' then Some v else dict_get k d'
  end.

(** [d[k] = v]: overwrite in place, or append a new key. *)
Fixpoint dict_set (k : string) (v : pyval) (d : pydict) : pydict :=
  match d with
  | [] => [(k, v)]
  | (k', v') :: d' =>
      if String.eqb k k' then (k, v) :: d' else (k', v') :: dict_set k v d'
  end.

(** [d.update(u)] *)
Definition dict_update (d u : pydict) : pydict :=
  fold_left (fun acc kv => dict_set (fst kv) (snd kv) acc) u d.

Definition dict_keys (d : pydict) : list string := map fst d.

(** [hasattr(v, "__len__")] *)
Definition has_len (v : pyval) : bool :=
  match v with
  | VStr _ | VList _ | VTuple _ | VDict _ | VArray _ => true
  | VNone | VBool _ | VNum _ | VCallable _ => false
  end.

Definition fnum_eqb (x y : fnum) : bool :=
  match x, y with
  | FVal a, FVal b => Z.eqb a b
  | _, _ => false   (* NaN differs from everything, itself included *)
  end.

Definition isnan (x : fnum) : bool :=
  match x with FNaN => true | FVal _ => false end.

(** Truth value of the result of an element-wise comparison: that of its
    one element, [False] for none, [ValueError] (here [None]) for more. *)
Definition array_truth (r : list bool) : option bool :=
  match r with
  | [] => Some false
  | [b] => Some b
  | _ :: _ :: _ => None
  end.

Fixpoint zip_with_same {A B} (f : A -> A -> B) (l1 l2 : list A) : option (list B) :=
  match l1, l2 with
  | [], [] => Some []
  | x :: l1', y :: l2' => cons (f x y) <$> zip_with_same f l1' l2'
  | _, _ => None
  end.

Definition fnum_neb (x y : fnum) : bool := negb (fnum_eqb x y).

(** Element by element over two one-dimensional arrays, an array of one
    element being stretched to the other; [None] when the lengths do not
    fit. *)
Definition broadcast {B} (f : fnum -> fnum -> B) (x y : list fnum) : option (list B) :=
  match x, y with
  | [e], _ => Some (map (f e) y)
  | _, [e] => Some (map (fun d => f d e) x)
  | _, _ => zip_with_same f x y
  end.

(** [numpy.asarray] on a list or tuple of numbers. *)
Definition as_number (v : pyval) : option fnum :=
  match v with
  | VNum n => Some (FVal n)
  | VBool b => Some (FVal (Z.b2z b))
  | _ => None
  end.

Definition as_array (l : list pyval) : option (list fnum) := mapM as_number l.

(** The truth value of an array compared with [b] by the element-wise
    operator [f] ([==] or [!=]): against an array, against a number
    (stretched), against a list or tuple of numbers (converted to an array).
    Against a value of another kind, a list that holds something else than
    numbers among them, each element answers [other]. *)
Definition array_compare (f : fnum -> fnum -> bool) (other : bool) (x : list fnum)
    (b : pyval) : option bool :=
  match b with
  | VArray y => broadcast f x y ≫= array_truth
  | VNum n => array_truth (map (fun e => f e (FVal n)) x)
  | VBool c => array_truth (map (fun e => f e (FVal (Z.b2z c))) x)
  | VList l | VTuple l =>
      match as_array l with
      | Some y => broadcast f x y ≫= array_truth
      | None => broadcast (fun _ _ => other) x (map (fun _ => FNaN) l) ≫= array_truth
      end
  | VNone | VStr _ | VDict _ | VCallable _ => array_truth (map (fun _ => other) x)
  end.

(** [bool(a == b)]: [Some b] when the comparison has a truth value, [None]
    when taking it raises [ValueError] (an array result of more than one
    element, or arrays whose lengths do not fit).  Sequences compare element
    by element and stop at the first difference; dicts compare by key,
    whatever the order. *)
Fixpoint py_eq (a b : pyval) {struct a} : option bool :=
  let fix seq_eq (l1 l2 : list pyval) {struct l1} : option bool :=
    match l1, l2 with
    | [], [] => Some true
    | x :: l1', y :: l2' =>
        match py_eq x y with
        | Some true => seq_eq l1' l2'
        | r => r
        end
    | _, _ => Some false
    end in
  let fix dict_eq (d1 : pydict) (d2 : pydict) {struct d1} : option bool :=
    match d1 with
    | [] => Some true
    | (k, v) :: d1' =>
        match dict_get k d2 with
        | None => Some false
        | Some w =>
            match py_eq v w with
            | Some true => dict_eq d1' d2
            | r => r
            end
        end
    end in
  match a, b with
  | VArray x, _ => array_compare fnum_eqb false x b
  | _, VArray y => array_compare fnum_eqb false y a
  | VNone, VNone => Some true
  | VBool x, VBool y => Some (Bool.eqb x y)
  | VBool x, VNum n => Some (Z.eqb (Z.b2z x) n)
  | VNum n, VBool y => Some (Z.eqb n (Z.b2z y))
  | VNum x, VNum y => Some (Z.eqb x y)
  | VStr x, VStr y => Some (String.eqb x y)
  | VList x, VList y =>
      if Nat.eqb (length x) (length y) then seq_eq x y else Some false
  | VTuple x, VTuple y =>
      if Nat.eqb (length x) (length y) then seq_eq x y else Some false
  | VDict x, VDict y =>
      if Nat.eqb (length x) (length y) then dict_eq x y else Some false
  | VCallable f, VCallable g => Some (Nat.eqb f g)
  | _, _ => Some false
  end.

(** [bool(a != b)]: with an array on either side the operator works element
    by element and the truth value is that of its result; otherwise it is the
    negation of [==]. *)
Definition py_ne (a b : pyval) : option bool :=
  match a, b with
  | VArray x, _ => array_compare fnum_neb true x b
  | _, VArray y => array_compare fnum_neb true y a
  | _, _ => negb <$> py_eq a b
  end.

(** ** Exceptions, log records and the effect monad *)

Inductive exn :=
  | ValueError (msg : string)
  | TypeError (msg : string)
  | AttributeError (msg : string)
  | IndexError (msg : string)
  | KeyError (msg : string)
  | NotAChain
  | NotSetupError
  | AlreadySetupError
  | Raised (tag : nat).   (* any exception raised by a user-supplied callable *)

Inductive result (A : Type) :=
  | Ok (a : A)
  | Raise (e : exn).
Arguments Ok {A} a.
Arguments Raise {A} e.

(** What the module hands to the [logging] and [warnings] machinery. *)
Inductive log_record :=
  | LogDebug (msg : string)
  | LogInfo (msg : string)
  | LogWarning (msg : string)
  | LogError (msg : string)
  | PyWarning (msg : string).

(** Computations that may raise and that change a state [S]; what was done to
    the state before an exception stays done. *)
Definition M (S A : Type) : Type := S -> result A * S.

Definition ret {S A} (a : A) : M S A := fun s => (Ok a, s).
Definition raise {S A} (e : exn) : M S A := fun s => (Raise e, s).
Definition bind {S A B} (m : M S A) (k : A -> M S B) : M S B :=
  fun s => match m s with
           | (Ok a, s') => k a s'
           | (Raise e, s') => (Raise e, s')
           end.
Definition lift_result {S A} (r : result A) : M S A := fun s => (r, s).

Declare Scope py_scope.
Delimit Scope py_scope with py.
Notation "x <- c1 ;; c2" := (bind c1 (fun x => c2))
  (at level 100, c1 at next level, right associativity) : py_scope.
Notation "c1 ;;; c2" := (bind c1 (fun _ => c2))
  (at level 100, right associativity) : py_scope.
Open Scope py_scope.

(** [for x in l: body x], stopping at the first exception. *)
Fixpoint for_each {S A} (l : list A) (body : A -> M S unit) : M S unit :=
  match l with
  | [] => ret tt
  | x :: l' => body x ;;; for_each l' body
  end.

(** States that carry the records handed to the logger, oldest first. *)
Class Logging (S : Type) := emit : log_record -> S -> S.

#[export] Instance log_list : Logging (list log_record) := fun r l => l ++ [r].

Definition logger {S} `{Logging S} (r : log_record) : M S unit :=
  fun s => (Ok tt, emit r s).

(** ** Classes, instances and the chain *)

(** The signature of an [__init__], as [inspect.getfullargspec] splits it. *)
Record signature := {
  sig_args : list string;          (* positional-or-keyword parameters *)
  sig_varargs : option string;     (* *args *)
  sig_kwonlyargs : list string;    (* parameters after a bare * *)
  sig_varkw : option string;       (* **kwargs *)
}.

(** [inspect.getfullargspec(f).args] *)
Definition getfullargspec_args (s : signature) : list string := sig_args s.

(** An element of [required_cores]: a stage class, or a tuple of alternative
    stage classes.  Classes are referred to by identity; [rc_has_len] records
    whether the class itself answers [hasattr(cls, "__len__")]. *)
Inductive required_core :=
  | RcClass (cls : nat) (rc_has_len : bool)
  | RcTuple (alts : list nat).

(** A class, by what the code reads of it: identity, [__name__], [mro()] (this
    class first) with the signature of each [cls.__init__], and the class
    attributes of [ModuleBase]. *)
Record pyclass := {
  cls_id : nat;
  cls_name : string;
  cls_mro : list (nat * signature);
  _extra_defining_attributes : list string;
  _ignore_attributes : list string;
  required_cores : list required_core;
}.

(** An instance: its class and its attribute dictionary. *)
Record pyobject := {
  ob_class : pyclass;
  ob_dict : gmap string pyval;
}.

(** [isinstance(m, r)] for a class [r] given by identity. *)
Definition isinstance (m : pyobject) (r : nat) : bool :=
  existsb (Nat.eqb r) (map fst (cls_mro (ob_class m))).

(** [hasattr(o, a)] and [getattr(o, a)] on instance attributes (the names
    [__eq__] asks for are constructor arguments, with or without a leading
    underscore: none of them is a method or a class attribute). *)
Definition hasattr (o : pyobject) (a : string) : bool :=
  match ob_dict o !! a with Some _ => true | None => false end.

Definition getattr {S} (o : pyobject) (a : string) : M S pyval :=
  match ob_dict o !! a with
  | Some v => ret v
  | None =>
      raise (AttributeError
               ("'" +:+ cls_name (ob_class o) +:+ "' object has no attribute '" +:+ a +:+ "'"))
  end.

(** Modelled from the spec: the chain class (cosmoHammer) is not among the
    sources.  The chain "owns an ordered sequence of Pipeline Stages ... plus
    the Parameter Set" and is "the sole source of current sampled parameters
    and all loaded stages"; it is kept by what a stage reads of it:
    [chain.params] ([None] or the declared parameters, whose [keys] are the
    names), [chain.getCoreModules()] and the parameters of
    [chain.createChainContext().getParams()]. *)
Record chain := {
  chain_params : option pydict;
  getCoreModules : list pyobject;
  chain_context_params : pydict;
}.

(** ** ModuleBase *)

Module ModuleBase.
Section Methods.
Context {S : Type} `{Logging S}.

(** [__init__] : [self._is_setup = False] *)
Definition __init__ : gmap string pyval := {[ "_is_setup" := VBool false ]}.

(** property [chain]: the attached chain, [NotAChain] when there is none. *)
Definition chain_of (ch : option chain) : M S chain :=
  match ch with
  | Some c => ret c
  | None => raise NotAChain
  end.

(** property [parameter_names] *)
Definition parameter_names (ch : option chain) : M S (list string) :=
  c <- chain_of ch ;;
  ret (match chain_params c with
       | Some ps => dict_keys ps
       | None => []
       end).

(** property [_cores] *)
Definition _cores (ch : option chain) : M S (list pyobject) :=
  c <- chain_of ch ;; ret (getCoreModules c).

(** [rc.__class__.__name__] for an element of [required_cores] *)
Definition rc_class_name (rc : required_core) : string :=
  match rc with
  | RcClass _ _ => "type"
  | RcTuple _ => "tuple"
  end.

(** One round of the loop of [_check_required_cores]. *)
Definition check_one_required (cls : pyclass) (ch : option chain)
    (rc : required_core) : M S unit :=
  let wrapped :=
    match rc with
    | RcClass c false => RcTuple [c]          (* rc = (rc,) *)
    | _ => rc
    end in
  cores <- _cores ch ;;
  found <-
    match wrapped, cores with
    | RcTuple alts, _ =>
        ret (existsb (fun m => existsb (isinstance m) alts) cores)
    | RcClass _ _, [] => ret false
    | RcClass _ _, _ :: _ => raise (TypeError "'type' object is not iterable")
    end ;;
  if found : bool then ret tt
  else raise (ValueError (cls_name cls +:+ " needs the "
                            +:+ rc_class_name wrapped +:+ " to be loaded.")).

(** [_check_required_cores]; [cls] is [self.__class__], which is all the
    method reads of [self] besides the chain. *)
Definition _check_required_cores (cls : pyclass) (ch : option chain) : M S unit :=
  for_each (required_cores cls) (check_one_required cls ch).

(** [tuple(set(args))]: each name once.  A set promises no order; one is
    fixed here, and [lightcone_eq_in_any_order] below covers the others. *)
Definition set_order (args : list string) : list string := remove_dups args.

(** The names [__eq__] walks through. *)
Definition eq_args (cls : pyclass) : list string :=
  set_order (concat (map (fun c => getfullargspec_args (snd c)) (cls_mro cls)))
    ++ _extra_defining_attributes cls.

(** The body of the loop of [__eq__] for one name: [Some false] stands for
    [return False], [None] for going on to the next name. *)
Definition eq_step (self other : pyobject) (arg : string) : M S (option bool) :=
  if String.eqb arg "self" || existsb (String.eqb arg) (_ignore_attributes (ob_class self))
  then ret None
  else
    let compare (a : string) : M S (option bool) :=
      x <- getattr self a ;;
      y <- getattr other a ;;
      match py_ne x y with
      | Some true => ret (Some false)
      | Some false => ret None
      | None =>
          logger (LogWarning ("parameter " +:+ arg
                     +:+ " has type which does not allow for comparison")) ;;;
          ret None
      end in
    if hasattr self ("_" +:+ arg) then compare ("_" +:+ arg)
    else if hasattr self arg then compare arg
    else logger (LogWarning ("parameter " +:+ arg +:+ " not found in instance")) ;;;
         ret None.

Fixpoint eq_loop (self other : pyobject) (args : list string) : M S bool :=
  match args with
  | [] => ret true
  | arg :: rest =>
      r <- eq_step self other arg ;;
      match r with
      | Some b => ret b
      | None => eq_loop self other rest
      end
  end.

Definition __eq__ (self other : pyobject) : M S bool :=
  if negb (String.eqb (cls_name (ob_class self)) (cls_name (ob_class other)))
  then ret false
  else eq_loop self other (eq_args (ob_class self)).

(** [setup] on a stage whose class keeps the [_check_required_cores] of
    [ModuleBase] (a stage that is no core); on a core the call resolves to
    the override, see [CoreBase.setup]. *)
Definition setup (cls : pyclass) (ch : option chain) : M S unit :=
  _check_required_cores cls ch.
End Methods.
End ModuleBase.

(** Effects on one component of a pair of states. *)
Definition on_snd {X S A} (m : M S A) : M (X * S) A :=
  fun xs => let '(r, s') := m (snd xs) in (r, (fst xs, s')).
Definition on_fst {X S A} (m : M X A) : M (X * S) A :=
  fun xs => let '(r, x') := m (fst xs) in (r, (x', snd xs)).
Definition get_fst {X S} : M (X * S) X := fun xs => (Ok (fst xs), xs).
Definition set_fst {X S} (x : X) : M (X * S) unit := fun xs => (Ok tt, (x, snd xs)).

#[export] Instance log_snd {X S} `{Logging S} : Logging (X * S) :=
  fun r xs => (fst xs, emit r (snd xs)).

(** Modelled from the spec: the context class (cosmoHammer) is not among the
    sources.  "Context protocol: add(name, value), get(name), getParams()
    (current iteration's sampled-parameter values)": the context of one
    sampler iteration holds the sampled parameters and the data written with
    [add] and read with [get]. *)
Record Ctx := {
  getParams : pydict;
  ctx_data : gmap string pyval;
}.

Definition ctx_add (key : string) (v : pyval) (ctx : Ctx) : Ctx :=
  {| getParams := getParams ctx; ctx_data := <[key := v]> (ctx_data ctx) |}.

(** [ctx.get(key)]: the stored value, [None] when there is none. *)
Definition ctx_get (key : string) (ctx : Ctx) : pyval :=
  default VNone (ctx_data ctx !! key).

(** ** CoreBase *)

Module CoreBase.
Section Methods.
Context {S : Type} `{Logging S}.

(** [__init__(store=None)]: [self.store = store or {}] *)
Definition __init__ (store : option pydict) : pydict :=
  match store with
  | Some (kv :: d) => kv :: d
  | Some [] | None => []
  end.

(** The inner [for rc in self.required_cores] loop for one loaded core:
    [break] on a name match with the requirement, [ValueError] when the core
    has the class name of [self]. *)
Fixpoint scan_required (self_name core_name : string)
    (rcs : list required_core) : M S unit :=
  match rcs with
  | [] => ret tt
  | rc :: rest =>
      if String.eqb core_name (ModuleBase.rc_class_name rc) then ret tt
      else if String.eqb core_name self_name then
        raise (ValueError (self_name +:+ " requires "
                             +:+ ModuleBase.rc_class_name rc +:+ " to be loaded."))
      else scan_required self_name core_name rest
  end.

(** [_check_required_cores], as overridden for cores. *)
Definition _check_required_cores (cls : pyclass) (ch : option chain) : M S unit :=
  cores <- ModuleBase._cores ch ;;
  for_each cores (fun core =>
    scan_required (cls_name cls) (cls_name (ob_class core)) (required_cores cls)).

(** [ModuleBase.setup] run on a core: [self._check_required_cores()]
    resolves to the override. *)
Definition setup (cls : pyclass) (ch : option chain) : M S unit :=
  _check_required_cores cls ch.
End Methods.

Section Storage.
(** Calling a stored extraction function on the context. *)
Variable call : pyval -> Ctx -> result pyval.

(** [prepare_storage(ctx, storage)]: the state is the [storage] dict and the
    log. *)
Fixpoint prepare_storage_items (items : pydict) (ctx : Ctx)
    : M (gmap string pyval * list log_record) unit :=
  match items with
  | [] => ret tt
  | (name, storage_function) :: rest =>
      match call storage_function ctx with
      | Ok v =>
          on_fst (fun storage => (Ok tt, <[name := v]> storage)) ;;;
          prepare_storage_items rest ctx
      | Raise e =>
          logger (LogError ("Exception while trying to evaluate storage function "
                              +:+ name)) ;;;
          raise e
      end
  end.

Definition prepare_storage (store : pydict) (ctx : Ctx)
    : M (gmap string pyval * list log_record) unit :=
  prepare_storage_items store ctx.
End Storage.
End CoreBase.

(** ** The simulation engine [py21cmfast]

    The engine is outside this repository.  It is taken as given: its
    parameter structures are values built by four constructors and read
    through [.self] and [.defining_dict]; its simulation functions act on an
    engine state of their own (the cache on disk included) and return
    artifacts of types the stage never looks into, except for the seed of the
    initial conditions and the named fields of a coeval box. *)

Section Requests.
Variables IC PF : Type.

(** Keyword arguments of [p21.initial_conditions]. *)
Record ic_request := {
  ic_user_params : pyval;
  ic_cosmo_params : pyval;
  ic_direc : option string;
  ic_regenerate : bool;
  ic_random_seed : option Z;
  ic_write : option bool;       (* [None]: keyword not passed *)
  ic_global_params : pydict;
}.

(** Keyword arguments of [p21.perturb_field]. *)
Record pf_request := {
  pf_redshift : pyval;
  pf_init_boxes : IC;
  pf_direc : option string;
  pf_regenerate : bool;
  pf_write : option bool;
  pf_global_params : pydict;
}.

(** Keyword arguments of [p21.run_coeval]; [rc_perturb] is the list object
    passed, by address and by content. *)
Record coeval_request := {
  rc_redshift : pyval;
  rc_astro_params : pyval;
  rc_flag_options : pyval;
  rc_init_box : IC;
  rc_perturb : nat * list PF;
  rc_regenerate : bool;
  rc_random_seed : option Z;
  rc_write : bool;
  rc_direc : option string;
  rc_global_params : pydict;
}.

(** Keyword arguments of [p21.run_lightcone]. *)
Record lightcone_request := {
  lc_redshift : pyval;
  lc_max_redshift : pyval;
  lc_astro_params : pyval;
  lc_flag_options : pyval;
  lc_cosmo_params : pyval;
  lc_user_params : pyval;
  lc_regenerate : bool;
  lc_random_seed : option Z;
  lc_write : bool;
  lc_direc : option string;
  lc_global_params : pydict;
}.

(** Keyword arguments of [p21.compute_luminosity_function]. *)
Record lf_request := {
  lf_redshifts : pyval;
  lf_astro_params : pyval;
  lf_flag_options : pyval;
  lf_cosmo_params : pyval;
  lf_user_params : pyval;
  lf_nbins : Z;
}.

(** The calls made to the engine, in order. *)
Inductive engine_call :=
  | CallInitialConditions (r : ic_request)
  | CallPerturbField (r : pf_request)
  | CallRunCoeval (r : coeval_request)
  | CallRunLightcone (r : lightcone_request)
  | CallLuminosityFunction (r : lf_request).
End Requests.

Arguments pf_redshift {IC} p.
Arguments pf_init_boxes {IC} p.
Arguments pf_direc {IC} p.
Arguments pf_regenerate {IC} p.
Arguments pf_write {IC} p.
Arguments pf_global_params {IC} p.
Arguments rc_redshift {IC PF} c.
Arguments rc_astro_params {IC PF} c.
Arguments rc_flag_options {IC PF} c.
Arguments rc_init_box {IC PF} c.
Arguments rc_perturb {IC PF} c.
Arguments rc_regenerate {IC PF} c.
Arguments rc_random_seed {IC PF} c.
Arguments rc_write {IC PF} c.
Arguments rc_direc {IC PF} c.
Arguments rc_global_params {IC PF} c.
Arguments CallInitialConditions {IC PF} r.
Arguments CallPerturbField {IC PF} r.
Arguments CallRunCoeval {IC PF} r.
Arguments CallRunLightcone {IC PF} r.
Arguments CallLuminosityFunction {IC PF} r.

(** The three aligned arrays [compute_luminosity_function] returns, one row
    per redshift. *)
Record lf_arrays := {
  lf_Muv : list (list fnum);
  lf_mhalo : list (list fnum);
  lf_lfunc : list (list fnum);
}.

Record py21cmfast := {
  E : Type;                (* state of the engine, its cache included *)
  IC : Type;               (* InitialConditions *)
  PF : Type;               (* PerturbedField *)
  Coeval : Type;
  UserParams : pyval -> pyval;
  FlagOptions : pyval -> pyval;
  AstroParams : pyval -> pyval;
  CosmoParams : pyval -> pyval;
  struct_self : pyval -> pydict;            (* [.self] *)
  defining_dict : pyval -> pydict;          (* [.defining_dict] *)
  initial_conditions : ic_request -> M E IC;
  random_seed : IC -> Z;                    (* [.random_seed] *)
  perturb_field : pf_request IC -> M E PF;
  run_coeval : coeval_request IC PF -> M E (list Coeval);
  coeval_getattr : Coeval -> string -> option pyval;
  run_lightcone : lightcone_request -> M E pyval;
  compute_luminosity_function : lf_request -> M E lf_arrays;
}.

(** ** CoreCoevalModule *)

(** What the stage acts on besides itself: the log, the engine, the record
    of the calls made to it, and the list objects the stage has created
    (the address of a list is its index). *)
Record world (p21 : py21cmfast) := {
  w_log : list log_record;
  w_engine : E p21;
  w_calls : list (engine_call (IC p21) (PF p21));
  w_heap : list (list (PF p21));
}.
Arguments w_log {p21} w.
Arguments w_engine {p21} w.
Arguments w_calls {p21} w.
Arguments w_heap {p21} w.

#[export] Instance log_world {p21} : Logging (world p21) :=
  fun r w => {| w_log := w_log w ++ [r]; w_engine := w_engine w;
                w_calls := w_calls w; w_heap := w_heap w |}.

(** The I/O keyword options ([**io_options]) by their documented keys; an
    option left out is [None]. *)
Record io_kwargs := {
  kw_store : option pydict;
  kw_cache_dir : option string;
  kw_cache_mcmc : option bool;
}.

(** [self.io_options] *)
Record io_options_dict := {
  io_store : pydict;
  io_cache_dir : option string;
  io_cache_mcmc : bool;
}.

(** The arguments of [CoreCoevalModule.__init__]. *)
Record coeval_args := {
  arg_redshift : pyval;
  arg_user_params : pyval;
  arg_flag_options : pyval;
  arg_astro_params : pyval;
  arg_cosmo_params : pyval;
  arg_regenerate : bool;
  arg_change_seed_every_iter : bool;
  arg_ctx_variables : list string;
  arg_initial_conditions_seed : option Z;
  arg_global_params : option pydict;
  arg_io_options : io_kwargs;
}.

(** The instance attributes of a [CoreCoevalModule]. *)
Record CoreCoevalModule := {
  _is_setup : bool;
  store : pydict;
  redshift : pyval;
  user_params : pyval;
  flag_options : pyval;
  astro_params : pyval;
  cosmo_params : pyval;
  change_seed_every_iter : bool;
  initial_conditions_seed : option Z;
  regenerate : bool;
  ctx_variables : list string;
  global_params : pydict;
  io_options : io_options_dict;
}.

(** [iter(v)]: the elements of a sequence, the characters of a string, the
    keys of a dict, the entries of an array (each as an array of one entry);
    [TypeError] for anything else. *)
Definition py_iter {S} (v : pyval) : M S (list pyval) :=
  match v with
  | VList l | VTuple l => ret l
  | VStr s => ret (map (fun c => VStr (String c EmptyString)) (String.list_ascii_of_string s))
  | VDict d => ret (map (fun kv => VStr (fst kv)) d)
  | VArray a => ret (map (fun x => VArray [x]) a)
  | VNone | VBool _ | VNum _ | VCallable _ => raise (TypeError "object is not iterable")
  end.

(** [len(v)] *)
Definition py_len {S} (v : pyval) : M S nat :=
  match v with
  | VList l | VTuple l => ret (length l)
  | VStr s => ret (String.length s)
  | VDict d => ret (length d)
  | VArray a => ret (length a)
  | VNone | VBool _ | VNum _ | VCallable _ => raise (TypeError "object has no len()")
  end.

Definition in_dict (k : string) (d : pydict) : bool :=
  match dict_get k d with Some _ => true | None => false end.

Module CoreCoevalModule.
Section Methods.
Context (p21 : py21cmfast).

Definition default_io_options : io_options_dict :=
  {| io_store := []; io_cache_dir := None; io_cache_mcmc := false |}.

(** [self.io_options.update(io_options)] *)
Definition update_io_options (d : io_options_dict) (kw : io_kwargs) : io_options_dict :=
  {| io_store := default (io_store d) (kw_store kw);
     io_cache_dir := match kw_cache_dir kw with
                     | Some dir => Some dir
                     | None => io_cache_dir d
                     end;
     io_cache_mcmc := default (io_cache_mcmc d) (kw_cache_mcmc kw) |}.

Definition set_initial_conditions_seed (seed : option Z) (self : CoreCoevalModule)
    : CoreCoevalModule :=
  {| _is_setup := _is_setup self; store := store self; redshift := redshift self;
     user_params := user_params self; flag_options := flag_options self;
     astro_params := astro_params self; cosmo_params := cosmo_params self;
     change_seed_every_iter := change_seed_every_iter self;
     initial_conditions_seed := seed;
     regenerate := regenerate self; ctx_variables := ctx_variables self;
     global_params := global_params self; io_options := io_options self |}.

Definition set_astro_cosmo_params (ap cp : pyval) (self : CoreCoevalModule)
    : CoreCoevalModule :=
  {| _is_setup := _is_setup self; store := store self; redshift := redshift self;
     user_params := user_params self; flag_options := flag_options self;
     astro_params := ap; cosmo_params := cp;
     change_seed_every_iter := change_seed_every_iter self;
     initial_conditions_seed := initial_conditions_seed self;
     regenerate := regenerate self; ctx_variables := ctx_variables self;
     global_params := global_params self; io_options := io_options self |}.

(** Truth value of the seed: unset and zero are both false. *)
Definition seed_truth (seed : option Z) : bool :=
  match seed with
  | Some n => negb (Z.eqb n 0)
  | None => false
  end.

Definition __init__ {S} `{Logging S} (a : coeval_args) : M S CoreCoevalModule :=
  let self :=
    {| _is_setup := false;
       store := CoreBase.__init__ (kw_store (arg_io_options a));
       redshift := if has_len (arg_redshift a) then arg_redshift a
                   else VList [arg_redshift a];
       user_params := UserParams p21 (arg_user_params a);
       flag_options := FlagOptions p21 (arg_flag_options a);
       astro_params := AstroParams p21 (arg_astro_params a);
       cosmo_params := CosmoParams p21 (arg_cosmo_params a);
       change_seed_every_iter := arg_change_seed_every_iter a;
       initial_conditions_seed := arg_initial_conditions_seed a;
       regenerate := arg_regenerate a;
       ctx_variables := arg_ctx_variables a;
       global_params := match arg_global_params a with
                        | Some (kv :: d) => kv :: d
                        | Some [] | None => []
                        end;
       io_options := update_io_options default_io_options (arg_io_options a) |} in
  if seed_truth (initial_conditions_seed self) && change_seed_every_iter self then
    logger (LogWarning ("Attempting to set initial conditions seed while desiring to change seeds every "
                          +:+ "iteration. Unsetting initial conditions seed.")) ;;;
    ret (set_initial_conditions_seed None self)
  else ret self.

(** [_update_params(params)]: the fiducial structures overlaid with the
    sampled parameters they define. *)
Definition overlay (struct : pyval) (params : pydict) : pydict :=
  dict_update (struct_self p21 struct)
    (map (fun kv => (fst kv, default (snd kv) (dict_get (fst kv) params)))
       (filter (fun kv => in_dict (fst kv) (defining_dict p21 struct) = true) params)).

Definition _update_params (self : CoreCoevalModule) (params : pydict) : pyval * pyval :=
  (AstroParams p21 (VDict (overlay (astro_params self) params)),
   CosmoParams p21 (VDict (overlay (cosmo_params self) params))).

(** A call to the engine: recorded, and run on the engine's state. *)
Definition call_engine {A} (c : engine_call (IC p21) (PF p21)) (m : M (E p21) A)
    : M (world p21) A :=
  fun w =>
    let '(r, e') := m (w_engine w) in
    (r, {| w_log := w_log w; w_engine := e';
           w_calls := w_calls w ++ [c]; w_heap := w_heap w |}).

(** [perturb_field = []]: a new list object; its address is returned. *)
Definition new_list : M (world p21) nat :=
  fun w => (Ok (length (w_heap w)),
            {| w_log := w_log w; w_engine := w_engine w;
               w_calls := w_calls w; w_heap := w_heap w ++ [[]] |}).

(** [perturb_field += [x]] on the list at [addr]. *)
Definition list_iadd (addr : nat) (x : PF p21) : M (world p21) unit :=
  fun w => (Ok tt,
            {| w_log := w_log w; w_engine := w_engine w; w_calls := w_calls w;
               w_heap := alter (fun l => l ++ [x]) addr (w_heap w) |}).

Definition read_list (addr : nat) : M (world p21) (list (PF p21)) :=
  fun w => (Ok (default [] (w_heap w !! addr)), w).

(** The loop that fills the list of perturbed fields. *)
Definition perturb_all (self : CoreCoevalModule) (ic : IC p21) (regen : bool)
    (write : option bool) (addr : nat) : M (world p21) unit :=
  zs <- py_iter (redshift self) ;;
  for_each zs (fun z =>
    let r := {| pf_redshift := z; pf_init_boxes := ic;
                pf_direc := io_cache_dir (io_options self);
                pf_regenerate := regen; pf_write := write;
                pf_global_params := global_params self |} in
    pf <- call_engine (CallPerturbField r) (perturb_field p21 r) ;;
    list_iadd addr pf).

Definition setup (cls : pyclass) (ch : option chain)
    : M (CoreCoevalModule * world p21) unit :=
  CoreBase.setup cls ch ;;;
  c <- ModuleBase.chain_of ch ;;
  self <- get_fst ;;
  let '(ap, cp) := _update_params self (chain_context_params c) in
  set_fst (set_astro_cosmo_params ap cp self) ;;;
  self <- get_fst ;;
  names <- ModuleBase.parameter_names ch ;;
  if negb (existsb (fun p => in_dict p (struct_self p21 (cosmo_params self))) names)
     && negb (change_seed_every_iter self)
  then
    logger (LogInfo "Initializing init and perturb boxes for the entire chain.") ;;;
    let r := {| ic_user_params := user_params self;
                ic_cosmo_params := cosmo_params self;
                ic_direc := io_cache_dir (io_options self);
                ic_regenerate := regenerate self;
                ic_random_seed := initial_conditions_seed self;
                ic_write := None;
                ic_global_params := global_params self |} in
    ic <- on_snd (call_engine (CallInitialConditions r) (initial_conditions p21 r)) ;;
    set_fst (set_initial_conditions_seed (Some (random_seed p21 ic)) self) ;;;
    addr <- on_snd new_list ;;
    on_snd (perturb_all self ic (regenerate self) None addr) ;;;
    logger (LogInfo "Initialization done.")
  else ret tt.

Definition get_current_init_and_perturb (self : CoreCoevalModule) (cosmo : pyval)
    : M (world p21) (IC p21 * nat) :=
  let r := {| ic_user_params := user_params self;
              ic_cosmo_params := cosmo;
              ic_direc := io_cache_dir (io_options self);
              ic_regenerate := false;
              ic_random_seed := initial_conditions_seed self;
              ic_write := Some (io_cache_mcmc (io_options self));
              ic_global_params := global_params self |} in
  ic <- call_engine (CallInitialConditions r) (initial_conditions p21 r) ;;
  addr <- new_list ;;
  perturb_all self ic false (Some (io_cache_mcmc (io_options self))) addr ;;;
  ret (ic, addr).

(** [[getattr(c, key) for c in coeval]]; [None] on an [AttributeError]. *)
Definition collect_field (key : string) (coeval : list (Coeval p21)) : option (list pyval) :=
  mapM (fun c => coeval_getattr p21 c key) coeval.

(** [build_model_data(ctx)]; the debug records keep the message templates,
    not the formatted values. *)
Definition build_model_data (self : CoreCoevalModule) : M (Ctx * world p21) unit :=
  logger (LogDebug "Updating parameters: {}") ;;;
  ctx <- get_fst ;;
  let '(ap, cp) := _update_params self (getParams ctx) in
  logger (LogDebug "AstroParams: {}") ;;;
  boxes <- on_snd (get_current_init_and_perturb self cp) ;;
  let '(ic, addr) := boxes in
  pfs <- on_snd (read_list addr) ;;
  let r := {| rc_redshift := redshift self; rc_astro_params := ap;
              rc_flag_options := flag_options self; rc_init_box := ic;
              rc_perturb := (addr, pfs); rc_regenerate := regenerate self;
              rc_random_seed := initial_conditions_seed self;
              rc_write := io_cache_mcmc (io_options self);
              rc_direc := io_cache_dir (io_options self);
              rc_global_params := global_params self |} in
  coeval <- on_snd (call_engine (CallRunCoeval r) (run_coeval p21 r)) ;;
  logger (LogDebug "Adding {} to context data") ;;;
  for_each (ctx_variables self) (fun key =>
    match collect_field key coeval with
    | Some vs => on_fst (fun ctx => (Ok tt, ctx_add key (VList vs) ctx))
    | None => raise (ValueError ("ctx_variable " +:+ key +:+ " not an attribute of Coeval"))
    end).
End Methods.
End CoreCoevalModule.

(** [v[0]]: the first entry of a sequence; on a dict the entry under the
    key [0], which no dict of the model has. *)
Definition py_first {S} (v : pyval) : M S pyval :=
  match v with
  | VList (x :: _) | VTuple (x :: _) => ret x
  | VArray (x :: _) => ret (VArray [x])
  | VStr (String c _) => ret (VStr (String c EmptyString))
  | VList [] => raise (IndexError "list index out of range")
  | VTuple [] => raise (IndexError "tuple index out of range")
  | VStr EmptyString => raise (IndexError "string index out of range")
  | VArray [] => raise (IndexError "index 0 is out of bounds for axis 0 with size 0")
  | VDict _ => raise (KeyError "0")
  | VNone | VBool _ | VNum _ | VCallable _ =>
      raise (TypeError "object is not subscriptable")
  end.

(** ** CoreLightConeModule *)

(** The arguments of [CoreLightConeModule.__init__]: the keyword-only
    [max_redshift], and the keywords handed on to [CoreCoevalModule]
    ([lca_ctx_variables_given]: whether [ctx_variables] was among them). *)
Record lightcone_args := {
  lca_max_redshift : pyval;
  lca_ctx_variables_given : bool;
  lca_kwargs : coeval_args;
}.

Record CoreLightConeModule := {
  lc_coeval : CoreCoevalModule;
  max_redshift : pyval;
}.

Module CoreLightConeModule.
Section Methods.
Context (p21 : py21cmfast).

Definition __init__ {S} `{Logging S} (a : lightcone_args) : M S CoreLightConeModule :=
  (if lca_ctx_variables_given a then
     logger (PyWarning ("ctx_variables does not apply to the lightcone module (at least not yet). It will "
                          +:+ "be ignored."))
   else ret tt) ;;;
  base <- CoreCoevalModule.__init__ p21 (lca_kwargs a) ;;
  ret {| lc_coeval := base; max_redshift := lca_max_redshift a |}.

Definition build_model_data (self : CoreLightConeModule) : M (Ctx * world p21) unit :=
  let base := lc_coeval self in
  ctx <- get_fst ;;
  let '(ap, cp) := CoreCoevalModule._update_params p21 base (getParams ctx) in
  z0 <- py_first (redshift base) ;;
  let r := {| lc_redshift := z0; lc_max_redshift := max_redshift self;
              lc_astro_params := ap; lc_flag_options := flag_options base;
              lc_cosmo_params := cp; lc_user_params := user_params base;
              lc_regenerate := regenerate base;
              lc_random_seed := initial_conditions_seed base;
              lc_write := io_cache_mcmc (io_options base);
              lc_direc := io_cache_dir (io_options base);
              lc_global_params := global_params base |} in
  lightcone <- on_snd (CoreCoevalModule.call_engine p21 (CallRunLightcone r)
                         (run_lightcone p21 r)) ;;
  on_fst (fun ctx => (Ok tt, ctx_add "lightcone" lightcone ctx)).
End Methods.
End CoreLightConeModule.

(** ** CoreLuminosityFunction *)

Record luminosity_args := {
  lfa_sigma : pyval;
  lfa_name : string;
  lfa_n_muv_bins : Z;
  lfa_kwargs : coeval_args;
}.

Record CoreLuminosityFunction := {
  _sigma : pyval;
  name : string;
  n_muv_bins : Z;
  lf_coeval : CoreCoevalModule;
}.

Definition fnum_add (x y : fnum) : fnum :=
  match x, y with
  | FVal a, FVal b => FVal (a + b)
  | _, _ => FNaN
  end.

Module CoreLuminosityFunction.
Section Methods.
Context (p21 : py21cmfast).

Definition __init__ {S} `{Logging S} (a : luminosity_args) : M S CoreLuminosityFunction :=
  base <- CoreCoevalModule.__init__ p21 (lfa_kwargs a) ;;
  ret {| _sigma := lfa_sigma a; name := lfa_name a;
         n_muv_bins := lfa_n_muv_bins a; lf_coeval := base |}.

Definition set_coeval (base : CoreCoevalModule) (self : CoreLuminosityFunction)
    : CoreLuminosityFunction :=
  {| _sigma := _sigma self; name := name self; n_muv_bins := n_muv_bins self;
     lf_coeval := base |}.

Definition setup (cls : pyclass) (ch : option chain)
    : M (CoreLuminosityFunction * world p21) unit :=
  CoreBase.setup cls ch ;;;
  c <- ModuleBase.chain_of ch ;;
  self <- get_fst ;;
  let '(ap, cp) :=
    CoreCoevalModule._update_params p21 (lf_coeval self) (chain_context_params c) in
  set_fst (set_coeval (CoreCoevalModule.set_astro_cosmo_params ap cp (lf_coeval self)) self).

Definition run (self : CoreLuminosityFunction) (ap cp : pyval) : M (world p21) lf_arrays :=
  let base := lf_coeval self in
  let r := {| lf_redshifts := redshift base; lf_astro_params := ap;
              lf_flag_options := flag_options base; lf_cosmo_params := cp;
              lf_user_params := user_params base; lf_nbins := n_muv_bins self |} in
  CoreCoevalModule.call_engine p21 (CallLuminosityFunction r)
    (compute_luminosity_function p21 r).

(** [m[~np.isnan(l)]]: the entries of [m] where [l] is a number; the mask
    must be as long as [m]. *)
Fixpoint mask_entries (l m : list fnum) : list fnum :=
  match l, m with
  | x :: l', y :: m' =>
      if isnan x then mask_entries l' m' else y :: mask_entries l' m'
  | _, _ => []
  end.

Definition select_not_nan {S} (l m : list fnum) : M S (list fnum) :=
  if Nat.eqb (length l) (length m) then ret (mask_entries l m)
  else raise (IndexError "boolean index did not match indexed array").

(** [[m[~np.isnan(l)] for l, m in zip(lfunc, rows)]] *)
Fixpoint filter_rows {S} (lfunc rows : list (list fnum)) : M S (list (list fnum)) :=
  match lfunc, rows with
  | l :: lfunc', m :: rows' =>
      r <- select_not_nan l m ;;
      rs <- filter_rows lfunc' rows' ;;
      ret (r :: rs)
  | _, _ => ret []
  end.

Definition arrays_value (rows : list (list fnum)) : pyval := VList (map VArray rows).

Definition build_model_data (self : CoreLuminosityFunction)
    : M (Ctx * world p21) unit :=
  ctx <- get_fst ;;
  let '(ap, cp) :=
    CoreCoevalModule._update_params p21 (lf_coeval self) (getParams ctx) in
  res <- on_snd (run self ap cp) ;;
  Muv <- filter_rows (lf_lfunc res) (lf_Muv res) ;;
  mhalo <- filter_rows (lf_lfunc res) (lf_mhalo res) ;;
  lfunc <- filter_rows (lf_lfunc res) (lf_lfunc res) ;;
  on_fst (fun ctx =>
    (Ok tt, ctx_add ("luminosity_function" +:+ name self)
              (VDict [("Muv", arrays_value Muv); ("mhalo", arrays_value mhalo);
                      ("lfunc", arrays_value lfunc)]) ctx)).

(** property [sigma] *)
Definition sigma {S} (self : CoreLuminosityFunction) : M S pyval :=
  match _sigma self with
  | VNone => ret VNone
  | sg =>
      if negb (has_len sg) then
        n <- py_len (redshift (lf_coeval self)) ;;
        ret (VList (repeat sg n))
      else
        k <- py_len sg ;;
        n <- py_len (redshift (lf_coeval self)) ;;
        if negb (Nat.eqb k n) then ret (VList (repeat sg n)) else ret sg
  end.
End Methods.

Section Mock.
Context (p21 : py21cmfast).
(** The random generator of NumPy and the call of a noise function on the
    magnitudes are outside the module. *)
Variable RNG : Type.
Variable np_random_normal : pyval -> nat -> M RNG (list fnum).
Variable call_sigma : pyval -> pyval -> result pyval.

(** [d[key]] on the value [ctx.get] returned *)
Definition subscript {S} (d : pyval) (key : string) : M S pyval :=
  match d with
  | VDict items =>
      match dict_get key items with
      | Some v => ret v
      | None => raise (KeyError key)
      end
  | _ => raise (TypeError "object is not subscriptable")
  end.

(** The array [lfunc[i]] of the bundle in the context. *)
Definition lfunc_row (key : string) (i : nat) : M (Ctx * RNG) (list fnum) :=
  ctx <- get_fst ;;
  lfunc <- subscript (ctx_get key ctx) "lfunc" ;;
  match lfunc with
  | VList rows =>
      match rows !! i with
      | Some (VArray a) => ret a
      | Some _ => raise (TypeError "unsupported operand")
      | None => raise (IndexError "list index out of range")
      end
  | _ => raise (TypeError "object is not subscriptable")
  end.

(** [lfunc[i] += noise]: the list lives in the context, which sees the
    change. *)
Definition lfunc_row_iadd (key : string) (i : nat) (noise : list fnum)
    : M (Ctx * RNG) unit :=
  a <- lfunc_row key i ;;
  on_fst (fun ctx =>
    match ctx_get key ctx with
    | VDict items =>
        match dict_get "lfunc" items with
        | Some (VList rows) =>
            (Ok tt, ctx_add key
                      (VDict (dict_set "lfunc"
                                (VList (<[i := VArray (zip_with fnum_add a noise)]> rows))
                                items)) ctx)
        | _ => (Ok tt, ctx)
        end
    | _ => (Ok tt, ctx)
    end).

Definition add_noise (key : string) (i : nat) (scale : result pyval)
    : M (Ctx * RNG) unit :=
  a <- lfunc_row key i ;;
  sc <- lift_result scale ;;
  noise <- on_snd (np_random_normal sc (length a)) ;;
  lfunc_row_iadd key i noise.

(** The body of the loop over [enumerate(self.sigma)], with its
    [except TypeError] retry. *)
Definition mock_row (key : string) (muv : pyval) (i : nat) (s : pyval)
    : M (Ctx * RNG) unit :=
  fun st =>
    match add_noise key i (call_sigma s muv) st with
    | (Raise (TypeError _), st') => add_noise key i (Ok s) st'
    | r => r
    end.

Fixpoint mock_rows (key : string) (muv : pyval) (i : nat) (sigmas : list pyval)
    : M (Ctx * RNG) unit :=
  match sigmas with
  | [] => ret tt
  | s :: rest => mock_row key muv i s ;;; mock_rows key muv (Datatypes.S i) rest
  end.

Definition convert_model_to_mock (self : CoreLuminosityFunction) : M (Ctx * RNG) unit :=
  sg <- sigma self ;;
  match sg with
  | VNone => raise (ValueError "Cannot create a mock with sigma=None!")
  | _ =>
      ctx <- get_fst ;;
      let key := "luminosity_function" +:+ name self in
      _lfunc <- subscript (ctx_get key ctx) "lfunc" ;;
      muv <- subscript (ctx_get key ctx) "Muv" ;;
      sg <- sigma self ;;
      sigmas <- py_iter sg ;;
      mock_rows key muv 0 sigmas
  end.
End Mock.
End CoreLuminosityFunction.

(** ** The classes of the file and the attribute dictionaries of their instances *)

Definition plain_signature (args : list string) : signature :=
  {| sig_args := args; sig_varargs := None; sig_kwonlyargs := []; sig_varkw := None |}.

(** [object.__init__(self, /, *args, **kwargs)] *)
Definition object_init : signature :=
  {| sig_args := ["self"]; sig_varargs := Some "args";
     sig_kwonlyargs := []; sig_varkw := Some "kwargs" |}.

(** [ModuleBase.__init__(self)] *)
Definition ModuleBase_init : signature := plain_signature ["self"].

(** [CoreBase.__init__(self, store=None)] *)
Definition CoreBase_init : signature := plain_signature ["self"; "store"].

(** [CoreCoevalModule.__init__(self, redshift, ..., global_params=None, **io_options)] *)
Definition CoreCoevalModule_init : signature :=
  {| sig_args := ["self"; "redshift"; "user_params"; "flag_options"; "astro_params";
                  "cosmo_params"; "regenerate"; "change_seed_every_iter";
                  "ctx_variables"; "initial_conditions_seed"; "global_params"];
     sig_varargs := None; sig_kwonlyargs := []; sig_varkw := Some "io_options" |}.

(** [CoreLightConeModule.__init__(self, *, max_redshift=None, **kwargs)] *)
Definition CoreLightConeModule_init : signature :=
  {| sig_args := ["self"]; sig_varargs := None;
     sig_kwonlyargs := ["max_redshift"]; sig_varkw := Some "kwargs" |}.

(** [CoreLuminosityFunction.__init__(self, sigma=None, name="", n_muv_bins=100, **kwargs)] *)
Definition CoreLuminosityFunction_init : signature :=
  {| sig_args := ["self"; "sigma"; "name"; "n_muv_bins"]; sig_varargs := None;
     sig_kwonlyargs := []; sig_varkw := Some "kwargs" |}.

Definition object_id : nat := 0.
Definition ModuleBase_id : nat := 1.
Definition CoreBase_id : nat := 2.
Definition CoreCoevalModule_id : nat := 3.
Definition CoreLightConeModule_id : nat := 4.
Definition CoreLuminosityFunction_id : nat := 5.

Definition CoreBase_mro : list (nat * signature) :=
  [(CoreBase_id, CoreBase_init); (ModuleBase_id, ModuleBase_init); (object_id, object_init)].

Definition CoreCoevalModule_mro : list (nat * signature) :=
  (CoreCoevalModule_id, CoreCoevalModule_init) :: CoreBase_mro.

Definition CoreBase_class : pyclass :=
  {| cls_id := CoreBase_id; cls_name := "CoreBase"; cls_mro := CoreBase_mro;
     _extra_defining_attributes := []; _ignore_attributes := []; required_cores := [] |}.

Definition CoreCoevalModule_class : pyclass :=
  {| cls_id := CoreCoevalModule_id; cls_name := "CoreCoevalModule";
     cls_mro := CoreCoevalModule_mro;
     _extra_defining_attributes := [];
     _ignore_attributes := ["keep_data_in_memory"]; required_cores := [] |}.

Definition CoreLightConeModule_class : pyclass :=
  {| cls_id := CoreLightConeModule_id; cls_name := "CoreLightConeModule";
     cls_mro := (CoreLightConeModule_id, CoreLightConeModule_init) :: CoreCoevalModule_mro;
     _extra_defining_attributes := [];
     _ignore_attributes := ["keep_data_in_memory"]; required_cores := [] |}.

Definition CoreLuminosityFunction_class : pyclass :=
  {| cls_id := CoreLuminosityFunction_id; cls_name := "CoreLuminosityFunction";
     cls_mro := (CoreLuminosityFunction_id, CoreLuminosityFunction_init)
                  :: CoreCoevalModule_mro;
     _extra_defining_attributes := [];
     _ignore_attributes := ["keep_data_in_memory"]; required_cores := [] |}.

Definition seed_value (seed : option Z) : pyval :=
  match seed with Some n => VNum n | None => VNone end.

Definition io_options_value (d : io_options_dict) : pyval :=
  VDict [("store", VDict (io_store d));
         ("cache_dir", match io_cache_dir d with Some dir => VStr dir | None => VNone end);
         ("cache_mcmc", VBool (io_cache_mcmc d))].

(** [vars(self)] for an instance of [CoreCoevalModule]. *)
Definition coeval_dict (m : CoreCoevalModule) : gmap string pyval :=
  list_to_map
    [("_is_setup", VBool (_is_setup m)); ("store", VDict (store m));
     ("redshift", redshift m); ("user_params", user_params m);
     ("flag_options", flag_options m); ("astro_params", astro_params m);
     ("cosmo_params", cosmo_params m);
     ("change_seed_every_iter", VBool (change_seed_every_iter m));
     ("initial_conditions_seed", seed_value (initial_conditions_seed m));
     ("regenerate", VBool (regenerate m));
     ("ctx_variables", VTuple (map VStr (ctx_variables m)));
     ("global_params", VDict (global_params m));
     ("io_options", io_options_value (io_options m))].

Definition coeval_object (m : CoreCoevalModule) : pyobject :=
  {| ob_class := CoreCoevalModule_class; ob_dict := coeval_dict m |}.

Definition lightcone_object (m : CoreLightConeModule) : pyobject :=
  {| ob_class := CoreLightConeModule_class;
     ob_dict := <["max_redshift" := max_redshift m]> (coeval_dict (lc_coeval m)) |}.

Definition luminosity_object (m : CoreLuminosityFunction) : pyobject :=
  {| ob_class := CoreLuminosityFunction_class;
     ob_dict := <["_sigma" := _sigma m]>
                  (<["name" := VStr (name m)]>
                     (<["n_muv_bins" := VNum (n_muv_bins m)]> (coeval_dict (lf_coeval m)))) |}.

(** ** A reference engine *)

(** Modelled from the spec: the engine ([py21cmfast]) is not among the
    sources; the specification describes it as "a deterministic,
    parameter-keyed, disk-cacheable function".  The reference engine is one
    such function, small enough to run the examples on: parameter structures
    are dicts of the defaults overlaid with what is given, the artifacts
    record the parameters and seed they were made from, and the engine state
    is the list of requests for initial conditions it has served. *)

Module ReferenceEngine.
Definition as_dict (v : pyval) : pydict :=
  match v with VDict d => d | _ => [] end.

Definition mk_struct (defaults : pydict) (v : pyval) : pyval :=
  VDict (dict_update defaults (as_dict v)).

Definition cosmo_defaults : pydict :=
  [("SIGMA_8", VNum 8); ("hlittle", VNum 7); ("OMm", VNum 3); ("OMb", VNum 1);
   ("POWER_INDEX", VNum 1)].

Definition astro_defaults : pydict :=
  [("HII_EFF_FACTOR", VNum 30); ("ION_Tvir_MIN", VNum 5)].

(** An unset seed is drawn by the engine; the draw is fixed to 1 here. *)
Definition seed_of (r : ic_request) : Z := default 1%Z (ic_random_seed r).

Definition ref_initial_conditions (r : ic_request) : M (list ic_request) (pyval * Z) :=
  fun cache => (Ok (ic_cosmo_params r, seed_of r), cache ++ [r]).

Definition ref_perturb_field (r : pf_request (pyval * Z)) : M (list ic_request) (pyval * Z) :=
  fun cache => (Ok (pf_redshift r, snd (pf_init_boxes r)), cache).

Definition coeval_box (pf : pyval * Z) : pydict :=
  [("brightness_temp", VArray [FVal (snd pf)]); ("xH_box", VArray [FVal 0])].

Definition ref_run_coeval (r : coeval_request (pyval * Z) (pyval * Z))
    : M (list ic_request) (list pydict) :=
  fun cache => (Ok (map coeval_box (snd (rc_perturb r))), cache).

Definition ref_run_lightcone (r : lightcone_request) : M (list ic_request) pyval :=
  fun cache => (Ok (VArray [FVal 0]), cache).

Definition ref_compute_luminosity_function (r : lf_request) : M (list ic_request) lf_arrays :=
  fun cache =>
    (Ok {| lf_Muv := [[FVal (-20); FVal (-19); FVal (-18)]];
           lf_mhalo := [[FVal 10; FVal 11; FVal 12]];
           lf_lfunc := [[FVal (-3); FNaN; FVal (-5)]] |}, cache).

Definition engine : py21cmfast :=
  {| E := list ic_request; IC := pyval * Z; PF := pyval * Z; Coeval := pydict;
     UserParams := mk_struct []; FlagOptions := mk_struct [];
     AstroParams := mk_struct astro_defaults;
     CosmoParams := mk_struct cosmo_defaults;
     struct_self := as_dict; defining_dict := as_dict;
     initial_conditions := ref_initial_conditions;
     random_seed := snd;
     perturb_field := ref_perturb_field;
     run_coeval := ref_run_coeval;
     coeval_getattr := fun c key => dict_get key c;
     run_lightcone := ref_run_lightcone;
     compute_luminosity_function := ref_compute_luminosity_function |}.

Definition empty_world : world engine :=
  {| w_log := []; w_engine := ([] : E engine); w_calls := []; w_heap := [] |}.
End ReferenceEngine.

(** The call [CoreCoevalModule(redshift)] with every other argument at its
    default. *)
Definition default_coeval_args (z : pyval) : coeval_args :=
  {| arg_redshift := z; arg_user_params := VNone; arg_flag_options := VNone;
     arg_astro_params := VNone; arg_cosmo_params := VNone;
     arg_regenerate := true; arg_change_seed_every_iter := false;
     arg_ctx_variables := ["brightness_temp"; "xH_box"];
     arg_initial_conditions_seed := None; arg_global_params := None;
     arg_io_options := {| kw_store := None; kw_cache_dir := None; kw_cache_mcmc := None |} |}.

Definition with_redshift (z : pyval) (a : coeval_args) : coeval_args :=
  {| arg_redshift := z; arg_user_params := arg_user_params a;
     arg_flag_options := arg_flag_options a; arg_astro_params := arg_astro_params a;
     arg_cosmo_params := arg_cosmo_params a; arg_regenerate := arg_regenerate a;
     arg_change_seed_every_iter := arg_change_seed_every_iter a;
     arg_ctx_variables := arg_ctx_variables a;
     arg_initial_conditions_seed := arg_initial_conditions_seed a;
     arg_global_params := arg_global_params a; arg_io_options := arg_io_options a |}.

Definition with_seed (seed : option Z) (change : bool) (a : coeval_args) : coeval_args :=
  {| arg_redshift := arg_redshift a; arg_user_params := arg_user_params a;
     arg_flag_options := arg_flag_options a; arg_astro_params := arg_astro_params a;
     arg_cosmo_params := arg_cosmo_params a; arg_regenerate := arg_regenerate a;
     arg_change_seed_every_iter := change;
     arg_ctx_variables := arg_ctx_variables a;
     arg_initial_conditions_seed := seed;
     arg_global_params := arg_global_params a; arg_io_options := arg_io_options a |}.

(** ** Inputs used in the examples *)

Module Examples.
Import ReferenceEngine.

(** A light-cone stage at redshift 7 with the given [max_redshift]. *)
Definition lightcone_stage (max_z : pyval) : M (list log_record) CoreLightConeModule :=
  CoreLightConeModule.__init__ engine
    {| lca_max_redshift := max_z; lca_ctx_variables_given := false;
       lca_kwargs := default_coeval_args (VNum 7) |}.

(** [a == b] for two light-cone stages that differ in [max_redshift] only. *)
Definition lightcone_eq (max_a max_b : pyval) : M (list log_record) bool :=
  a <- lightcone_stage max_a ;;
  b <- lightcone_stage max_b ;;
  ModuleBase.__eq__ (lightcone_object a) (lightcone_object b).

(** Two user-defined cores: [CoreB] declares [required_cores = (CoreA,)]. *)
Definition CoreA_id : nat := 10.
Definition CoreB_id : nat := 11.

Definition CoreA_class : pyclass :=
  {| cls_id := CoreA_id; cls_name := "CoreA";
     cls_mro := (CoreA_id, CoreBase_init) :: CoreBase_mro;
     _extra_defining_attributes := []; _ignore_attributes := [];
     required_cores := [] |}.

Definition CoreB_class : pyclass :=
  {| cls_id := CoreB_id; cls_name := "CoreB";
     cls_mro := (CoreB_id, CoreBase_init) :: CoreBase_mro;
     _extra_defining_attributes := []; _ignore_attributes := [];
     required_cores := [RcClass CoreA_id false] |}.

Definition core_instance (cls : pyclass) : pyobject :=
  {| ob_class := cls;
     ob_dict := <["store" := VDict []]> ModuleBase.__init__ |}.

(** A chain with an instance of [CoreA] and an instance of [CoreB] loaded. *)
Definition chain_AB : chain :=
  {| chain_params := None;
     getCoreModules := [core_instance CoreA_class; core_instance CoreB_class];
     chain_context_params := [] |}.

(** A coeval stage at redshifts 6 and 7, alone in a chain that samples one
    astrophysical parameter. *)
Definition coeval_stage : CoreCoevalModule :=
  match CoreCoevalModule.__init__ engine
          (default_coeval_args (VList [VNum 6; VNum 7])) ([] : list log_record) with
  | (Ok m, _) => m
  | (Raise _, _) =>
      {| _is_setup := false; store := []; redshift := VNone; user_params := VNone;
         flag_options := VNone; astro_params := VNone; cosmo_params := VNone;
         change_seed_every_iter := false; initial_conditions_seed := None;
         regenerate := false; ctx_variables := []; global_params := [];
         io_options := CoreCoevalModule.default_io_options |}
  end.

Definition sampled : pydict := [("HII_EFF_FACTOR", VNum 30)].

Definition coeval_chain : chain :=
  {| chain_params := Some [("HII_EFF_FACTOR", VTuple [VNum 30; VNum 10; VNum 50; VNum 3])];
     getCoreModules := [coeval_object coeval_stage];
     chain_context_params := sampled |}.

Definition iteration_ctx (v : Z) : Ctx :=
  {| getParams := [("HII_EFF_FACTOR", VNum v)]; ctx_data := ∅ |}.

(** The stage and the world when [setup] has returned. *)
Definition after_setup : CoreCoevalModule * world engine :=
  snd (CoreCoevalModule.setup engine CoreCoevalModule_class (Some coeval_chain)
         (coeval_stage, empty_world)).
End Examples.

(** ** Vocabulary for the statements about the boxes *)

(** The values [py_iter] yields, [[]] when there are none to yield. *)
Definition iter_values (v : pyval) : list pyval :=
  match v with
  | VList l | VTuple l => l
  | VStr s => map (fun c => VStr (String c EmptyString)) (String.list_ascii_of_string s)
  | VDict d => map (fun kv => VStr (fst kv)) d
  | VArray a => map (fun x => VArray [x]) a
  | VNone | VBool _ | VNum _ | VCallable _ => []
  end.

Section Boxes.
Context (p21 : py21cmfast).

Definition is_ic_call (c : engine_call (IC p21) (PF p21)) : bool :=
  match c with CallInitialConditions _ => true | _ => false end.

(** How many times the initial conditions were requested. *)
Definition count_ic (calls : list (engine_call (IC p21) (PF p21))) : nat :=
  length (List.filter is_ic_call calls).

(** The addresses of the perturbed-field lists handed to [run_coeval]. *)
Definition coeval_perturb_addrs (calls : list (engine_call (IC p21) (PF p21))) : list nat :=
  omap (fun c => match c with
                 | CallRunCoeval r => Some (fst (rc_perturb r))
                 | _ => None
                 end) calls.

(** The request for initial conditions [setup] makes from the stage [m]. *)
Definition setup_request (m : CoreCoevalModule) : ic_request :=
  {| ic_user_params := user_params m; ic_cosmo_params := cosmo_params m;
     ic_direc := io_cache_dir (io_options m); ic_regenerate := regenerate m;
     ic_random_seed := initial_conditions_seed m; ic_write := None;
     ic_global_params := global_params m |}.

(** The request for initial conditions an iteration makes when no sampled
    parameter is cosmological: it is read off the stage alone. *)
Definition iteration_request (m : CoreCoevalModule) : ic_request :=
  {| ic_user_params := user_params m;
     ic_cosmo_params := CosmoParams p21 (VDict (struct_self p21 (cosmo_params m)));
     ic_direc := io_cache_dir (io_options m); ic_regenerate := false;
     ic_random_seed := initial_conditions_seed m;
     ic_write := Some (io_cache_mcmc (io_options m));
     ic_global_params := global_params m |}.

(** The request for initial conditions an iteration makes on the context
    [ctx]. *)
Definition iteration_request_for (m : CoreCoevalModule) (ctx : Ctx) : ic_request :=
  {| ic_user_params := user_params m;
     ic_cosmo_params := snd (CoreCoevalModule._update_params p21 m (getParams ctx));
     ic_direc := io_cache_dir (io_options m); ic_regenerate := false;
     ic_random_seed := initial_conditions_seed m;
     ic_write := Some (io_cache_mcmc (io_options m));
     ic_global_params := global_params m |}.

(** The requests for perturbed fields, one per redshift. *)
Definition pf_calls (m : CoreCoevalModule) (ic : IC p21) (regen : bool)
    (write : option bool) : list (engine_call (IC p21) (PF p21)) :=
  map (fun z => CallPerturbField
                  {| pf_redshift := z; pf_init_boxes := ic;
                     pf_direc := io_cache_dir (io_options m);
                     pf_regenerate := regen; pf_write := write;
                     pf_global_params := global_params m |})
    (iter_values (redshift m)).

(** The perturbed fields the engine answers for the redshifts [zs], asked in
    order from the engine state [e], with the state it is left in; [None]
    when one request raises. *)
Fixpoint perturbed (m : CoreCoevalModule) (ic : IC p21) (regen : bool)
    (write : option bool) (zs : list pyval) (e : E p21)
    : option (list (PF p21) * E p21) :=
  match zs with
  | [] => Some ([], e)
  | z :: zs' =>
      match perturb_field p21
              {| pf_redshift := z; pf_init_boxes := ic;
                 pf_direc := io_cache_dir (io_options m);
                 pf_regenerate := regen; pf_write := write;
                 pf_global_params := global_params m |} e with
      | (Ok pf, e') =>
          match perturbed m ic regen write zs' e' with
          | Some (pfs, e'') => Some (pf :: pfs, e'')
          | None => None
          end
      | (Raise _, _) => None
      end
  end.

(** The request [build_model_data] makes to [run_coeval] on the context
    [ctx], with the initial conditions [ic] and the list [pfs] at the address
    [addr]. *)
Definition coeval_request_of (m : CoreCoevalModule) (ctx : Ctx) (ic : IC p21)
    (addr : nat) (pfs : list (PF p21)) : coeval_request (IC p21) (PF p21) :=
  {| rc_redshift := redshift m;
     rc_astro_params := fst (CoreCoevalModule._update_params p21 m (getParams ctx));
     rc_flag_options := flag_options m; rc_init_box := ic;
     rc_perturb := (addr, pfs); rc_regenerate := regenerate m;
     rc_random_seed := initial_conditions_seed m;
     rc_write := io_cache_mcmc (io_options m);
     rc_direc := io_cache_dir (io_options m);
     rc_global_params := global_params m |}.

(** The seeds of the requests for initial conditions, in order. *)
Definition ic_seeds (calls : list (engine_call (IC p21) (PF p21))) : list (option Z) :=
  omap (fun c => match c with
                 | CallInitialConditions r => Some (ic_random_seed r)
                 | _ => None
                 end) calls.
(** The test of [setup]: some declared parameter of the chain names a field
    of the cosmological parameters (as updated from the chain). *)
Definition samples_cosmology (self : CoreCoevalModule) (c : chain) : bool :=
  existsb (fun p => in_dict p
                      (struct_self p21
                         (snd (CoreCoevalModule._update_params p21 self
                                 (chain_context_params c)))))
    (match chain_params c with Some ps => dict_keys ps | None => [] end).

(** The context samples a parameter that defines the cosmology. *)
Definition overrides_cosmology (self : CoreCoevalModule) (ctx : Ctx) : bool :=
  existsb (fun kv => in_dict (fst kv) (defining_dict p21 (cosmo_params self)))
    (getParams ctx).

(** One sampler iteration on a fresh context. *)
Definition iteration (self : CoreCoevalModule) (ctx : Ctx) : M (world p21) unit :=
  fun w => let '(r, cw) := CoreCoevalModule.build_model_data p21 self (ctx, w) in
           (r, snd cw).

(** What reuse of the objects made at setup would mean for a run of
    [setup] followed by one iteration per context: no further request for
    initial conditions after [setup], and every list of perturbed fields
    handed to [run_coeval] is an object that existed when [setup]
    returned. *)
Definition boxes_made_once_and_reused (cls : pyclass) (c : chain)
    (self : CoreCoevalModule) (ctxs : list Ctx) (w : world p21) : Prop :=
  ∃ self1 w1 w2,
    CoreCoevalModule.setup p21 cls (Some c) (self, w) = (Ok tt, (self1, w1)) ∧
    for_each ctxs (iteration self1) w1 = (Ok tt, w2) ∧
    count_ic (w_calls w2) = count_ic (w_calls w1) ∧
    Forall (fun addr => addr < length (w_heap w1)) (coeval_perturb_addrs (w_calls w2)).
End Boxes.

(** A stage given a seed together with [change_seed_every_iter=True], alone
    in a chain that samples one astrophysical parameter. *)
Module SeedExample.
Import ReferenceEngine.

(** [CoreCoevalModule(redshift=[6, 7], initial_conditions_seed=seed,
    change_seed_every_iter=True)] *)
Definition construction (seed : Z) : result CoreCoevalModule * list log_record :=
  CoreCoevalModule.__init__ engine
    (with_seed (Some seed) true (default_coeval_args (VList [VNum 6; VNum 7]))) [].

Definition stage (seed : Z) : CoreCoevalModule :=
  match construction seed with
  | (Ok m, _) => m
  | (Raise _, _) => Examples.coeval_stage
  end.

Definition chain_of_stage (seed : Z) : chain :=
  {| chain_params := Some [("HII_EFF_FACTOR", VTuple [VNum 30; VNum 10; VNum 50; VNum 3])];
     getCoreModules := [coeval_object (stage seed)];
     chain_context_params := Examples.sampled |}.

(** [setup] followed by two iterations. *)
Definition run (seed : Z) : result unit * world engine :=
  let st1 := CoreCoevalModule.setup engine CoreCoevalModule_class
               (Some (chain_of_stage seed)) (stage seed, empty_world) in
  match st1 with
  | (Ok _, (self1, w1)) =>
      for_each [Examples.iteration_ctx 30; Examples.iteration_ctx 31]
        (iteration engine self1) w1
  | (Raise e, (_, w1)) => (Raise e, w1)
  end.
End SeedExample.

(** ** Vocabulary for the other statements *)

(** The values that are sequences: lists, tuples, arrays and strings hold
    their entries in order; a dict has a length but is a mapping. *)
Definition is_sequence (v : pyval) : bool :=
  match v with
  | VList _ | VTuple _ | VArray _ | VStr _ => true
  | VDict _ | VNone | VBool _ | VNum _ | VCallable _ => false
  end.

(** The alternatives of a requirement, and whether a loaded core is an
    instance of one of them. *)
Definition alternatives (rc : required_core) : list nat :=
  match rc with
  | RcClass c _ => [c]
  | RcTuple alts => alts
  end.

Definition satisfied (cores : list pyobject) (rc : required_core) : bool :=
  existsb (fun m => existsb (isinstance m) (alternatives rc)) cores.

Definition plain_requirement (rc : required_core) : Prop :=
  match rc with
  | RcClass _ has_len => has_len = false
  | RcTuple _ => True
  end.

(** What the entries [items] write into [storage] when each extraction
    succeeds. *)
Definition stored (call : pyval -> Ctx -> result pyval) (ctx : Ctx) (items : pydict) (storage : gmap string pyval)
    : gmap string pyval :=
  fold_left (fun st kv => match call (snd kv) ctx with
                          | Ok v => <[fst kv := v]> st
                          | Raise _ => st
                          end) items storage.

(** The engine's arrays are aligned: at each redshift the magnitudes and the
    halo masses have one entry per bin of the luminosity function. *)
Definition well_shaped (res : lf_arrays) : Prop :=
  Forall2 (fun l m => length l = length m) (lf_lfunc res) (lf_Muv res) ∧
  Forall2 (fun l m => length l = length m) (lf_lfunc res) (lf_mhalo res).

(** The bins of one redshift that are kept, each as the pair of the
    luminosity function and of a co-indexed array. *)
Definition retained (l m : list fnum) : list (fnum * fnum) :=
  filter (fun p => isnan (fst p) = false) (zip l m).

Module StorageExample.
(** Function 0 reads the brightness temperature; function 1 raises. *)
Definition call (f : pyval) (ctx : Ctx) : result pyval :=
  match f with
  | VCallable 0 => Ok (ctx_get "brightness_temp" ctx)
  | VCallable _ => Raise (Raised 7)
  | _ => Raise (TypeError "object is not callable")
  end.

Definition ctx : Ctx :=
  {| getParams := []; ctx_data := {[ "brightness_temp" := VNum 21 ]} |}.
End StorageExample.

Module LuminosityExample.
Import ReferenceEngine.

Definition fallback : CoreLuminosityFunction :=
  {| _sigma := VNone; name := ""; n_muv_bins := 0;
     lf_coeval :=
       {| _is_setup := false; store := []; redshift := VNone; user_params := VNone;
          flag_options := VNone; astro_params := VNone; cosmo_params := VNone;
          change_seed_every_iter := false; initial_conditions_seed := None;
          regenerate := false; ctx_variables := []; global_params := [];
          io_options := CoreCoevalModule.default_io_options |} |}.

(** [CoreLuminosityFunction(sigma=sigma, name="_z6", redshift=[6])] *)
Definition stage (sigma : pyval) : CoreLuminosityFunction :=
  match CoreLuminosityFunction.__init__ engine
          {| lfa_sigma := sigma; lfa_name := "_z6"; lfa_n_muv_bins := 100;
             lfa_kwargs := default_coeval_args (VList [VNum 6]) |}
          ([] : list log_record) with
  | (Ok m, _) => m
  | (Raise _, _) => fallback
  end.

Definition ctx : Ctx := {| getParams := [("HII_EFF_FACTOR", VNum 31)]; ctx_data := ∅ |}.

Definition raw : lf_arrays :=
  {| lf_Muv := [[FVal (-20); FVal (-19); FVal (-18)]];
     lf_mhalo := [[FVal 10; FVal 11; FVal 12]];
     lf_lfunc := [[FVal (-3); FNaN; FVal (-5)]] |}.

Definition world_after_run : world engine :=
  let params := CoreCoevalModule._update_params engine (lf_coeval (stage VNone))
                  (getParams ctx) in
  snd (CoreLuminosityFunction.run engine (stage VNone) (fst params) (snd params)
         empty_world).

(** A generator that draws the same number every time, and noise functions
    that are not callable. *)
Definition constant_normal (scale : pyval) (size : nat) : M nat (list fnum) :=
  fun rng => (Ok (repeat (FVal 1) size), Datatypes.S rng).

Definition not_callable (s muv : pyval) : result pyval :=
  Raise (TypeError "object is not callable").
End LuminosityExample.

(** ** The methods a stage runs, by its class *)

Module Stage.
Section Methods.
Context {S : Type} `{Logging S}.

(** [issubclass(cls, CoreBase)] *)
Definition is_core (cls : pyclass) : bool :=
  existsb (Nat.eqb CoreBase_id) (map fst (cls_mro cls)).

(** [self._check_required_cores()]: the override of [CoreBase] on a core,
    the method of [ModuleBase] on any other stage. *)
Definition _check_required_cores (cls : pyclass) (ch : option chain) : M S unit :=
  if is_core cls then CoreBase._check_required_cores cls ch
  else ModuleBase._check_required_cores cls ch.

(** [ModuleBase.setup], as the stage runs it. *)
Definition setup (cls : pyclass) (ch : option chain) : M S unit :=
  _check_required_cores cls ch.
End Methods.
End Stage.

(** ** The primary core, [simulate_mock] and [__call__] *)

Section PrimaryCore.
Context {S : Type} `{Logging S}.
(** [ut.flatten] is defined outside the module: a generator over the
    classes of the requirements.  The classes it yields are taken as given;
    being a generator, it yields them once. *)
Variable flatten : list required_core -> list nat.



End PrimaryCore.

(** [CoreBase.simulate_mock] and [CoreBase.__call__], over the two methods of
    the stage they dispatch to. *)
Definition simulate_mock {S : Type} (build_model_data convert_model_to_mock : M S unit)
    : M S unit :=
  build_model_data ;;; convert_model_to_mock.

Definition __call__ {S : Type} (build_model_data : M S unit) : M S unit :=
  build_model_data.

Section LuminosityCalls.
Context (p21 : py21cmfast).
Variable RNG : Type.
Variable np_random_normal : pyval -> nat -> M RNG (list fnum).
Variable call_sigma : pyval -> pyval -> result pyval.

(** The two methods of the luminosity stage on one state: the context, the
    world and the random generator. *)
Definition luminosity_build (self : CoreLuminosityFunction)
    : M (Ctx * (world p21 * RNG)) unit :=
  fun st =>
    let '(r, cw) := CoreLuminosityFunction.build_model_data p21 self
                      (fst st, fst (snd st)) in
    (r, (fst cw, (snd cw, snd (snd st)))).

Definition luminosity_mock (self : CoreLuminosityFunction)
    : M (Ctx * (world p21 * RNG)) unit :=
  fun st =>
    let '(r, cg) := CoreLuminosityFunction.convert_model_to_mock RNG np_random_normal
                      call_sigma self (fst st, snd (snd st)) in
    (r, (fst cg, (fst (snd st), snd cg))).

Definition luminosity_simulate_mock (self : CoreLuminosityFunction)
    : M (Ctx * (world p21 * RNG)) unit :=
  simulate_mock (luminosity_build self) (luminosity_mock self).
End LuminosityCalls.

(** ** Vocabulary for the statements about equality *)

(** The names the walk of [__eq__] passes over. *)
Definition skipped (self : pyobject) (arg : string) : bool :=
  String.eqb arg "self" || existsb (String.eqb arg) (_ignore_attributes (ob_class self)).

(** ** Vocabulary for the statements about the coeval stage *)

Section CoevalVocabulary.
Context (p21 : py21cmfast).

(** The first part of [build_model_data]: everything up to the call of
    [run_coeval], whose boxes it returns. *)
Definition fetch_coeval (self : CoreCoevalModule) : M (Ctx * world p21) (list (Coeval p21)) :=
  logger (LogDebug "Updating parameters: {}") ;;;
  ctx <- get_fst ;;
  let '(ap, cp) := CoreCoevalModule._update_params p21 self (getParams ctx) in
  logger (LogDebug "AstroParams: {}") ;;;
  boxes <- on_snd (CoreCoevalModule.get_current_init_and_perturb p21 self cp) ;;
  let '(ic, addr) := boxes in
  pfs <- on_snd (CoreCoevalModule.read_list p21 addr) ;;
  let r := {| rc_redshift := redshift self; rc_astro_params := ap;
              rc_flag_options := flag_options self; rc_init_box := ic;
              rc_perturb := (addr, pfs); rc_regenerate := regenerate self;
              rc_random_seed := initial_conditions_seed self;
              rc_write := io_cache_mcmc (io_options self);
              rc_direc := io_cache_dir (io_options self);
              rc_global_params := global_params self |} in
  on_snd (CoreCoevalModule.call_engine p21 (CallRunCoeval r) (run_coeval p21 r)).

(** The second part: the loop over [ctx_variables]. *)
Definition add_ctx_variables (self : CoreCoevalModule) (coeval : list (Coeval p21))
    : M (Ctx * world p21) unit :=
  logger (LogDebug "Adding {} to context data") ;;;
  for_each (ctx_variables self) (fun key =>
    match CoreCoevalModule.collect_field p21 key coeval with
    | Some vs => on_fst (fun ctx => (Ok tt, ctx_add key (VList vs) ctx))
    | None => raise (ValueError ("ctx_variable " +:+ key +:+ " not an attribute of Coeval"))
    end).

(** The context once the fields [keys] of the boxes have been added. *)
Definition with_fields (coeval : list (Coeval p21)) (keys : list string) (ctx : Ctx) : Ctx :=
  fold_left (fun c key => match CoreCoevalModule.collect_field p21 key coeval with
                          | Some vs => ctx_add key (VList vs) c
                          | None => c
                          end) keys ctx.

(** The world with the debug records [msgs] appended to its log. *)
Definition log_debug (msgs : list string) (w : world p21) : world p21 :=
  {| w_log := w_log w ++ map LogDebug msgs; w_engine := w_engine w;
     w_calls := w_calls w; w_heap := w_heap w |}.

(** The request [build_model_data] of the light cone makes for the first
    redshift [z0]. *)
Definition lightcone_request_of (self : CoreLightConeModule) (ctx : Ctx) (z0 : pyval)
    : lightcone_request :=
  let base := lc_coeval self in
  let up := CoreCoevalModule._update_params p21 base (getParams ctx) in
  {| lc_redshift := z0; lc_max_redshift := max_redshift self;
     lc_astro_params := fst up; lc_flag_options := flag_options base;
     lc_cosmo_params := snd up; lc_user_params := user_params base;
     lc_regenerate := regenerate base;
     lc_random_seed := initial_conditions_seed base;
     lc_write := io_cache_mcmc (io_options base);
     lc_direc := io_cache_dir (io_options base);
     lc_global_params := global_params base |}.
End CoevalVocabulary.

(** ** Vocabulary for the statements about the mock *)

(** The bundle under [key] holds the rows [rows] as its "lfunc" entry and
    agrees with [items0] on every other entry. *)
Definition holds_rows (key : string) (items0 : pydict) (rows : list (list fnum))
    (ctx : Ctx) : Prop :=
  ∃ items, ctx_data ctx !! key = Some (VDict items) ∧
           dict_get "lfunc" items = Some (VList (map VArray rows)) ∧
           ∀ k, k ≠ "lfunc" → dict_get k items = dict_get k items0.

(** ** Further inputs used in the examples *)

(** The value a constructor returned, [fallback] when it raised. *)
Definition constructed {A : Type} (fallback : A) (r : result A * list log_record) : A :=
  match r with
  | (Ok a, _) => a
  | (Raise _, _) => fallback
  end.

Module EngineVariants.
Import ReferenceEngine.

(** The reference engine with other initial conditions and luminosity
    functions. *)
Definition variant (ic : ic_request -> M (list ic_request) (pyval * Z))
    (lf : lf_request -> M (list ic_request) lf_arrays) : py21cmfast :=
  {| E := list ic_request; IC := pyval * Z; PF := pyval * Z; Coeval := pydict;
     UserParams := mk_struct []; FlagOptions := mk_struct [];
     AstroParams := mk_struct astro_defaults;
     CosmoParams := mk_struct cosmo_defaults;
     struct_self := as_dict; defining_dict := as_dict;
     initial_conditions := ic;
     random_seed := snd;
     perturb_field := ref_perturb_field;
     run_coeval := ref_run_coeval;
     coeval_getattr := fun c key => dict_get key c;
     run_lightcone := ref_run_lightcone;
     compute_luminosity_function := lf |}.

(** An engine whose initial conditions cannot be made. *)
Definition failing : py21cmfast :=
  variant (fun r cache => (Raise (Raised 1), cache)) ref_compute_luminosity_function.

(** An engine whose luminosity function has two bins and one magnitude. *)
Definition misaligned : py21cmfast :=
  variant ref_initial_conditions
    (fun r cache => (Ok {| lf_Muv := [[FVal (-20)]];
                           lf_mhalo := [[FVal 10; FVal 11]];
                           lf_lfunc := [[FVal (-3); FNaN]] |}, cache)).

Definition nothing_done (p21 : py21cmfast) (e : E p21) : world p21 :=
  {| w_log := []; w_engine := e; w_calls := []; w_heap := [] |}.
End EngineVariants.

Module MoreExamples.
Import ReferenceEngine.

(** The stage the constructor returns for [args], on the reference engine. *)
Definition coeval_of (args : coeval_args) : CoreCoevalModule :=
  constructed Examples.coeval_stage (CoreCoevalModule.__init__ engine args []).

(** A stage that is no core (a likelihood) and requires [CoreA]. *)
Definition LikelihoodA_class : pyclass :=
  {| cls_id := 20; cls_name := "LikelihoodA";
     cls_mro := [(20, ModuleBase_init); (ModuleBase_id, ModuleBase_init);
                 (object_id, object_init)];
     _extra_defining_attributes := []; _ignore_attributes := [];
     required_cores := [RcClass Examples.CoreA_id false] |}.

(** [CoreCoevalModule(redshift=z)] *)
Definition coeval_example (z : pyval) : CoreCoevalModule :=
  coeval_of (default_coeval_args z).

(** [CoreCoevalModule(redshift=[6, 7], change_seed_every_iter=True)] *)
Definition changing_stage : CoreCoevalModule :=
  coeval_of (with_seed None true (default_coeval_args (VList [VNum 6; VNum 7]))).

(** [CoreCoevalModule(redshift=[6, 7], ctx_variables=("brightness_temp", "density"))] *)
Definition density_stage : CoreCoevalModule :=
  coeval_of
    {| arg_redshift := VList [VNum 6; VNum 7]; arg_user_params := VNone;
       arg_flag_options := VNone; arg_astro_params := VNone; arg_cosmo_params := VNone;
       arg_regenerate := true; arg_change_seed_every_iter := false;
       arg_ctx_variables := ["brightness_temp"; "density"];
       arg_initial_conditions_seed := None; arg_global_params := None;
       arg_io_options := {| kw_store := None; kw_cache_dir := None;
                            kw_cache_mcmc := None |} |}.

(** [CoreLightConeModule(redshift=z, max_redshift=max_z)] *)
Definition lightcone_of (z max_z : pyval) : CoreLightConeModule :=
  constructed {| lc_coeval := Examples.coeval_stage; max_redshift := VNone |}
    (CoreLightConeModule.__init__ engine
       {| lca_max_redshift := max_z; lca_ctx_variables_given := false;
          lca_kwargs := default_coeval_args z |} []).

Definition lightcone_example (max_z : pyval) : pyobject :=
  lightcone_object (lightcone_of (VNum 7) max_z).

(** [CoreLuminosityFunction(sigma=sigma, name=name, redshift=[6])] *)
Definition luminosity_of (sigma : pyval) (name : string) : CoreLuminosityFunction :=
  constructed LuminosityExample.fallback
    (CoreLuminosityFunction.__init__ engine
       {| lfa_sigma := sigma; lfa_name := name; lfa_n_muv_bins := 100;
          lfa_kwargs := default_coeval_args (VList [VNum 6]) |} []).

(** The bundle the stage named [_z6] stores, and a context that holds it. *)
Definition bundle : pydict :=
  [("Muv", VList [VArray [FVal (-20); FVal (-18)]]);
   ("mhalo", VList [VArray [FVal 10; FVal 12]]);
   ("lfunc", VList [VArray [FVal (-3); FVal (-5)]])].

Definition ctx_with_bundle : Ctx :=
  ctx_add "luminosity_function_z6" (VDict bundle) LuminosityExample.ctx.
End MoreExamples.

(** * Properties *)

(** ** Equality of stages *)

Section Equality.
Context {S : Type} `{Logging S}.

(** A name the walk skips leaves the verdict to the remaining names. *)
Lemma eq_step_self (a b : pyobject) (s : S) :
  ModuleBase.eq_step a b "self" s = (Ok None, s).
Proof. reflexivity. Qed.

(** Stages of classes with different names are never equal. *)
Lemma eq_different_names (a b : pyobject) (s : S) :
  cls_name (ob_class a) ≠ cls_name (ob_class b) →
  ModuleBase.__eq__ a b s = (Ok false, s).
Proof.
  intros Hne. unfold ModuleBase.__eq__.
  destruct (String.eqb_spec (cls_name (ob_class a)) (cls_name (ob_class b))); [done |].
  reflexivity.
Qed.
End Equality.

(** When every name leaves the verdict open, the verdict is [True]. *)
Lemma eq_loop_all_agree {S : Type} `{Logging S} (a b : pyobject) (args : list string)
    (s : S) :
  Forall (fun arg => ModuleBase.eq_step a b arg s = (Ok None, s)) args →
  ModuleBase.eq_loop a b args s = (Ok true, s).
Proof.
  induction 1 as [| arg args Hstep _ IH]; [reflexivity |].
  simpl. unfold bind. rewrite Hstep. exact IH.
Qed.

(** The keyword-only argument of the light-cone constructor is not among the
    names [getfullargspec(...).args] lists, so the walk of [__eq__] never
    reaches it. *)
Lemma max_redshift_not_compared :
  "max_redshift" ∉ ModuleBase.eq_args CoreLightConeModule_class.
Proof.
  intros Hin. apply list_elem_of_In in Hin. vm_compute in Hin.
  repeat destruct Hin as [Hin | Hin]; try discriminate Hin. exact Hin.
Qed.

(** C2: two light-cone stages built with the same arguments except
    [max_redshift] (10 against 12, or any two values) compare equal: [__eq__]
    returns [True] and logs nothing, where the claim has the changed
    constructor argument break equality. *)
Theorem lightcone_eq_ignores_max_redshift (max_a max_b : pyval) :
  Examples.lightcone_eq max_a max_b [] = (Ok true, []).
Proof. vm_compute. reflexivity. Qed.

(** The verdict does not depend on the order in which the set of names is
    walked. *)
Lemma lightcone_eq_in_any_order (max_a max_b : pyval) (a b : CoreLightConeModule)
    (order : list string) :
  fst (Examples.lightcone_stage max_a []) = Ok a →
  fst (Examples.lightcone_stage max_b []) = Ok b →
  order ≡ₚ ModuleBase.eq_args CoreLightConeModule_class →
  ModuleBase.eq_loop (lightcone_object a) (lightcone_object b) order
    ([] : list log_record) = (Ok true, []).
Proof.
  intros Ha Hb Horder. vm_compute in Ha, Hb.
  injection Ha as <-. injection Hb as <-.
  apply eq_loop_all_agree. rewrite Horder.
  repeat (apply Forall_cons; split; [vm_compute; reflexivity |]).
  apply Forall_nil_2.
Qed.

(** ** Required cores and setup *)

Section RequiredCores.
Context {S : Type} `{Logging S}.

Lemma check_one_required_spec (cls : pyclass) (c : chain) (rc : required_core) (s : S) :
  plain_requirement rc →
  ModuleBase.check_one_required cls (Some c) rc s =
    if satisfied (getCoreModules c) rc then (Ok tt, s)
    else (Raise (ValueError (cls_name cls +:+ " needs the tuple to be loaded.")), s).
Proof.
  intros Hplain. unfold ModuleBase.check_one_required, satisfied.
  destruct rc as [r has_len | alts]; simpl in *; subst; simpl;
    unfold bind, ModuleBase._cores, ModuleBase.chain_of, ret, raise; simpl.
  - destruct (existsb _ _); reflexivity.
  - destruct (existsb _ _); reflexivity.
Qed.

(** The check of [ModuleBase] (the one likelihoods run) passes when every
    group has a loaded instance ... *)
Lemma ModuleBase_check_passes (cls : pyclass) (c : chain) (s : S) :
  Forall plain_requirement (required_cores cls) →
  forallb (satisfied (getCoreModules c)) (required_cores cls) = true →
  ModuleBase.setup cls (Some c) s = (Ok tt, s).
Proof.
  unfold ModuleBase.setup, ModuleBase._check_required_cores.
  induction (required_cores cls) as [| rc rcs IH]; intros Hplain Hsat; [reflexivity |].
  inversion Hplain as [| ? ? Hrc Hrcs]; subst.
  simpl in Hsat. apply andb_prop in Hsat as [Hone Hrest].
  simpl. unfold bind at 1. rewrite check_one_required_spec by assumption.
  rewrite Hone. apply IH; assumption.
Qed.

(** ... and raises [ValueError] when some group has none. *)
Lemma ModuleBase_check_fails (cls : pyclass) (c : chain) (s : S) :
  Forall plain_requirement (required_cores cls) →
  forallb (satisfied (getCoreModules c)) (required_cores cls) = false →
  ModuleBase.setup cls (Some c) s =
    (Raise (ValueError (cls_name cls +:+ " needs the tuple to be loaded.")), s).
Proof.
  unfold ModuleBase.setup, ModuleBase._check_required_cores.
  induction (required_cores cls) as [| rc rcs IH]; intros Hplain Hsat; [discriminate |].
  inversion Hplain as [| ? ? Hrc Hrcs]; subst.
  simpl in Hsat. simpl. unfold bind at 1.
  rewrite check_one_required_spec by assumption.
  destruct (satisfied (getCoreModules c) rc); [| reflexivity].
  apply IH; assumption.
Qed.

(** The checks log nothing and change nothing. *)
Lemma scan_required_state (self_name core_name : string) (rcs : list required_core) (s : S) :
  snd (CoreBase.scan_required self_name core_name rcs s) = s.
Proof.
  induction rcs as [| rc rcs IH]; simpl; [reflexivity |].
  destruct (String.eqb core_name _); [reflexivity |].
  destruct (String.eqb core_name self_name); [reflexivity | exact IH].
Qed.

Lemma CoreBase_check_state (cls : pyclass) (ch : option chain) (s : S) :
  snd (CoreBase._check_required_cores cls ch s) = s.
Proof.
  unfold CoreBase._check_required_cores, bind, ModuleBase._cores, ModuleBase.chain_of.
  destruct ch as [c |]; simpl; [| reflexivity].
  induction (getCoreModules c) as [| core cores IH]; simpl; [reflexivity |].
  unfold bind.
  pose proof (scan_required_state (cls_name cls) (cls_name (ob_class core))
                (required_cores cls) s) as Hs.
  destruct (CoreBase.scan_required _ _ _ s) as [[[] | e] s']; simpl in Hs; subst;
    [exact IH | reflexivity].
Qed.

(** No path of the override raises anything but [ValueError] or
    [NotAChain]: [AlreadySetupError] is never raised. *)
Lemma scan_required_outcome (self_name core_name : string) (rcs : list required_core) (s : S) :
  fst (CoreBase.scan_required self_name core_name rcs s) = Ok tt ∨
  ∃ msg, fst (CoreBase.scan_required self_name core_name rcs s) = Raise (ValueError msg).
Proof.
  induction rcs as [| rc rcs IH]; simpl; [by left |].
  destruct (String.eqb core_name _); [by left |].
  destruct (String.eqb core_name self_name); [right; eauto | exact IH].
Qed.

Lemma CoreBase_setup_outcome (cls : pyclass) (ch : option chain) (s : S) :
  fst (CoreBase.setup cls ch s) = Ok tt ∨
  fst (CoreBase.setup cls ch s) = Raise NotAChain ∨
  ∃ msg, fst (CoreBase.setup cls ch s) = Raise (ValueError msg).
Proof.
  unfold CoreBase.setup, CoreBase._check_required_cores, bind,
    ModuleBase._cores, ModuleBase.chain_of.
  destruct ch as [c |]; simpl; [| by right; left].
  induction (getCoreModules c) as [| core cores IH]; simpl; [by left |].
  unfold bind.
  pose proof (scan_required_outcome (cls_name cls) (cls_name (ob_class core))
                (required_cores cls) s) as Ho.
  pose proof (scan_required_state (cls_name cls) (cls_name (ob_class core))
                (required_cores cls) s) as Hs.
  destruct (CoreBase.scan_required _ _ _ s) as [[[] | e] s']; simpl in *; subst.
  - exact IH.
  - destruct Ho as [Ho | [msg Ho]]; [discriminate |]. right; right; eauto.
Qed.

(** A core named like neither [type] nor [tuple], and not like the stage,
    passes the inner loop. *)
Lemma scan_required_other (self_name core_name : string) (rcs : list required_core) (s : S) :
  core_name ≠ "type" → core_name ≠ "tuple" → core_name ≠ self_name →
  CoreBase.scan_required self_name core_name rcs s = (Ok tt, s).
Proof.
  intros Htype Htuple Hself. induction rcs as [| rc rcs IH]; [reflexivity |].
  simpl. destruct (String.eqb_spec core_name (ModuleBase.rc_class_name rc)) as [Heq | _].
  - destruct rc; simpl in Heq; congruence.
  - destruct (String.eqb_spec core_name self_name); [congruence | exact IH].
Qed.

(** A core that declares any requirement at all fails its own check once it
    is loaded in the chain, whether or not the requirement is loaded too
    (classes named [type] or [tuple] aside). *)
Lemma CoreBase_check_fails_with_any_requirement (cls : pyclass) (c : chain)
    (rc : required_core) (rcs : list required_core) (s : S) :
  required_cores cls = rc :: rcs →
  Exists (fun core => cls_name (ob_class core) = cls_name cls) (getCoreModules c) →
  Forall (fun core => cls_name (ob_class core) ≠ "type" ∧
                      cls_name (ob_class core) ≠ "tuple") (getCoreModules c) →
  CoreBase.setup cls (Some c) s =
    (Raise (ValueError (cls_name cls +:+ " requires "
                          +:+ ModuleBase.rc_class_name rc +:+ " to be loaded.")), s).
Proof.
  intros Hreq Hself Hnames.
  unfold CoreBase.setup, CoreBase._check_required_cores, bind,
    ModuleBase._cores, ModuleBase.chain_of. simpl. rewrite Hreq.
  induction (getCoreModules c) as [| core cores IH]; [by apply Exists_nil in Hself |].
  apply Forall_cons in Hnames as [[Htype Htuple] Hnames].
  cbn [for_each]. unfold bind.
  destruct (String.eqb_spec (cls_name (ob_class core)) (cls_name cls)) as [Heq | Hne].
  - cbn [CoreBase.scan_required].
    destruct (String.eqb_spec (cls_name (ob_class core)) (ModuleBase.rc_class_name rc))
      as [Hrc | _]; [destruct rc; simpl in Hrc; congruence |].
    rewrite (proj2 (String.eqb_eq _ _) Heq). reflexivity.
  - rewrite scan_required_other by assumption.
    apply IH; [| exact Hnames].
    apply Exists_cons in Hself as [Hhead | Htail]; [congruence | exact Htail].
Qed.

(** The check of [ModuleBase] changes nothing either. *)
Lemma ModuleBase_check_state (cls : pyclass) (ch : option chain) (s : S) :
  snd (ModuleBase.setup cls ch s) = s.
Proof.
  unfold ModuleBase.setup, ModuleBase._check_required_cores.
  induction (required_cores cls) as [| rc rcs IH]; [reflexivity |].
  simpl. unfold bind at 1.
  assert (Hone : snd (ModuleBase.check_one_required cls ch rc s) = s).
  { unfold ModuleBase.check_one_required, bind, ModuleBase._cores, ModuleBase.chain_of.
    destruct ch as [c |]; simpl; [| reflexivity].
    destruct rc as [r [|] | alts]; simpl.
    - destruct (getCoreModules c); reflexivity.
    - destruct (existsb _ _); reflexivity.
    - destruct (existsb _ _); reflexivity. }
  destruct (ModuleBase.check_one_required cls ch rc s) as [[[] | e] s'];
    simpl in Hone; subst s'; [exact IH | reflexivity].
Qed.

(** A second [setup] on a core does what the first did. *)
Lemma CoreBase_setup_again (cls : pyclass) (ch : option chain) (s s' : S) :
  CoreBase.setup cls ch s = (Ok tt, s') →
  CoreBase.setup cls ch s' = (Ok tt, s').
Proof.
  intros Hfirst.
  pose proof (CoreBase_check_state cls ch s) as Hs.
  unfold CoreBase.setup in *. rewrite Hfirst in Hs. simpl in Hs. subst s'.
  exact Hfirst.
Qed.
End RequiredCores.

(** C3: with an instance of [CoreA] and an instance of [CoreB] loaded, where
    [CoreB] declares [required_cores = (CoreA,)], the requirement is
    satisfied and the check of [ModuleBase] passes, yet [setup] on the
    [CoreB] stage raises [ValueError] from the override in [CoreBase], with a
    message that names [type], not [CoreA]. *)
Theorem core_setup_fails_though_required_core_loaded :
  satisfied (getCoreModules Examples.chain_AB) (RcClass Examples.CoreA_id false) = true ∧
  ModuleBase.setup Examples.CoreB_class (Some Examples.chain_AB) ([] : list log_record)
    = (Ok tt, []) ∧
  CoreBase.setup Examples.CoreB_class (Some Examples.chain_AB) ([] : list log_record)
    = (Raise (ValueError "CoreB requires type to be loaded."), []).
Proof. repeat split; vm_compute; reflexivity. Qed.

(** [setup] never raises [AlreadySetupError], whatever the class, the chain
    and the state. *)
Lemma setup_never_raises_AlreadySetupError {S : Type} `{Logging S}
    (cls : pyclass) (ch : option chain) (s : S) :
  fst (CoreBase.setup cls ch s) ≠ Raise AlreadySetupError.
Proof.
  destruct (CoreBase_setup_outcome cls ch s) as [Ho | [Ho | [msg Ho]]];
    rewrite Ho; discriminate.
Qed.

(** C4: the coeval stage of the example chain is set up twice in a row; the
    first [setup] succeeds, and so does the second, which the claim expects
    to raise [AlreadySetupError]; [_is_setup] is still [False] afterwards. *)
Theorem second_setup_succeeds :
  let first :=
    CoreCoevalModule.setup ReferenceEngine.engine CoreCoevalModule_class
      (Some Examples.coeval_chain) (Examples.coeval_stage, ReferenceEngine.empty_world) in
  let second :=
    CoreCoevalModule.setup ReferenceEngine.engine CoreCoevalModule_class
      (Some Examples.coeval_chain) (snd first) in
  fst first = Ok tt ∧ fst second = Ok tt ∧ _is_setup (fst (snd second)) = false.
Proof. vm_compute. repeat split; reflexivity. Qed.

(** ** Construction of a coeval stage *)

Section Construction.
Context (p21 : py21cmfast).

(** Construction always succeeds, and normalises the redshift. *)
Lemma init_succeeds (a : coeval_args) (log : list log_record) :
  ∃ m, fst (CoreCoevalModule.__init__ p21 a log) = Ok m ∧
       redshift m = (if has_len (arg_redshift a) then arg_redshift a
                     else VList [arg_redshift a]).
Proof.
  unfold CoreCoevalModule.__init__. cbn [initial_conditions_seed change_seed_every_iter].
  destruct (CoreCoevalModule.seed_truth (arg_initial_conditions_seed a)
            && arg_change_seed_every_iter a); simpl; eauto.
Qed.

Lemma redshift_always_sized (a : coeval_args) (log : list log_record) :
  ∃ m, fst (CoreCoevalModule.__init__ p21 a log) = Ok m ∧ has_len (redshift m) = true.
Proof.
  destruct (init_succeeds a log) as (m & Hm & Hz). exists m. split; [exact Hm |].
  rewrite Hz. destruct (has_len (arg_redshift a)) eqn:Hlen; [exact Hlen | reflexivity].
Qed.
End Construction.

(** C8, as stated, fails for a dict: it has a length, so it is kept as it
    is, and the attribute of the stage is no sequence. *)
Lemma dict_redshift_is_kept :
  ¬ ∃ m,
      fst (CoreCoevalModule.__init__ ReferenceEngine.engine
             (default_coeval_args (VDict [("z", VNum 7)])) []) = Ok m ∧
      is_sequence (redshift m) = true.
Proof.
  intros (m & Hinit & Hseq). vm_compute in Hinit. injection Hinit as <-.
  vm_compute in Hseq. discriminate Hseq.
Qed.

(** C8, as amended: a scalar redshift [z] and the one-element list [[z]]
    give the same [redshift] attribute, the list [[z]]; and whatever the
    arguments, a value that has a length is kept as it is given and any other
    value is wrapped into a one-element list, so that the attribute always has
    a length, and is a sequence whenever the value given is a scalar or a
    sequence. *)
Theorem redshift_normalised (p21 : py21cmfast) (a : coeval_args) (z : pyval)
    (log : list log_record) :
  has_len z = false →
  (∃ m1 m2,
      fst (CoreCoevalModule.__init__ p21 (with_redshift z a) log) = Ok m1 ∧
      fst (CoreCoevalModule.__init__ p21 (with_redshift (VList [z]) a) log) = Ok m2 ∧
      redshift m1 = redshift m2 ∧ redshift m1 = VList [z]) ∧
  (∀ (a' : coeval_args) (log' : list log_record), ∃ m,
      fst (CoreCoevalModule.__init__ p21 a' log') = Ok m ∧
      redshift m = (if has_len (arg_redshift a') then arg_redshift a'
                    else VList [arg_redshift a']) ∧
      has_len (redshift m) = true ∧
      (has_len (arg_redshift a') = false ∨ is_sequence (arg_redshift a') = true →
       is_sequence (redshift m) = true)).
Proof.
  intros Hscalar. split.
  - destruct (init_succeeds p21 (with_redshift z a) log) as (m1 & Hm1 & Hz1).
    destruct (init_succeeds p21 (with_redshift (VList [z]) a) log) as (m2 & Hm2 & Hz2).
    exists m1, m2. simpl in Hz1, Hz2. rewrite Hscalar in Hz1.
    repeat split; congruence.
  - intros a' log'. destruct (init_succeeds p21 a' log') as (m & Hm & Hz).
    exists m. split; [exact Hm |]. split; [exact Hz |]. rewrite Hz.
    destruct (has_len (arg_redshift a')) eqn:Hlen.
    + split; [exact Hlen |]. intros [Hno | Hseq]; [discriminate | exact Hseq].
    + split; reflexivity.
Qed.

Lemma redshift_normalised_witness :
  (∃ m1 m2,
      fst (CoreCoevalModule.__init__ ReferenceEngine.engine
             (with_redshift (VNum 7) (default_coeval_args VNone)) []) = Ok m1 ∧
      fst (CoreCoevalModule.__init__ ReferenceEngine.engine
             (with_redshift (VList [VNum 7]) (default_coeval_args VNone)) []) = Ok m2 ∧
      redshift m1 = redshift m2 ∧ redshift m1 = VList [VNum 7]) ∧
  (∀ (a' : coeval_args) (log' : list log_record), ∃ m,
      fst (CoreCoevalModule.__init__ ReferenceEngine.engine a' log') = Ok m ∧
      redshift m = (if has_len (arg_redshift a') then arg_redshift a'
                    else VList [arg_redshift a']) ∧
      has_len (redshift m) = true ∧
      (has_len (arg_redshift a') = false ∨ is_sequence (arg_redshift a') = true →
       is_sequence (redshift m) = true)).
Proof.
  apply (redshift_normalised ReferenceEngine.engine (default_coeval_args VNone) (VNum 7) []).
  reflexivity.
Defined.

(** The correction of a contradictory configuration, where the code makes
    it: with a fixed seed other than zero and [change_seed_every_iter=True],
    construction succeeds, one warning is logged and the stage has no seed;
    changing seeds stays on. *)
Theorem contradictory_seed_is_discarded (p21 : py21cmfast) (a : coeval_args) (seed : Z)
    (log : list log_record) :
  arg_initial_conditions_seed a = Some seed →
  seed ≠ 0%Z →
  arg_change_seed_every_iter a = true →
  ∃ m msg,
    CoreCoevalModule.__init__ p21 a log = (Ok m, log ++ [LogWarning msg]) ∧
    initial_conditions_seed m = None ∧ change_seed_every_iter m = true.
Proof.
  intros Hseed Hnz Hchange. unfold CoreCoevalModule.__init__.
  cbn [initial_conditions_seed change_seed_every_iter].
  rewrite Hseed, Hchange. simpl.
  destruct (Z.eqb_spec seed 0) as [-> | _]; [done |]. simpl.
  eexists _, _. split; [reflexivity |]. split; reflexivity.
Qed.

Lemma contradictory_seed_is_discarded_witness :
  ∃ m msg,
    CoreCoevalModule.__init__ ReferenceEngine.engine
      (with_seed (Some 42%Z) true (default_coeval_args (VNum 7))) []
      = (Ok m, [] ++ [LogWarning msg]) ∧
    initial_conditions_seed m = None ∧ change_seed_every_iter m = true.
Proof.
  apply (contradictory_seed_is_discarded ReferenceEngine.engine
           (with_seed (Some 42%Z) true (default_coeval_args (VNum 7))) 42 []).
  - reflexivity.
  - lia.
  - reflexivity.
Defined.

(** C5: with the fixed seed 0 and [change_seed_every_iter=True] the
    correction is not made: construction logs no warning and the stage keeps
    the seed 0 with changing seeds on; [setup] followed by two iterations then
    asks for the initial conditions twice, with the seed 0 each time, so the
    seed never changes.  With the fixed seed 42 the warning is logged and both
    requests leave the seed to the engine. *)
Theorem zero_seed_is_kept_and_never_changes :
  SeedExample.construction 0 = (Ok (SeedExample.stage 0), []) ∧
  initial_conditions_seed (SeedExample.stage 0) = Some 0%Z ∧
  change_seed_every_iter (SeedExample.stage 0) = true ∧
  fst (SeedExample.run 0) = Ok tt ∧
  ic_seeds ReferenceEngine.engine (w_calls (snd (SeedExample.run 0)))
    = [Some 0%Z; Some 0%Z] ∧
  (∃ msg, snd (SeedExample.construction 42) = [LogWarning msg]) ∧
  initial_conditions_seed (SeedExample.stage 42) = None ∧
  fst (SeedExample.run 42) = Ok tt ∧
  ic_seeds ReferenceEngine.engine (w_calls (snd (SeedExample.run 42))) = [None; None].
Proof. vm_compute. repeat split; eauto. Qed.

(** For the fixed seed 0 no construction discards the seed with a warning. *)
Lemma seed_zero_is_kept :
  ¬ ∃ m log,
      CoreCoevalModule.__init__ ReferenceEngine.engine
        (with_seed (Some 0%Z) true (default_coeval_args (VNum 7))) [] = (Ok m, log) ∧
      initial_conditions_seed m = None ∧ log ≠ [].
Proof.
  intros (m & log & Hinit & Hseed & Hlog).
  vm_compute in Hinit. injection Hinit as Hm Hl. apply Hlog. symmetry. exact Hl.
Qed.

(** C10: with [initial_conditions_seed=0] and [change_seed_every_iter=True]
    the correction does not trigger: construction logs nothing and the seed
    of the stage is still 0. *)
Theorem zero_seed_not_corrected (p21 : py21cmfast) (a : coeval_args)
    (log : list log_record) :
  arg_initial_conditions_seed a = Some 0%Z →
  arg_change_seed_every_iter a = true →
  ∃ m,
    CoreCoevalModule.__init__ p21 a log = (Ok m, log) ∧
    initial_conditions_seed m = Some 0%Z ∧ change_seed_every_iter m = true.
Proof.
  intros Hseed Hchange. unfold CoreCoevalModule.__init__.
  cbn [initial_conditions_seed change_seed_every_iter].
  rewrite Hseed, Hchange. simpl.
  eexists. split; [reflexivity |]. split; reflexivity.
Qed.

Lemma zero_seed_not_corrected_witness :
  ∃ m,
    CoreCoevalModule.__init__ ReferenceEngine.engine
      (with_seed (Some 0%Z) true (default_coeval_args (VNum 7))) [] = (Ok m, []) ∧
    initial_conditions_seed m = Some 0%Z ∧ change_seed_every_iter m = true.
Proof.
  apply (zero_seed_not_corrected ReferenceEngine.engine
           (with_seed (Some 0%Z) true (default_coeval_args (VNum 7))) []);
    reflexivity.
Defined.

(** ** Storage *)

Section PrepareStorage.
Variable call : pyval -> Ctx -> result pyval.

Lemma prepare_storage_prefix (pre rest : pydict) (ctx : Ctx)
    (storage : gmap string pyval) (log : list log_record) :
  Forall (fun kv => ∃ v, call (snd kv) ctx = Ok v) pre →
  CoreBase.prepare_storage call (pre ++ rest) ctx (storage, log) =
  CoreBase.prepare_storage call rest ctx (stored call ctx pre storage, log).
Proof.
  unfold CoreBase.prepare_storage.
  revert storage. induction pre as [| [k g] pre IH]; intros storage Hok; [reflexivity |].
  inversion Hok as [| ? ? [v Hv] Hpre]; subst. simpl in Hv.
  simpl. rewrite Hv. unfold bind at 1. simpl. apply IH. exact Hpre.
Qed.

Lemma stored_lookup (ctx : Ctx) (items : pydict) (storage : gmap string pyval)
    (k : string) (g v : pyval) :
  NoDup (map fst items) →
  (k, g) ∈ items →
  call g ctx = Ok v →
  stored call ctx items storage !! k = Some v.
Proof.
  revert storage. induction items as [| [k' g'] items IH]; intros storage Hnd Hin Hv.
  - by apply elem_of_nil in Hin.
  - simpl in Hnd. apply NoDup_cons in Hnd as [Hfresh Hnd].
    apply elem_of_cons in Hin as [Heq | Hin].
    + injection Heq as <- <-. simpl. rewrite Hv.
      assert (Hkeep : ∀ st, st !! k = Some v → stored call ctx items st !! k = Some v).
      { clear IH Hnd. induction items as [| [k2 g2] items IH2]; intros st Hst; [exact Hst |].
        simpl. apply not_elem_of_cons in Hfresh as [Hne Hfresh].
        apply IH2; [exact Hfresh |].
        destruct (call g2 ctx); [| exact Hst].
        simpl in Hne. by rewrite lookup_insert_ne. }
      apply Hkeep. by rewrite lookup_insert_eq.
    + simpl. apply IH; assumption.
Qed.
End PrepareStorage.

(** C9: when the extraction function of an entry raises, [prepare_storage]
    logs the failing name and raises the same exception, and the storage
    left behind holds what the entries before it wrote: each of their names
    is bound to the value its function returned. *)
Theorem prepare_storage_keeps_earlier_writes
    (call : pyval -> Ctx -> result pyval) (pre post : pydict) (name : string)
    (f : pyval) (e : exn) (ctx : Ctx) (storage : gmap string pyval)
    (log : list log_record) :
  NoDup (map fst (pre ++ (name, f) :: post)) →
  Forall (fun kv => ∃ v, call (snd kv) ctx = Ok v) pre →
  call f ctx = Raise e →
  ∃ storage',
    CoreBase.prepare_storage call (pre ++ (name, f) :: post) ctx (storage, log) =
      (Raise e,
       (storage',
        log ++ [LogError ("Exception while trying to evaluate storage function " +:+ name)])) ∧
    storage' = stored call ctx pre storage ∧
    ∀ k g v, (k, g) ∈ pre → call g ctx = Ok v → storage' !! k = Some v.
Proof.
  intros Hnd Hpre Hf. exists (stored call ctx pre storage).
  split; [| split; [reflexivity |]].
  - rewrite prepare_storage_prefix by exact Hpre.
    unfold CoreBase.prepare_storage. simpl. rewrite Hf. reflexivity.
  - intros k g v Hin Hv. apply (stored_lookup call ctx pre storage k g v); [| exact Hin | exact Hv].
    rewrite map_app in Hnd. by apply NoDup_app in Hnd as [Hnd _].
Qed.

Lemma prepare_storage_keeps_earlier_writes_witness :
  ∃ storage',
    CoreBase.prepare_storage StorageExample.call
      ([("mean_bt", VCallable 0)] ++ ("broken", VCallable 1) :: [("late", VCallable 0)])
      StorageExample.ctx (∅, []) =
      (Raise (Raised 7),
       (storage',
        [] ++ [LogError ("Exception while trying to evaluate storage function " +:+ "broken")])) ∧
    storage' = stored StorageExample.call StorageExample.ctx [("mean_bt", VCallable 0)] ∅ ∧
    ∀ k g v, (k, g) ∈ [("mean_bt", VCallable 0)] →
             StorageExample.call g StorageExample.ctx = Ok v → storage' !! k = Some v.
Proof.
  apply (prepare_storage_keeps_earlier_writes StorageExample.call
           [("mean_bt", VCallable 0)] [("late", VCallable 0)] "broken" (VCallable 1)
           (Raised 7) StorageExample.ctx ∅ []).
  - apply (bool_decide_unpack _). vm_compute. reflexivity.
  - repeat constructor. eexists. reflexivity.
  - reflexivity.
Defined.

(** ** Mock generation *)

(** C7: with [sigma] unset, [convert_model_to_mock] raises [ValueError],
    whatever the context and the random state, and leaves both as they
    were. *)
Theorem mock_without_sigma_raises (RNG : Type)
    (np_random_normal : pyval -> nat -> M RNG (list fnum))
    (call_sigma : pyval -> pyval -> result pyval)
    (self : CoreLuminosityFunction) (st : Ctx * RNG) :
  _sigma self = VNone →
  CoreLuminosityFunction.convert_model_to_mock RNG np_random_normal call_sigma self st
    = (Raise (ValueError "Cannot create a mock with sigma=None!"), st).
Proof.
  intros Hsigma. unfold CoreLuminosityFunction.convert_model_to_mock,
    CoreLuminosityFunction.sigma. rewrite Hsigma. reflexivity.
Qed.

(** ** The luminosity function without its invalid bins *)

Section Filtering.
Lemma mask_entries_retained (l m : list fnum) :
  length l = length m →
  zip (CoreLuminosityFunction.mask_entries l l) (CoreLuminosityFunction.mask_entries l m)
    = retained l m.
Proof.
  revert m. induction l as [| x l IH]; intros [| y m] Hlen; try discriminate Hlen;
    [reflexivity |].
  injection Hlen as Hlen. unfold retained in *. cbn [zip_with CoreLuminosityFunction.mask_entries].
  destruct (isnan x) eqn:Hx.
  - rewrite filter_cons_False by (cbn [fst]; rewrite Hx; discriminate). apply IH, Hlen.
  - rewrite filter_cons_True by (cbn [fst]; exact Hx).
    cbn [zip_with]. f_equal. apply IH, Hlen.
Qed.

Lemma mask_entries_self (l : list fnum) :
  CoreLuminosityFunction.mask_entries l l = filter (fun x => isnan x = false) l.
Proof.
  induction l as [| x l IH]; [reflexivity |].
  cbn [CoreLuminosityFunction.mask_entries].
  destruct (isnan x) eqn:Hx.
  - rewrite filter_cons_False by (rewrite Hx; discriminate). exact IH.
  - rewrite filter_cons_True by exact Hx. by rewrite IH.
Qed.

Lemma mask_entries_length (l m : list fnum) :
  length l = length m →
  length (CoreLuminosityFunction.mask_entries l m)
    = length (CoreLuminosityFunction.mask_entries l l).
Proof.
  revert m. induction l as [| x l IH]; intros [| y m] Hlen; try discriminate Hlen;
    [reflexivity |].
  injection Hlen as Hlen. simpl. destruct (isnan x); simpl; rewrite (IH m Hlen); reflexivity.
Qed.

Lemma filter_rows_aligned {S : Type} (lfunc rows : list (list fnum)) (s : S) :
  Forall2 (fun l m => length l = length m) lfunc rows →
  CoreLuminosityFunction.filter_rows lfunc rows s
    = (Ok (zip_with CoreLuminosityFunction.mask_entries lfunc rows), s).
Proof.
  induction 1 as [| l m lfunc rows Hlen _ IH]; [reflexivity |].
  simpl. unfold bind at 1. unfold CoreLuminosityFunction.select_not_nan.
  rewrite Hlen, Nat.eqb_refl. simpl. unfold bind at 1. rewrite IH. reflexivity.
Qed.

Lemma Forall2_same_length_refl (rows : list (list fnum)) :
  Forall2 (fun l m : list fnum => length l = length m) rows rows.
Proof. induction rows; constructor; auto. Qed.

Lemma zip_rows_retained (lfunc rows : list (list fnum)) :
  Forall2 (fun l m => length l = length m) lfunc rows →
  zip_with zip (zip_with CoreLuminosityFunction.mask_entries lfunc lfunc)
               (zip_with CoreLuminosityFunction.mask_entries lfunc rows)
    = zip_with retained lfunc rows.
Proof.
  induction 1 as [| l m lfunc rows Hlen _ IH]; [reflexivity |].
  simpl. rewrite mask_entries_retained by exact Hlen. by rewrite IH.
Qed.

Lemma zip_with_mask_self (lfunc : list (list fnum)) :
  zip_with CoreLuminosityFunction.mask_entries lfunc lfunc
    = map (filter (fun x => isnan x = false)) lfunc.
Proof.
  induction lfunc as [| l lfunc IH]; [reflexivity |].
  simpl. by rewrite mask_entries_self, IH.
Qed.
End Filtering.

(** C6: when the engine returns aligned arrays, [build_model_data] succeeds
    and stores, under ["luminosity_function" + name], the three lists [Muv],
    [mhalo] and [lfunc] such that, redshift by redshift, [lfunc] is the raw
    luminosity function without its not-a-number entries (none is left, the
    others keep their order), and the pairs made of [lfunc] with [Muv] and
    with [mhalo] entry by entry are exactly the raw pairs whose
    luminosity-function entry is a number. *)
Theorem luminosity_function_drops_nan_bins (p21 : py21cmfast)
    (self : CoreLuminosityFunction) (ctx : Ctx) (w w' : world p21) (res : lf_arrays) :
  let params := CoreCoevalModule._update_params p21 (lf_coeval self) (getParams ctx) in
  CoreLuminosityFunction.run p21 self (fst params) (snd params) w = (Ok res, w') →
  well_shaped res →
  ∃ Muv mhalo lfunc,
    CoreLuminosityFunction.build_model_data p21 self (ctx, w) =
      (Ok tt,
       (ctx_add ("luminosity_function" +:+ name self)
          (VDict [("Muv", CoreLuminosityFunction.arrays_value Muv);
                  ("mhalo", CoreLuminosityFunction.arrays_value mhalo);
                  ("lfunc", CoreLuminosityFunction.arrays_value lfunc)]) ctx,
        w')) ∧
    lfunc = map (filter (fun x => isnan x = false)) (lf_lfunc res) ∧
    Forall (Forall (fun x => isnan x = false)) lfunc ∧
    zip_with zip lfunc Muv = zip_with retained (lf_lfunc res) (lf_Muv res) ∧
    zip_with zip lfunc mhalo = zip_with retained (lf_lfunc res) (lf_mhalo res) ∧
    Forall2 (fun l m => length l = length m) lfunc Muv ∧
    Forall2 (fun l m => length l = length m) lfunc mhalo.
Proof.
  intros params Hrun [HMuv Hmhalo].
  exists (zip_with CoreLuminosityFunction.mask_entries (lf_lfunc res) (lf_Muv res)),
         (zip_with CoreLuminosityFunction.mask_entries (lf_lfunc res) (lf_mhalo res)),
         (zip_with CoreLuminosityFunction.mask_entries (lf_lfunc res) (lf_lfunc res)).
  split; [| split; [| split; [| split; [| split; [| split]]]]].
  - unfold CoreLuminosityFunction.build_model_data.
    unfold bind at 1. unfold get_fst at 1. cbn [fst snd].
    fold params. destruct params as [ap cp] eqn:Hparams. cbn [fst snd] in Hrun.
    unfold bind at 1. unfold on_snd at 1. cbn [fst snd]. rewrite Hrun.
    unfold bind at 1. rewrite (filter_rows_aligned _ _ _ HMuv).
    unfold bind at 1. rewrite (filter_rows_aligned _ _ _ Hmhalo).
    unfold bind at 1.
    rewrite (filter_rows_aligned _ _ _ (Forall2_same_length_refl (lf_lfunc res))).
    reflexivity.
  - apply zip_with_mask_self.
  - rewrite zip_with_mask_self. apply Forall_map, Forall_forall. intros l _.
    simpl. apply Forall_forall. intros x Hx. by apply list_elem_of_filter in Hx as [Hx _].
  - apply zip_rows_retained, HMuv.
  - apply zip_rows_retained, Hmhalo.
  - clear Hmhalo Hrun. induction HMuv as [| l m ls ms Hlen _ IH]; simpl; constructor;
      [symmetry; apply mask_entries_length, Hlen | exact IH].
  - clear HMuv Hrun. induction Hmhalo as [| l m ls ms Hlen _ IH]; simpl; constructor;
      [symmetry; apply mask_entries_length, Hlen | exact IH].
Qed.

Lemma luminosity_function_drops_nan_bins_witness :
  ∃ Muv mhalo lfunc,
    CoreLuminosityFunction.build_model_data ReferenceEngine.engine
      (LuminosityExample.stage VNone) (LuminosityExample.ctx, ReferenceEngine.empty_world) =
      (Ok tt,
       (ctx_add ("luminosity_function" +:+ name (LuminosityExample.stage VNone))
          (VDict [("Muv", CoreLuminosityFunction.arrays_value Muv);
                  ("mhalo", CoreLuminosityFunction.arrays_value mhalo);
                  ("lfunc", CoreLuminosityFunction.arrays_value lfunc)])
          LuminosityExample.ctx,
        LuminosityExample.world_after_run)) ∧
    lfunc = map (filter (fun x => isnan x = false)) (lf_lfunc LuminosityExample.raw) ∧
    Forall (Forall (fun x => isnan x = false)) lfunc ∧
    zip_with zip lfunc Muv
      = zip_with retained (lf_lfunc LuminosityExample.raw) (lf_Muv LuminosityExample.raw) ∧
    zip_with zip lfunc mhalo
      = zip_with retained (lf_lfunc LuminosityExample.raw) (lf_mhalo LuminosityExample.raw) ∧
    Forall2 (fun l m => length l = length m) lfunc Muv ∧
    Forall2 (fun l m => length l = length m) lfunc mhalo.
Proof.
  apply (luminosity_function_drops_nan_bins ReferenceEngine.engine
           (LuminosityExample.stage VNone) LuminosityExample.ctx
           ReferenceEngine.empty_world LuminosityExample.world_after_run
           LuminosityExample.raw).
  - reflexivity.
  - split; repeat constructor.
Defined.

(** The bundle stored for the example: the second bin is gone from all three
    arrays. *)
Example luminosity_bundle_stored :
  ctx_get "luminosity_function_z6"
    (fst (snd (CoreLuminosityFunction.build_model_data ReferenceEngine.engine
                 (LuminosityExample.stage VNone)
                 (LuminosityExample.ctx, ReferenceEngine.empty_world))))
  = VDict [("Muv", VList [VArray [FVal (-20); FVal (-18)]]);
           ("mhalo", VList [VArray [FVal 10; FVal 12]]);
           ("lfunc", VList [VArray [FVal (-3); FVal (-5)]])].
Proof. vm_compute. reflexivity. Qed.

Lemma mock_without_sigma_raises_witness :
  CoreLuminosityFunction.convert_model_to_mock nat LuminosityExample.constant_normal
    LuminosityExample.not_callable (LuminosityExample.stage VNone)
    (LuminosityExample.ctx, 0)
  = (Raise (ValueError "Cannot create a mock with sigma=None!"), (LuminosityExample.ctx, 0)).
Proof.
  apply (mock_without_sigma_raises nat LuminosityExample.constant_normal
           LuminosityExample.not_callable (LuminosityExample.stage VNone)
           (LuminosityExample.ctx, 0)).
  reflexivity.
Defined.

(** With a noise level, the mock is the model plus one draw per bin. *)
Example mock_with_scalar_sigma :
  let built :=
    fst (snd (CoreLuminosityFunction.build_model_data ReferenceEngine.engine
                (LuminosityExample.stage (VNum 2))
                (LuminosityExample.ctx, ReferenceEngine.empty_world))) in
  let mocked :=
    CoreLuminosityFunction.convert_model_to_mock nat LuminosityExample.constant_normal
      LuminosityExample.not_callable (LuminosityExample.stage (VNum 2)) (built, 0) in
  fst mocked = Ok tt ∧
  dict_get "lfunc" (ReferenceEngine.as_dict
                      (ctx_get "luminosity_function_z6" (fst (snd mocked))))
    = Some (VList [VArray [FVal (-2); FVal (-4)]]).
Proof. vm_compute. split; reflexivity. Qed.

(** ** The initial conditions and perturbed fields across iterations *)

Section BoxesProofs.
Context (p21 : py21cmfast).

Lemma py_iter_values {S : Type} (v : pyval) (s : S) :
  py_iter v s = (Ok (iter_values v), s) ∨
  ((∃ e, py_iter v s = (Raise e, s)) ∧ iter_values v = []).
Proof. destruct v; simpl; auto; right; split; eauto. Qed.

Lemma perturb_loop_trace (m : CoreCoevalModule) (ic : IC p21) (regen : bool)
    (write : option bool) (addr : nat) (zs : list pyval) :
  ∀ (w w' : world p21) (r : result unit),
    for_each zs (fun z =>
      let rq := {| pf_redshift := z; pf_init_boxes := ic;
                   pf_direc := io_cache_dir (io_options m);
                   pf_regenerate := regen; pf_write := write;
                   pf_global_params := global_params m |} in
      pf <- CoreCoevalModule.call_engine p21 (CallPerturbField rq) (perturb_field p21 rq) ;;
      CoreCoevalModule.list_iadd p21 addr pf) w = (r, w') →
    ∃ n, w_calls w' = w_calls w ++
           take n (map (fun z => CallPerturbField
                          {| pf_redshift := z; pf_init_boxes := ic;
                             pf_direc := io_cache_dir (io_options m);
                             pf_regenerate := regen; pf_write := write;
                             pf_global_params := global_params m |}) zs) ∧
         (r = Ok tt → n = length zs) ∧
         length (w_heap w') = length (w_heap w) ∧ w_log w' = w_log w.
Proof.
  induction zs as [| z zs IH]; intros w w' r Hrun.
  - injection Hrun as <- <-. exists 0. rewrite app_nil_r. auto.
  - simpl in Hrun. unfold bind at 1 2 in Hrun.
    unfold CoreCoevalModule.call_engine at 1 in Hrun.
    destruct (perturb_field p21 _ (w_engine w)) as [[pf | e] e'] eqn:Hpf.
    + unfold CoreCoevalModule.list_iadd at 1 in Hrun.
      apply IH in Hrun as (n & Hcalls & Hn & Hheap & Hlog). simpl in *.
      exists (Datatypes.S n). rewrite Hcalls, <- app_assoc. simpl.
      split; [reflexivity |]. split; [intros Hr; f_equal; auto |].
      split; [| exact Hlog]. rewrite Hheap. apply length_alter.
    + injection Hrun as <- <-. exists 1. simpl. rewrite take_0.
      split; [reflexivity |]. split; [discriminate | auto].
Qed.

Lemma perturb_all_trace (m : CoreCoevalModule) (ic : IC p21) (regen : bool)
    (write : option bool) (addr : nat) (w w' : world p21) (r : result unit) :
  CoreCoevalModule.perturb_all p21 m ic regen write addr w = (r, w') →
  ∃ n, w_calls w' = w_calls w ++ take n (pf_calls p21 m ic regen write) ∧
       (r = Ok tt → n = length (iter_values (redshift m))) ∧
       length (w_heap w') = length (w_heap w) ∧ w_log w' = w_log w.
Proof.
  unfold CoreCoevalModule.perturb_all, pf_calls. unfold bind at 1.
  destruct (py_iter_values (redshift m) w) as [Hit | [[e Hit] Hnil]]; rewrite Hit.
  - apply perturb_loop_trace.
  - intros Hrun. injection Hrun as <- <-. exists 0. rewrite Hnil. simpl.
    rewrite app_nil_r. auto.
Qed.

Lemma coeval_perturb_addrs_app (l1 l2 : list (engine_call (IC p21) (PF p21))) :
  coeval_perturb_addrs p21 (l1 ++ l2)
    = coeval_perturb_addrs p21 l1 ++ coeval_perturb_addrs p21 l2.
Proof. unfold coeval_perturb_addrs. apply omap_app. Qed.

Lemma coeval_perturb_addrs_pf (m : CoreCoevalModule) (ic : IC p21) (regen : bool)
    (write : option bool) (n : nat) :
  coeval_perturb_addrs p21 (take n (pf_calls p21 m ic regen write)) = [].
Proof.
  unfold pf_calls. revert n.
  induction (iter_values (redshift m)) as [| z zs IH]; intros [| n]; simpl; auto.
Qed.

Lemma count_ic_app (l1 l2 : list (engine_call (IC p21) (PF p21))) :
  count_ic p21 (l1 ++ l2) = count_ic p21 l1 + count_ic p21 l2.
Proof. unfold count_ic. by rewrite List.filter_app, length_app. Qed.

Lemma count_ic_pf (m : CoreCoevalModule) (ic : IC p21) (regen : bool)
    (write : option bool) (n : nat) :
  count_ic p21 (take n (pf_calls p21 m ic regen write)) = 0.
Proof.
  unfold pf_calls, count_ic. revert n.
  induction (iter_values (redshift m)) as [| z zs IH]; intros [| n]; simpl; auto.
Qed.

(** What [get_current_init_and_perturb] asks of the engine, and the list it
    returns. *)
Lemma get_current_trace (m : CoreCoevalModule) (cosmo : pyval) (w w' : world p21)
    (r : result (IC p21 * nat)) :
  CoreCoevalModule.get_current_init_and_perturb p21 m cosmo w = (r, w') →
  ∃ rest,
    w_calls w' = w_calls w ++
      CallInitialConditions
        {| ic_user_params := user_params m; ic_cosmo_params := cosmo;
           ic_direc := io_cache_dir (io_options m); ic_regenerate := false;
           ic_random_seed := initial_conditions_seed m;
           ic_write := Some (io_cache_mcmc (io_options m));
           ic_global_params := global_params m |} :: rest ∧
    coeval_perturb_addrs p21 rest = [] ∧
    count_ic p21 rest = 0 ∧
    (∀ ic addr, r = Ok (ic, addr) → addr = length (w_heap w)).
Proof.
  unfold CoreCoevalModule.get_current_init_and_perturb. unfold bind at 1.
  unfold CoreCoevalModule.call_engine at 1.
  destruct (initial_conditions p21 _ (w_engine w)) as [[ic | e] e'].
  - unfold bind at 1. unfold CoreCoevalModule.new_list at 1. unfold bind at 1.
    destruct (CoreCoevalModule.perturb_all p21 m ic false _ _ _) as [[[] | e] w1] eqn:Hpf;
      apply perturb_all_trace in Hpf as (n & Hcalls & _ & _ & _); simpl in Hcalls;
      intros Hrun; injection Hrun as <- <-;
      (exists (take n (pf_calls p21 m ic false (Some (io_cache_mcmc (io_options m)))));
       rewrite Hcalls, <- app_assoc; simpl;
       split; [reflexivity |]; split; [apply coeval_perturb_addrs_pf |];
       split; [apply count_ic_pf |]).
    + intros ic' addr' Heq. by injection Heq as _ <-.
    + discriminate.
  - intros Hrun. injection Hrun as <- <-. exists []. simpl.
    repeat split; try reflexivity. discriminate.
Qed.

Lemma overlay_without_match (struct : pyval) (params : pydict) :
  existsb (fun kv => in_dict (fst kv) (defining_dict p21 struct)) params = false →
  CoreCoevalModule.overlay p21 struct params = struct_self p21 struct.
Proof.
  intros Hnone. unfold CoreCoevalModule.overlay.
  replace (filter (fun kv => in_dict (fst kv) (defining_dict p21 struct) = true) params)
    with ([] : pydict); [reflexivity |].
  induction params as [| kv params IH]; [reflexivity |].
  simpl in Hnone. apply orb_false_elim in Hnone as [Hkv Hrest].
  rewrite filter_cons_False by (rewrite Hkv; discriminate). by apply IH.
Qed.

Lemma ctx_loop_world (coeval : list (Coeval p21)) (keys : list string)
    (ctx : Ctx) (w : world p21) :
  snd (snd (for_each keys (fun key =>
    match CoreCoevalModule.collect_field p21 key coeval with
    | Some vs => on_fst (fun ctx => (Ok tt, ctx_add key (VList vs) ctx))
    | None => raise (ValueError ("ctx_variable " +:+ key +:+ " not an attribute of Coeval"))
    end) (ctx, w))) = w.
Proof.
  revert ctx. induction keys as [| key keys IH]; intros ctx; [reflexivity |].
  simpl. unfold bind at 1.
  destruct (CoreCoevalModule.collect_field p21 key coeval); simpl; [apply IH | reflexivity].
Qed.

(** Every [build_model_data] starts with a request for initial conditions,
    makes no other, and hands [run_coeval] the list it has just made. *)
Lemma build_model_data_calls (m : CoreCoevalModule) (ctx : Ctx) (w : world p21) :
  ∃ rest,
    w_calls (snd (snd (CoreCoevalModule.build_model_data p21 m (ctx, w))))
      = w_calls w ++ CallInitialConditions (iteration_request_for p21 m ctx) :: rest ∧
    count_ic p21 rest = 0 ∧
    Forall (fun addr => addr = length (w_heap w)) (coeval_perturb_addrs p21 rest).
Proof.
  unfold CoreCoevalModule.build_model_data, iteration_request_for.
  unfold bind at 1. unfold logger at 1. unfold bind at 1. unfold get_fst at 1.
  unfold emit at 1, log_snd at 1. cbn [fst snd].
  unfold CoreCoevalModule._update_params. cbn [snd].
  unfold bind at 1. unfold logger at 1. unfold emit at 1, log_snd at 1. cbn [fst snd].
  unfold bind at 1. unfold on_snd at 1. cbn [fst snd].
  destruct (CoreCoevalModule.get_current_init_and_perturb p21 m _ _)
    as [[[ic addr] | e] w1] eqn:Hget;
    apply get_current_trace in Hget as (rest & Hcalls & Haddrs & Hcount & Haddr);
    unfold emit, log_world in Hcalls, Haddr; cbn [w_calls w_heap] in Hcalls, Haddr.
  - specialize (Haddr ic addr eq_refl).
    unfold bind at 1. unfold on_snd at 1, CoreCoevalModule.read_list at 1. cbn [fst snd].
    unfold bind at 1. unfold on_snd at 1, CoreCoevalModule.call_engine at 1. cbn [fst snd].
    destruct (run_coeval p21 _ (w_engine w1)) as [[coeval | e] e'].
    + unfold bind at 1. unfold logger at 1. unfold emit at 1, log_snd at 1. cbn [fst snd].
      rewrite ctx_loop_world. unfold emit, log_world. cbn [w_calls].
      eexists (rest ++ [CallRunCoeval _]).
      rewrite Hcalls, <- app_assoc. split; [reflexivity |].
      rewrite count_ic_app, coeval_perturb_addrs_app, Haddrs, Hcount. simpl.
      split; [reflexivity |]. constructor; [exact Haddr | constructor].
    + cbn [fst snd w_calls].
      eexists (rest ++ [CallRunCoeval _]).
      rewrite Hcalls, <- app_assoc. split; [reflexivity |].
      rewrite count_ic_app, coeval_perturb_addrs_app, Haddrs, Hcount. simpl.
      split; [reflexivity |]. constructor; [exact Haddr | constructor].
  - cbn [fst snd]. exists rest. rewrite Hcalls. split; [reflexivity |].
    split; [exact Hcount |]. rewrite Haddrs. constructor.
Qed.

Lemma build_model_data_trace (m : CoreCoevalModule) (ctx : Ctx) (w : world p21) :
  overrides_cosmology p21 m ctx = false →
  ∃ rest,
    w_calls (snd (snd (CoreCoevalModule.build_model_data p21 m (ctx, w))))
      = w_calls w ++ CallInitialConditions (iteration_request p21 m) :: rest ∧
    count_ic p21 rest = 0 ∧
    Forall (fun addr => addr = length (w_heap w)) (coeval_perturb_addrs p21 rest).
Proof.
  intros Hnone.
  replace (iteration_request p21 m) with (iteration_request_for p21 m ctx);
    [apply build_model_data_calls |].
  unfold iteration_request_for, iteration_request, CoreCoevalModule._update_params.
  cbn [snd]. by rewrite (overlay_without_match (cosmo_params m) (getParams ctx) Hnone).
Qed.

(** Each iteration adds one request for initial conditions. *)
Lemma iteration_count (m : CoreCoevalModule) (ctx : Ctx) (w : world p21) :
  count_ic p21 (w_calls (snd (iteration p21 m ctx w))) = count_ic p21 (w_calls w) + 1.
Proof.
  destruct (build_model_data_calls m ctx w) as (rest & Hcalls & Hcount & _).
  unfold iteration.
  destruct (CoreCoevalModule.build_model_data p21 m (ctx, w)) as [r cw].
  cbn [snd] in *. rewrite Hcalls, count_ic_app. f_equal.
  change (CallInitialConditions (iteration_request_for p21 m ctx) :: rest)
    with ([CallInitialConditions (iteration_request_for p21 m ctx)] ++ rest).
  rewrite count_ic_app, Hcount. reflexivity.
Qed.

Lemma iterations_count (m : CoreCoevalModule) (ctxs : list Ctx) (w w2 : world p21) :
  for_each ctxs (iteration p21 m) w = (Ok tt, w2) →
  count_ic p21 (w_calls w2) = count_ic p21 (w_calls w) + length ctxs.
Proof.
  revert w. induction ctxs as [| ctx ctxs IH]; intros w Hrun.
  - injection Hrun as <-. simpl. lia.
  - simpl in Hrun. unfold bind at 1 in Hrun.
    pose proof (iteration_count m ctx w) as Hone.
    destruct (iteration p21 m ctx w) as [[[] | e] w1]; [| discriminate].
    cbn [snd] in Hone. apply IH in Hrun. rewrite Hrun, Hone. simpl. lia.
Qed.

(** Whatever the engine, the stage and the chain: as soon as one iteration
    runs, the boxes of [setup] are not what the iterations use. *)
Lemma reuse_is_never_in_memory (cls : pyclass) (c : chain) (self : CoreCoevalModule)
    (ctx : Ctx) (ctxs : list Ctx) (w : world p21) :
  ¬ boxes_made_once_and_reused p21 cls c self (ctx :: ctxs) w.
Proof.
  intros (self1 & w1 & w2 & _ & Hiter & Hcount & _).
  apply iterations_count in Hiter. rewrite Hiter in Hcount. simpl in Hcount. lia.
Qed.

Lemma setup_trace (cls : pyclass) (c : chain) (self self1 : CoreCoevalModule)
    (w w1 : world p21) :
  change_seed_every_iter self = false →
  samples_cosmology p21 self c = false →
  CoreCoevalModule.setup p21 cls (Some c) (self, w) = (Ok tt, (self1, w1)) →
  let up := CoreCoevalModule._update_params p21 self (chain_context_params c) in
  let updated := CoreCoevalModule.set_astro_cosmo_params (fst up) (snd up) self in
  ∃ ic,
    self1 = CoreCoevalModule.set_initial_conditions_seed
              (Some (random_seed p21 ic)) updated ∧
    w_calls w1 = w_calls w ++ CallInitialConditions (setup_request updated)
                   :: pf_calls p21 updated ic (regenerate self) None.
Proof.
  intros Hchange Hsampled. unfold CoreCoevalModule.setup.
  unfold bind at 1.
  pose proof (CoreBase_check_state cls (Some c) (self, w)) as Hstate.
  unfold CoreBase.setup.
  destruct (CoreBase._check_required_cores cls (Some c) (self, w)) as [[[] | e] st];
    simpl in Hstate; subst st; [| discriminate].
  unfold bind at 1. unfold ModuleBase.chain_of at 1, ret at 1.
  unfold bind at 1. unfold get_fst at 1. cbn [fst snd].
  unfold samples_cosmology in Hsampled.
  destruct (CoreCoevalModule._update_params p21 self (chain_context_params c))
    as [ap cp] eqn:Hup.
  cbn [fst snd] in *.
  unfold bind at 1. unfold set_fst at 1. cbn [fst snd].
  unfold bind at 1. unfold get_fst at 1. cbn [fst snd].
  unfold bind at 1. unfold ModuleBase.parameter_names at 1.
  unfold bind at 1. unfold ModuleBase.chain_of at 1, ret at 1 2.
  cbn [cosmo_params change_seed_every_iter CoreCoevalModule.set_astro_cosmo_params].
  rewrite Hsampled, Hchange. cbn [negb andb].
  unfold bind at 1. unfold logger at 1. unfold emit at 1, log_snd at 1. cbn [fst snd].
  unfold bind at 1. unfold on_snd at 1, CoreCoevalModule.call_engine at 1. cbn [fst snd].
  match goal with
  | |- context [initial_conditions p21 ?r ?e] =>
      destruct (initial_conditions p21 r e) as [[ic | e1] e'] eqn:Hic
  end; [| discriminate].
  unfold bind at 1. unfold set_fst at 1. cbn [fst snd].
  unfold bind at 1. unfold on_snd at 1, CoreCoevalModule.new_list at 1. cbn [fst snd].
  unfold bind at 1. unfold on_snd at 1. cbn [fst snd].
  match goal with
  | |- context [CoreCoevalModule.perturb_all p21 ?m ?i ?rg ?wr ?ad ?w0] =>
      destruct (CoreCoevalModule.perturb_all p21 m i rg wr ad w0) as [[[] | e2] w2] eqn:Hpf
  end; [| discriminate].
  apply perturb_all_trace in Hpf as (n & Hcalls & Hn & _ & _).
  specialize (Hn eq_refl).
  unfold logger, emit, log_snd, log_world. cbn [fst snd].
  intros Hrun. injection Hrun as <- <-.
  exists ic. split; [reflexivity |].
  cbn [w_calls]. rewrite Hcalls. cbn [w_calls emit log_world]. unfold emit, log_world.
  cbn [w_calls]. rewrite <- app_assoc. cbn [app].
  rewrite take_ge; [reflexivity |].
  unfold pf_calls. rewrite length_map. lia.
Qed.
End BoxesProofs.

Section BoxesRun.
Context (p21 : py21cmfast).

Lemma perturbed_length (m : CoreCoevalModule) (ic : IC p21) (regen : bool)
    (write : option bool) (zs : list pyval) :
  ∀ (e e' : E p21) (pfs : list (PF p21)),
    perturbed p21 m ic regen write zs e = Some (pfs, e') → length pfs = length zs.
Proof.
  induction zs as [| z zs IH]; intros e e' pfs Hrun; simpl in Hrun.
  - by injection Hrun as <- _.
  - destruct (perturb_field p21 _ e) as [[pf | x] e1]; [| discriminate].
    destruct (perturbed p21 m ic regen write zs e1) as [[pfs1 e2] |] eqn:Hrest;
      [| discriminate].
    injection Hrun as <- _. simpl. f_equal. by apply (IH e1 e2).
Qed.

(** The loop over the redshifts, when every request is answered: the
    answers are appended, in order, to the list at the last address. *)
Lemma perturb_loop_run (m : CoreCoevalModule) (ic : IC p21) (regen : bool)
    (write : option bool) (zs : list pyval) :
  ∀ (w w' : world p21) (heap : list (list (PF p21))) (l0 : list (PF p21)),
    w_heap w = heap ++ [l0] →
    for_each zs (fun z =>
      let rq := {| pf_redshift := z; pf_init_boxes := ic;
                   pf_direc := io_cache_dir (io_options m);
                   pf_regenerate := regen; pf_write := write;
                   pf_global_params := global_params m |} in
      pf <- CoreCoevalModule.call_engine p21 (CallPerturbField rq) (perturb_field p21 rq) ;;
      CoreCoevalModule.list_iadd p21 (length heap) pf) w = (Ok tt, w') →
    ∃ pfs, perturbed p21 m ic regen write zs (w_engine w) = Some (pfs, w_engine w') ∧
           w_heap w' = heap ++ [l0 ++ pfs].
Proof.
  induction zs as [| z zs IH]; intros w w' heap l0 Hheap Hrun.
  - injection Hrun as <-. exists []. by rewrite app_nil_r.
  - simpl in Hrun. unfold bind at 1 2 in Hrun.
    unfold CoreCoevalModule.call_engine at 1 in Hrun. simpl.
    destruct (perturb_field p21 _ (w_engine w)) as [[pf | x] e1]; [| discriminate].
    unfold CoreCoevalModule.list_iadd at 1 in Hrun.
    apply (IH _ _ heap (l0 ++ [pf])) in Hrun as (pfs & Hpfs & Hheap').
    + cbn [w_engine] in Hpfs. rewrite Hpfs. exists (pf :: pfs).
      split; [reflexivity |]. by rewrite Hheap', <- app_assoc.
    + cbn [w_heap]. rewrite Hheap.
      rewrite <- (Nat.add_0_r (length heap)). by rewrite alter_app_r.
Qed.

(** [get_current_init_and_perturb], when the engine answers every request. *)
Lemma get_current_run (m : CoreCoevalModule) (cosmo : pyval) (w w' : world p21)
    (ic : IC p21) (addr : nat) :
  CoreCoevalModule.get_current_init_and_perturb p21 m cosmo w = (Ok (ic, addr), w') →
  let rq := {| ic_user_params := user_params m; ic_cosmo_params := cosmo;
               ic_direc := io_cache_dir (io_options m); ic_regenerate := false;
               ic_random_seed := initial_conditions_seed m;
               ic_write := Some (io_cache_mcmc (io_options m));
               ic_global_params := global_params m |} in
  ∃ e1 pfs,
    initial_conditions p21 rq (w_engine w) = (Ok ic, e1) ∧
    perturbed p21 m ic false (Some (io_cache_mcmc (io_options m)))
      (iter_values (redshift m)) e1 = Some (pfs, w_engine w') ∧
    addr = length (w_heap w) ∧
    w_heap w' = w_heap w ++ [pfs] ∧
    w_calls w' = w_calls w ++ CallInitialConditions rq
                   :: pf_calls p21 m ic false (Some (io_cache_mcmc (io_options m))) ∧
    w_log w' = w_log w.
Proof.
  intros Hrun rq. revert Hrun.
  unfold CoreCoevalModule.get_current_init_and_perturb. unfold bind at 1.
  unfold CoreCoevalModule.call_engine at 1. fold rq.
  destruct (initial_conditions p21 rq (w_engine w)) as [[ic0 | x] e1]; [| discriminate].
  unfold bind at 1. unfold CoreCoevalModule.new_list at 1. unfold bind at 1.
  destruct (CoreCoevalModule.perturb_all p21 m ic0 false _ _ _) as [[[] | x] w1] eqn:Hpf;
    [| discriminate].
  intros Hrun. injection Hrun as <- <- <-.
  pose proof (perturb_all_trace p21 _ _ _ _ _ _ _ _ Hpf) as (n & Hcalls & Hn & _ & Hlog).
  specialize (Hn eq_refl). cbn [w_calls w_log] in Hcalls, Hlog.
  unfold CoreCoevalModule.perturb_all in Hpf. unfold bind at 1 in Hpf.
  match type of Hpf with
  | context [py_iter ?v ?s] =>
      destruct (py_iter_values v s) as [Hit | [[x Hit] _]]; rewrite Hit in Hpf
  end; [| discriminate].
  cbn [w_heap] in Hpf.
  apply (perturb_loop_run _ _ _ _ _ _ _ (w_heap w) []) in Hpf as (pfs & Hpfs & Hheap);
    [| reflexivity].
  cbn [w_engine] in Hpfs. exists e1, pfs.
  split; [reflexivity |]. split; [exact Hpfs |]. split; [reflexivity |].
  split; [exact Hheap |]. split; [| exact Hlog].
  rewrite Hcalls, <- app_assoc. simpl. rewrite take_ge; [reflexivity |].
  unfold pf_calls. rewrite length_map. lia.
Qed.

(** A [build_model_data] that returns has asked the engine for the initial
    conditions, for one perturbed field per redshift and for the coeval boxes,
    in this order, and has handed [run_coeval] the list it made. *)
Lemma build_model_data_run (m : CoreCoevalModule) (ctx ctx' : Ctx) (w w' : world p21) :
  CoreCoevalModule.build_model_data p21 m (ctx, w) = (Ok tt, (ctx', w')) →
  ∃ ic e1 pfs e2 coeval,
    initial_conditions p21 (iteration_request_for p21 m ctx) (w_engine w) = (Ok ic, e1) ∧
    perturbed p21 m ic false (Some (io_cache_mcmc (io_options m)))
      (iter_values (redshift m)) e1 = Some (pfs, e2) ∧
    run_coeval p21 (coeval_request_of p21 m ctx ic (length (w_heap w)) pfs) e2
      = (Ok coeval, w_engine w') ∧
    w_calls w' = w_calls w ++
      CallInitialConditions (iteration_request_for p21 m ctx)
      :: pf_calls p21 m ic false (Some (io_cache_mcmc (io_options m)))
      ++ [CallRunCoeval (coeval_request_of p21 m ctx ic (length (w_heap w)) pfs)] ∧
    w_heap w' = w_heap w ++ [pfs].
Proof.
  unfold CoreCoevalModule.build_model_data, iteration_request_for, coeval_request_of.
  unfold bind at 1. unfold logger at 1. unfold bind at 1. unfold get_fst at 1.
  unfold emit at 1, log_snd at 1. cbn [fst snd].
  unfold CoreCoevalModule._update_params. cbn [fst snd].
  unfold bind at 1. unfold logger at 1. unfold emit at 1, log_snd at 1. cbn [fst snd].
  unfold bind at 1. unfold on_snd at 1. cbn [fst snd].
  destruct (CoreCoevalModule.get_current_init_and_perturb p21 m _ _)
    as [[[ic addr] | x] w1] eqn:Hget; [| discriminate].
  apply get_current_run in Hget as (e1 & pfs & Hic & Hpfs & -> & Hheap & Hcalls & _).
  unfold emit, log_snd in *. unfold emit, log_world in *.
  cbn [fst snd w_calls w_heap w_engine] in *.
  unfold bind at 1. unfold on_snd at 1, CoreCoevalModule.read_list at 1. cbn [fst snd].
  rewrite Hheap. rewrite lookup_app_r by lia. rewrite Nat.sub_diag. cbn [lookup default].
  simpl default.
  unfold bind at 1. unfold on_snd at 1. cbn [fst snd]. unfold CoreCoevalModule.call_engine at 1.
  destruct (run_coeval p21 _ (w_engine w1)) as [[coeval | x] e2] eqn:Hrun; [| discriminate].
  unfold bind at 1. unfold logger at 1. unfold emit, log_snd. unfold emit, log_world.
  cbn [fst snd w_log w_engine w_calls w_heap].
  match goal with
  | |- for_each ?keys ?body (?c, ?ww) = _ → _ =>
      pose proof (ctx_loop_world p21 coeval keys c ww) as Hworld;
      destruct (for_each keys body (c, ww)) as [r [ctx2 w2]]
  end.
  cbn [fst snd] in Hworld. intros Heq. injection Heq as _ _ <-. subst w2.
  cbn [w_calls w_heap w_engine].
  exists ic, e1, pfs, (w_engine w1), coeval.
  split; [exact Hic |]. split; [exact Hpfs |]. split; [exact Hrun |].
  split; [| exact Hheap]. rewrite Hcalls, <- app_assoc. reflexivity.
Qed.
End BoxesRun.


(** C1, as stated, fails on the example chain (no seed change, one
    astrophysical parameter sampled): after [setup] and two iterations the
    initial conditions were requested again, and [run_coeval] received lists
    made in the iterations. *)
Lemma boxes_not_reused_in_memory :
  ¬ boxes_made_once_and_reused ReferenceEngine.engine CoreCoevalModule_class
      Examples.coeval_chain Examples.coeval_stage
      [Examples.iteration_ctx 30; Examples.iteration_ctx 31]
      ReferenceEngine.empty_world.
Proof.
  intros (self1 & w1 & w2 & Hsetup & Hiter & Hcount & _).
  vm_compute in Hsetup. injection Hsetup as <- <-.
  vm_compute in Hiter. injection Hiter as <-.
  vm_compute in Hcount. discriminate Hcount.
Qed.

Example example_chain_meets_the_conditions :
  change_seed_every_iter Examples.coeval_stage = false ∧
  samples_cosmology ReferenceEngine.engine Examples.coeval_stage Examples.coeval_chain = false.
Proof. split; vm_compute; reflexivity. Qed.

Example example_run_calls :
  let st1 := snd (CoreCoevalModule.setup ReferenceEngine.engine CoreCoevalModule_class
                    (Some Examples.coeval_chain)
                    (Examples.coeval_stage, ReferenceEngine.empty_world)) in
  let w2 := snd (for_each [Examples.iteration_ctx 30; Examples.iteration_ctx 31]
                   (iteration ReferenceEngine.engine (fst st1)) (snd st1)) in
  count_ic ReferenceEngine.engine (w_calls (snd st1)) = 1 ∧
  count_ic ReferenceEngine.engine (w_calls w2) = 3 ∧
  length (w_heap (snd st1)) = 1 ∧
  coeval_perturb_addrs ReferenceEngine.engine (w_calls w2) = [1; 2].
Proof. vm_compute. repeat split; reflexivity. Qed.

(** The example chain runs: after [setup] an iteration returns. *)
Example example_iteration_returns :
  fst (CoreCoevalModule.build_model_data ReferenceEngine.engine (fst Examples.after_setup)
         (Examples.iteration_ctx 30, snd Examples.after_setup)) = Ok tt.
Proof. vm_compute. reflexivity. Qed.

(** C1, as amended: with [change_seed_every_iter=False] and no cosmological
    parameter among the chain's, a successful [setup] requests the initial
    conditions once and one perturbed field per redshift, and keeps of them
    the random seed alone.  Every later [build_model_data] on a context that
    samples no cosmological parameter requests the initial conditions again,
    with one and the same request (regeneration off, the seed kept at
    setup), and makes no other such request.  When it returns, it has asked
    for exactly one perturbed field per redshift, in order, from these
    initial conditions, has collected the answers in a list made in that
    call (a new address of the heap), and has handed this list to
    [run_coeval], its last request: the reuse goes through the engine's
    cache, not through an object kept in memory. *)
Theorem boxes_made_at_setup_requested_again_each_iteration (p21 : py21cmfast)
    (cls : pyclass) (c : chain) (self self1 : CoreCoevalModule) (w w1 : world p21) :
  change_seed_every_iter self = false →
  samples_cosmology p21 self c = false →
  CoreCoevalModule.setup p21 cls (Some c) (self, w) = (Ok tt, (self1, w1)) →
  let up := CoreCoevalModule._update_params p21 self (chain_context_params c) in
  let updated := CoreCoevalModule.set_astro_cosmo_params (fst up) (snd up) self in
  ∃ ic,
    self1 = CoreCoevalModule.set_initial_conditions_seed (Some (random_seed p21 ic)) updated ∧
    w_calls w1 = w_calls w ++ CallInitialConditions (setup_request updated)
                   :: pf_calls p21 updated ic (regenerate self) None ∧
    count_ic p21 (w_calls w1) = count_ic p21 (w_calls w) + 1 ∧
    ic_regenerate (iteration_request p21 self1) = false ∧
    ic_random_seed (iteration_request p21 self1) = Some (random_seed p21 ic) ∧
    (∀ (ctx : Ctx) (w2 : world p21),
      overrides_cosmology p21 self1 ctx = false →
      ∃ rest,
        w_calls (snd (snd (CoreCoevalModule.build_model_data p21 self1 (ctx, w2))))
          = w_calls w2 ++ CallInitialConditions (iteration_request p21 self1) :: rest ∧
        count_ic p21 rest = 0 ∧
        Forall (fun addr => addr = length (w_heap w2)) (coeval_perturb_addrs p21 rest)) ∧
    (∀ (ctx ctx' : Ctx) (w2 w3 : world p21),
      overrides_cosmology p21 self1 ctx = false →
      CoreCoevalModule.build_model_data p21 self1 (ctx, w2) = (Ok tt, (ctx', w3)) →
      ∃ ic' e1 pfs e2 coeval,
        initial_conditions p21 (iteration_request p21 self1) (w_engine w2) = (Ok ic', e1) ∧
        perturbed p21 self1 ic' false (Some (io_cache_mcmc (io_options self1)))
          (iter_values (redshift self1)) e1 = Some (pfs, e2) ∧
        length pfs = length (iter_values (redshift self1)) ∧
        run_coeval p21 (coeval_request_of p21 self1 ctx ic' (length (w_heap w2)) pfs) e2
          = (Ok coeval, w_engine w3) ∧
        w_calls w3 = w_calls w2 ++
          CallInitialConditions (iteration_request p21 self1)
          :: pf_calls p21 self1 ic' false (Some (io_cache_mcmc (io_options self1)))
          ++ [CallRunCoeval
                (coeval_request_of p21 self1 ctx ic' (length (w_heap w2)) pfs)] ∧
        w_heap w3 = w_heap w2 ++ [pfs]).
Proof.
  intros Hchange Hsampled Hsetup up updated.
  destruct (setup_trace p21 cls c self self1 w w1 Hchange Hsampled Hsetup)
    as (ic & Hself & Hcalls).
  fold up in Hself, Hcalls. fold updated in Hself, Hcalls.
  exists ic. split; [exact Hself |]. split; [exact Hcalls |].
  split; [| split; [reflexivity | split; [| split]]].
  - rewrite Hcalls, count_ic_app. f_equal.
    change (CallInitialConditions (setup_request updated)
              :: pf_calls p21 updated ic (regenerate self) None)
      with ([CallInitialConditions (setup_request updated)]
              ++ pf_calls p21 updated ic (regenerate self) None).
    rewrite count_ic_app.
    rewrite <- (take_ge (pf_calls p21 updated ic (regenerate self) None)
                  (length (pf_calls p21 updated ic (regenerate self) None))) by lia.
    rewrite count_ic_pf. reflexivity.
  - rewrite Hself. reflexivity.
  - intros ctx w2 Hnone. apply build_model_data_trace. exact Hnone.
  - intros ctx ctx' w2 w3 Hnone Hrun.
    assert (Hreq : iteration_request_for p21 self1 ctx = iteration_request p21 self1).
    { unfold iteration_request_for, iteration_request, CoreCoevalModule._update_params.
      cbn [snd]. by rewrite (overlay_without_match p21 (cosmo_params self1) (getParams ctx) Hnone). }
    destruct (build_model_data_run p21 self1 ctx ctx' w2 w3 Hrun)
      as (ic' & e1 & pfs & e2 & coeval & Hic & Hpfs & Hcoeval & Htrace & Hheap).
    rewrite Hreq in Hic, Htrace.
    exists ic', e1, pfs, e2, coeval.
    split; [exact Hic |]. split; [exact Hpfs |].
    split; [exact (perturbed_length p21 _ _ _ _ _ _ _ _ Hpfs) |].
    split; [exact Hcoeval |]. split; [exact Htrace | exact Hheap].
Qed.

Lemma boxes_made_at_setup_requested_again_each_iteration_witness :
  let self := Examples.coeval_stage in
  let self1 := fst Examples.after_setup in
  let w := ReferenceEngine.empty_world in
  let w1 := snd Examples.after_setup in
  let p21 := ReferenceEngine.engine in
  let up := CoreCoevalModule._update_params p21 self
              (chain_context_params Examples.coeval_chain) in
  let updated := CoreCoevalModule.set_astro_cosmo_params (fst up) (snd up) self in
  ∃ ic,
    self1 = CoreCoevalModule.set_initial_conditions_seed (Some (random_seed p21 ic)) updated ∧
    w_calls w1 = w_calls w ++ CallInitialConditions (setup_request updated)
                   :: pf_calls p21 updated ic (regenerate self) None ∧
    count_ic p21 (w_calls w1) = count_ic p21 (w_calls w) + 1 ∧
    ic_regenerate (iteration_request p21 self1) = false ∧
    ic_random_seed (iteration_request p21 self1) = Some (random_seed p21 ic) ∧
    (∀ (ctx : Ctx) (w2 : world p21),
      overrides_cosmology p21 self1 ctx = false →
      ∃ rest,
        w_calls (snd (snd (CoreCoevalModule.build_model_data p21 self1 (ctx, w2))))
          = w_calls w2 ++ CallInitialConditions (iteration_request p21 self1) :: rest ∧
        count_ic p21 rest = 0 ∧
        Forall (fun addr => addr = length (w_heap w2)) (coeval_perturb_addrs p21 rest)) ∧
    (∀ (ctx ctx' : Ctx) (w2 w3 : world p21),
      overrides_cosmology p21 self1 ctx = false →
      CoreCoevalModule.build_model_data p21 self1 (ctx, w2) = (Ok tt, (ctx', w3)) →
      ∃ ic' e1 pfs e2 coeval,
        initial_conditions p21 (iteration_request p21 self1) (w_engine w2) = (Ok ic', e1) ∧
        perturbed p21 self1 ic' false (Some (io_cache_mcmc (io_options self1)))
          (iter_values (redshift self1)) e1 = Some (pfs, e2) ∧
        length pfs = length (iter_values (redshift self1)) ∧
        run_coeval p21 (coeval_request_of p21 self1 ctx ic' (length (w_heap w2)) pfs) e2
          = (Ok coeval, w_engine w3) ∧
        w_calls w3 = w_calls w2 ++
          CallInitialConditions (iteration_request p21 self1)
          :: pf_calls p21 self1 ic' false (Some (io_cache_mcmc (io_options self1)))
          ++ [CallRunCoeval
                (coeval_request_of p21 self1 ctx ic' (length (w_heap w2)) pfs)] ∧
        w_heap w3 = w_heap w2 ++ [pfs]).
Proof.
  apply (boxes_made_at_setup_requested_again_each_iteration ReferenceEngine.engine
           CoreCoevalModule_class Examples.coeval_chain Examples.coeval_stage
           (fst Examples.after_setup) ReferenceEngine.empty_world
           (snd Examples.after_setup)).
  - reflexivity.
  - reflexivity.
  - vm_compute. reflexivity.
Defined.

(** * Further properties of the stages *)

(** ** Required cores and the primary core *)

(** X1: the required-cores check of a stage that is no core, for
    requirements that are classes or tuples of classes: [setup] on a stage
    attached to a chain returns normally exactly when every requirement has a
    loaded core that is an instance of one of its classes; otherwise it raises
    [ValueError] with the message formed from the name of the stage. The
    state is never changed. *)
Theorem base_check_passes_iff_every_group_loaded {S : Type} `{Logging S}
    (cls : pyclass) (c : chain) (s : S) :
  Stage.is_core cls = false →
  Forall plain_requirement (required_cores cls) →
  Stage.setup cls (Some c) s =
    if forallb (satisfied (getCoreModules c)) (required_cores cls) then (Ok tt, s)
    else (Raise (ValueError (cls_name cls +:+ " needs the tuple to be loaded.")), s).
Proof.
  intros Hstage Hplain. unfold Stage.setup, Stage._check_required_cores.
  rewrite Hstage. change (ModuleBase._check_required_cores cls (Some c) s)
    with (ModuleBase.setup cls (Some c) s).
  destruct (forallb (satisfied (getCoreModules c)) (required_cores cls)) eqn:Hall.
  - by apply ModuleBase_check_passes.
  - by apply ModuleBase_check_fails.
Qed.

Lemma base_check_passes_iff_every_group_loaded_witness :
  Stage.setup MoreExamples.LikelihoodA_class (Some Examples.chain_AB)
    ([] : list log_record)
  = (Ok tt, []).
Proof.
  apply (base_check_passes_iff_every_group_loaded MoreExamples.LikelihoodA_class
           Examples.chain_AB ([] : list log_record)).
  - reflexivity.
  - apply Forall_cons; split; [reflexivity | apply Forall_nil_2].
Defined.


Section CoreChecks.
Context {S : Type} `{Logging S}.

Lemma CoreBase_check_without_requirement (cls : pyclass) (c : chain) (s : S) :
  required_cores cls = [] →
  CoreBase.setup cls (Some c) s = (Ok tt, s).
Proof.
  intros Hnone. unfold CoreBase.setup, CoreBase._check_required_cores, bind,
    ModuleBase._cores, ModuleBase.chain_of. simpl. rewrite Hnone.
  induction (getCoreModules c) as [| core cores IH]; [reflexivity |].
  simpl. exact IH.
Qed.
End CoreChecks.

(** X3: the required-cores check every core runs ([CoreBase]): on a chain
    that holds a core of the class of the stage, and no core whose class is
    called "type" or "tuple", [setup] returns normally exactly when the class
    requires nothing; with any requirement it raises [ValueError] naming the
    class of the first requirement object, whatever is loaded. *)
Theorem core_setup_passes_iff_nothing_required {S : Type} `{Logging S}
    (cls : pyclass) (c : chain) (s : S) :
  Exists (fun core => cls_name (ob_class core) = cls_name cls) (getCoreModules c) →
  Forall (fun core => cls_name (ob_class core) ≠ "type" ∧
                      cls_name (ob_class core) ≠ "tuple") (getCoreModules c) →
  CoreBase.setup cls (Some c) s =
    match required_cores cls with
    | [] => (Ok tt, s)
    | rc :: _ =>
        (Raise (ValueError (cls_name cls +:+ " requires "
                              +:+ ModuleBase.rc_class_name rc +:+ " to be loaded.")), s)
    end.
Proof.
  intros Hself Hnames. destruct (required_cores cls) as [| rc rcs] eqn:Hreq.
  - by apply CoreBase_check_without_requirement.
  - by apply (CoreBase_check_fails_with_any_requirement cls c rc rcs).
Qed.

Lemma core_setup_passes_iff_nothing_required_witness :
  CoreBase.setup Examples.CoreA_class (Some Examples.chain_AB) ([] : list log_record)
  = (Ok tt, []).
Proof.
  apply (core_setup_passes_iff_nothing_required Examples.CoreA_class Examples.chain_AB
           ([] : list log_record)).
  - apply Exists_cons_hd. reflexivity.
  - repeat (apply Forall_cons; split; [split; discriminate |]). apply Forall_nil_2.
Defined.

Section PrimaryProofs.
Context {S : Type} `{Logging S}.


End PrimaryProofs.


(** ** What equality reads *)

Section EqualityReads.
Context {S : Type} `{Logging S}.

Lemma getattr_agree (o o' : pyobject) (a : string) (s : S) :
  cls_name (ob_class o) = cls_name (ob_class o') →
  ob_dict o !! a = ob_dict o' !! a →
  getattr o a s = getattr o' a s.
Proof. intros Hname Hlook. unfold getattr. by rewrite Hname, Hlook. Qed.

Lemma eq_step_agree (self other other' : pyobject) (arg : string) (s : S) :
  cls_name (ob_class other) = cls_name (ob_class other') →
  (skipped self arg = false →
   ob_dict other !! arg = ob_dict other' !! arg ∧
   ob_dict other !! ("_" +:+ arg) = ob_dict other' !! ("_" +:+ arg)) →
  ModuleBase.eq_step self other arg s = ModuleBase.eq_step self other' arg s.
Proof.
  intros Hname Hattrs. unfold ModuleBase.eq_step. fold (skipped self arg).
  destruct (skipped self arg); [reflexivity |].
  destruct (Hattrs eq_refl) as [Hpub Hpriv].
  destruct (hasattr self ("_" +:+ arg)).
  - unfold bind. destruct (getattr self ("_" +:+ arg) s) as [[x | e] s1]; [| reflexivity].
    by rewrite (getattr_agree other other' _ s1 Hname Hpriv).
  - destruct (hasattr self arg); [| reflexivity].
    unfold bind. destruct (getattr self arg s) as [[x | e] s1]; [| reflexivity].
    by rewrite (getattr_agree other other' _ s1 Hname Hpub).
Qed.

Lemma eq_loop_agree (self other other' : pyobject) (args : list string) (s : S) :
  cls_name (ob_class other) = cls_name (ob_class other') →
  Forall (fun arg =>
            skipped self arg = false →
            ob_dict other !! arg = ob_dict other' !! arg ∧
            ob_dict other !! ("_" +:+ arg) = ob_dict other' !! ("_" +:+ arg)) args →
  ModuleBase.eq_loop self other args s = ModuleBase.eq_loop self other' args s.
Proof.
  intros Hname Hall. revert s.
  induction Hall as [| arg args Harg _ IH]; intros s; [reflexivity |].
  simpl. unfold bind. rewrite (eq_step_agree self other other' arg s Hname Harg).
  destruct (ModuleBase.eq_step self other' arg s) as [[[b |] | e] s1]; auto.
Qed.
End EqualityReads.

(** X5: [__eq__] reads of the other stage only the name of its class and,
    for each name of the constructor signatures that is not skipped, the
    attributes [name] and [_name]: two stages that agree on these compare
    alike with any stage, result and log, whatever else they hold. *)
Theorem eq_reads_only_the_compared_attributes {S : Type} `{Logging S}
    (self other other' : pyobject) (s : S) :
  cls_name (ob_class other) = cls_name (ob_class other') →
  Forall (fun arg =>
            skipped self arg = false →
            ob_dict other !! arg = ob_dict other' !! arg ∧
            ob_dict other !! ("_" +:+ arg) = ob_dict other' !! ("_" +:+ arg))
    (ModuleBase.eq_args (ob_class self)) →
  ModuleBase.__eq__ self other s = ModuleBase.__eq__ self other' s.
Proof.
  intros Hname Hall. unfold ModuleBase.__eq__. rewrite <- Hname.
  destruct (negb _); [reflexivity |]. by apply eq_loop_agree.
Qed.

Lemma eq_reads_only_the_compared_attributes_witness :
  ModuleBase.__eq__ (MoreExamples.lightcone_example (VNum 10))
    (MoreExamples.lightcone_example (VNum 10)) ([] : list log_record)
  = ModuleBase.__eq__ (MoreExamples.lightcone_example (VNum 10))
      (MoreExamples.lightcone_example (VNum 12)) [].
Proof.
  apply (eq_reads_only_the_compared_attributes
           (MoreExamples.lightcone_example (VNum 10))
           (MoreExamples.lightcone_example (VNum 10))
           (MoreExamples.lightcone_example (VNum 12)) []).
  - reflexivity.
  - repeat (apply Forall_cons; split; [intros _; split; vm_compute; reflexivity |]).
    apply Forall_nil_2.
Defined.

Lemma array_truth_many (r : list bool) : 2 ≤ length r → array_truth r = None.
Proof. destruct r as [| b1 [| b2 r]]; simpl; intros; [lia | lia | reflexivity]. Qed.

Lemma zip_with_same_length {A B : Type} (f : A → A → B) (l1 l2 : list A) :
  length l1 = length l2 →
  ∃ r, zip_with_same f l1 l2 = Some r ∧ length r = length l1.
Proof.
  revert l2. induction l1 as [| x l1 IH]; intros [| y l2] Hlen; try discriminate Hlen.
  - exists []. auto.
  - injection Hlen as Hlen. destruct (IH l2 Hlen) as (r & Hr & Hlr).
    exists (f x y :: r). simpl. rewrite Hr. simpl. auto.
Qed.

Lemma broadcast_same_length {B : Type} (f : fnum → fnum → B) (a b : list fnum) :
  length a = length b → 2 ≤ length a →
  ∃ r, broadcast f a b = Some r ∧ length r = length a.
Proof.
  intros Hlen Hmany.
  destruct (zip_with_same_length f a b Hlen) as (r & Hr & Hlr).
  exists r. split; [| exact Hlr].
  destruct a as [| x [| x' a]]; simpl in Hmany; try lia.
  destruct b as [| y [| y' b]]; try discriminate Hlen.
  exact Hr.
Qed.

Lemma py_ne_arrays (a b : list fnum) :
  length a = length b → 2 ≤ length a → py_ne (VArray a) (VArray b) = None.
Proof.
  intros Hlen Hmany. unfold py_ne, array_compare.
  destruct (broadcast_same_length fnum_neb a b Hlen Hmany) as (r & Hr & Hlr).
  rewrite Hr. simpl. apply array_truth_many. lia.
Qed.

Lemma coeval_lookup_redshift (m : CoreCoevalModule) :
  coeval_dict m !! "redshift" = Some (redshift m) ∧ coeval_dict m !! "_redshift" = None.
Proof. split; vm_compute; reflexivity. Qed.

(** X6: for two coeval stages constructed on the reference engine with
    default arguments and NumPy arrays of the same length, two entries or more,
    as redshifts, the comparison of the redshifts has no truth value: [__eq__]
    logs one warning, skips the attribute and answers [True], whatever the
    entries of the two arrays are. *)
Theorem array_redshifts_are_not_compared (a b : list fnum) :
  length a = length b →
  2 ≤ length a →
  ModuleBase.__eq__ (coeval_object (MoreExamples.coeval_example (VArray a)))
    (coeval_object (MoreExamples.coeval_example (VArray b))) ([] : list log_record)
  = (Ok true,
     [LogWarning "parameter redshift has type which does not allow for comparison"]).
Proof.
  intros Hlen Hmany. unfold ModuleBase.__eq__. cbn [negb ob_class coeval_object].
  rewrite String.eqb_refl. cbn [negb].
  change (ModuleBase.eq_args CoreCoevalModule_class)
    with ("redshift" :: tail (ModuleBase.eq_args CoreCoevalModule_class)).
  cbn [ModuleBase.eq_loop]. unfold bind at 1.
  assert (Hstep : ModuleBase.eq_step
            (coeval_object (MoreExamples.coeval_example (VArray a)))
            (coeval_object (MoreExamples.coeval_example (VArray b))) "redshift"
            ([] : list log_record)
          = (Ok None,
             [LogWarning "parameter redshift has type which does not allow for comparison"])).
  { unfold ModuleBase.eq_step, hasattr, getattr, bind.
    cbn [ob_dict coeval_object ob_class].
    change ("_" +:+ "redshift") with "_redshift".
    destruct (coeval_lookup_redshift (MoreExamples.coeval_example (VArray a))) as [-> ->].
    destruct (coeval_lookup_redshift (MoreExamples.coeval_example (VArray b))) as [-> _].
    change (redshift (MoreExamples.coeval_example (VArray a))) with (VArray a).
    change (redshift (MoreExamples.coeval_example (VArray b))) with (VArray b).
    change (String.eqb "redshift" "self"
            || existsb (String.eqb "redshift") (_ignore_attributes CoreCoevalModule_class))
      with false.
    cbn [ret]. unfold ret. rewrite (py_ne_arrays a b Hlen Hmany). reflexivity. }
  rewrite Hstep. apply eq_loop_all_agree.
  repeat (apply Forall_cons; split; [vm_compute; reflexivity |]).
  apply Forall_nil_2.
Qed.

Lemma array_redshifts_are_not_compared_witness :
  ModuleBase.__eq__
    (coeval_object (MoreExamples.coeval_example (VArray [FVal 6; FVal 7])))
    (coeval_object (MoreExamples.coeval_example (VArray [FVal 8; FVal 9])))
    ([] : list log_record)
  = (Ok true,
     [LogWarning "parameter redshift has type which does not allow for comparison"]).
Proof.
  apply (array_redshifts_are_not_compared [FVal 6; FVal 7] [FVal 8; FVal 9]).
  - reflexivity.
  - simpl. lia.
Defined.

(** Arrays whose comparison has a truth value are compared: two empty
    arrays, or an array and the list of the same number, do not differ. *)
Example short_arrays_are_compared :
  py_ne (VArray []) (VArray []) = Some false ∧
  py_ne (VArray [FVal 7]) (VList [VNum 7]) = Some false ∧
  py_ne (VArray [FVal 7]) (VArray [FVal 8]) = Some true ∧
  py_ne (VArray [FNaN]) (VArray [FNaN]) = Some true ∧
  ModuleBase.__eq__ (coeval_object (MoreExamples.coeval_example (VArray [])))
    (coeval_object (MoreExamples.coeval_example (VArray []))) ([] : list log_record)
  = (Ok true, []) ∧
  ModuleBase.__eq__ (coeval_object (MoreExamples.coeval_example (VArray [FVal 7])))
    (coeval_object (MoreExamples.coeval_example (VList [VNum 7]))) ([] : list log_record)
  = (Ok true, []) ∧
  ModuleBase.__eq__ (coeval_object (MoreExamples.coeval_example (VArray [FVal 7])))
    (coeval_object (MoreExamples.coeval_example (VArray [FVal 8]))) ([] : list log_record)
  = (Ok false, []).
Proof. vm_compute. repeat split; reflexivity. Qed.

(** ** Storage *)

Section StorageMore.
Variable call : pyval -> Ctx -> result pyval.

Lemma stored_lookup_other (ctx : Ctx) (items : pydict) (storage : gmap string pyval)
    (k : string) :
  k ∉ map fst items →
  stored call ctx items storage !! k = storage !! k.
Proof.
  revert storage. induction items as [| [k' g'] items IH]; intros storage Hk; [reflexivity |].
  simpl in Hk. apply not_elem_of_cons in Hk as [Hne Hk].
  simpl. rewrite IH by exact Hk.
  destruct (call g' ctx); [| reflexivity]. by rewrite lookup_insert_ne.
Qed.
End StorageMore.

(** X7: when every entry of [store] can be extracted from the context and
    the names are distinct, [prepare_storage] returns normally, logs nothing,
    binds every name to the value extracted for it, and leaves every other
    name of the storage as it was. *)
Theorem prepare_storage_writes_every_entry
    (call : pyval -> Ctx -> result pyval) (store : pydict) (ctx : Ctx)
    (storage : gmap string pyval) (log : list log_record) :
  NoDup (map fst store) →
  Forall (fun kv => ∃ v, call (snd kv) ctx = Ok v) store →
  ∃ storage',
    CoreBase.prepare_storage call store ctx (storage, log) = (Ok tt, (storage', log)) ∧
    (∀ k g v, (k, g) ∈ store → call g ctx = Ok v → storage' !! k = Some v) ∧
    (∀ k, k ∉ map fst store → storage' !! k = storage !! k).
Proof.
  intros Hnd Hall. exists (stored call ctx store storage).
  split; [| split].
  - rewrite <- (app_nil_r store) at 1.
    rewrite prepare_storage_prefix by exact Hall. reflexivity.
  - intros k g v Hin Hv. by apply (stored_lookup call ctx store storage k g v).
  - intros k Hk. by apply stored_lookup_other.
Qed.

Lemma prepare_storage_writes_every_entry_witness :
  ∃ storage' : gmap string pyval,
    CoreBase.prepare_storage StorageExample.call [("bt", VCallable 0)] StorageExample.ctx
      (∅, []) = (Ok tt, (storage', [])) ∧
    (∀ (k : string) (g v : pyval),
       (k, g) ∈ [("bt", VCallable 0)] →
       StorageExample.call g StorageExample.ctx = Ok v → storage' !! k = Some v) ∧
    (∀ k : string, k ∉ map fst [("bt", VCallable 0)] →
       storage' !! k = (∅ : gmap string pyval) !! k).
Proof.
  apply (prepare_storage_writes_every_entry StorageExample.call [("bt", VCallable 0)]
           StorageExample.ctx ∅ []).
  - apply NoDup_singleton.
  - apply Forall_cons; split; [eexists; reflexivity | apply Forall_nil_2].
Defined.

(** X8: when the extraction of one entry of [store] raises,
    [prepare_storage] writes nothing under a name that is not among the
    entries before it: the failing entry and the entries after it leave the
    storage as it was. *)
Theorem prepare_storage_stops_at_the_failure
    (call : pyval -> Ctx -> result pyval) (pre post : pydict) (name : string)
    (f : pyval) (e : exn) (ctx : Ctx) (storage : gmap string pyval)
    (log : list log_record) :
  Forall (fun kv => ∃ v, call (snd kv) ctx = Ok v) pre →
  call f ctx = Raise e →
  ∀ k, k ∉ map fst pre →
       fst (snd (CoreBase.prepare_storage call (pre ++ (name, f) :: post) ctx
                   (storage, log))) !! k = storage !! k.
Proof.
  intros Hpre Hf k Hk.
  rewrite prepare_storage_prefix by exact Hpre.
  unfold CoreBase.prepare_storage. simpl. rewrite Hf. simpl.
  by apply stored_lookup_other.
Qed.

Lemma prepare_storage_stops_at_the_failure_witness :
  fst (snd (CoreBase.prepare_storage StorageExample.call
              ([("bt", VCallable 0)] ++ ("bad", VCallable 1) :: [("late", VCallable 0)])
              StorageExample.ctx (∅, []))) !! "late"
  = (∅ : gmap string pyval) !! "late".
Proof.
  apply (prepare_storage_stops_at_the_failure StorageExample.call [("bt", VCallable 0)]
           [("late", VCallable 0)] "bad" (VCallable 1) (Raised 7) StorageExample.ctx ∅ []).
  - apply Forall_cons; split; [eexists; reflexivity | apply Forall_nil_2].
  - reflexivity.
  - intros Hin. apply list_elem_of_singleton in Hin. discriminate Hin.
Defined.

(** ** Sampled parameters *)

Section Overlay.
Context (p21 : py21cmfast).

Lemma dict_get_set (k k' : string) (v : pyval) (d : pydict) :
  dict_get k (dict_set k' v d) = if String.eqb k k' then Some v else dict_get k d.
Proof.
  induction d as [| [k2 v2] d IH]; simpl.
  - destruct (String.eqb k k'); reflexivity.
  - destruct (String.eqb_spec k' k2) as [-> | Hne]; simpl.
    + destruct (String.eqb k k2); reflexivity.
    + rewrite IH. destruct (String.eqb_spec k k2) as [-> | Hne2].
      * destruct (String.eqb_spec k2 k'); [congruence | reflexivity].
      * reflexivity.
Qed.

Lemma in_dict_cons (k k' : string) (v' : pyval) (l : pydict) :
  in_dict k ((k', v') :: l) = String.eqb k k' || in_dict k l.
Proof. unfold in_dict. simpl. destruct (String.eqb k k'); reflexivity. Qed.

Lemma dict_get_in_params (params : pydict) (k : string) (v : pyval) :
  (k, v) ∈ params → is_Some (dict_get k params).
Proof.
  induction params as [| [k2 v2] params IH]; intros Hin.
  - by apply elem_of_nil in Hin.
  - simpl. destruct (String.eqb_spec k k2); [eauto |].
    apply elem_of_cons in Hin as [Heq | Hin]; [congruence | by apply IH].
Qed.

(** The update written for each sampled name the structure defines carries
    the value [getattr(params, k)], whichever occurrence wrote it. *)
Lemma overlay_fold (struct : pyval) (params l : pydict) (k : string) (d : pydict) :
  (∀ k' v', (k', v') ∈ l → is_Some (dict_get k' params)) →
  dict_get k
    (dict_update d
       (map (fun kv => (fst kv, default (snd kv) (dict_get (fst kv) params)))
          (filter (fun kv => in_dict (fst kv) (defining_dict p21 struct) = true) l))) =
    if in_dict k (defining_dict p21 struct) && in_dict k l then dict_get k params
    else dict_get k d.
Proof.
  unfold dict_update. revert d.
  induction l as [| [k' v'] l IH]; intros d Hparams.
  - simpl. by rewrite andb_false_r.
  - assert (Hl : ∀ k2 v2, (k2, v2) ∈ l → is_Some (dict_get k2 params)).
    { intros k2 v2 Hin. apply (Hparams k2 v2). apply elem_of_cons. by right. }
    rewrite in_dict_cons.
    destruct (in_dict k' (defining_dict p21 struct)) eqn:Hdef.
    + rewrite filter_cons_True by exact Hdef. cbn [map fold_left fst snd].
      rewrite (IH _ Hl), dict_get_set.
      destruct (Hparams k' v') as [x Hx]; [by left |]. rewrite Hx. cbn [default].
      destruct (String.eqb_spec k k') as [-> | Hne]; cbn [orb].
      * rewrite Hdef, Hx. cbn [andb]. destruct (in_dict k' l); reflexivity.
      * reflexivity.
    + rewrite filter_cons_False by (cbn [fst]; rewrite Hdef; discriminate).
      rewrite (IH _ Hl).
      destruct (String.eqb_spec k k') as [-> | Hne]; cbn [orb]; [| reflexivity].
      rewrite Hdef. reflexivity.
Qed.
End Overlay.

(** X9: the dictionary [_update_params] builds for a parameter
    structure: a sampled name that the structure defines carries the sampled
    value, every other name carries the value the structure had, and a sampled
    name the structure does not define is not added. *)
Theorem update_params_overlays_defined_names (p21 : py21cmfast) (struct : pyval)
    (params : pydict) (k : string) :
  dict_get k (CoreCoevalModule.overlay p21 struct params) =
    match dict_get k params with
    | Some v => if in_dict k (defining_dict p21 struct) then Some v
                else dict_get k (struct_self p21 struct)
    | None => dict_get k (struct_self p21 struct)
    end.
Proof.
  unfold CoreCoevalModule.overlay.
  rewrite (overlay_fold p21 struct params params k)
    by (intros k' v'; apply dict_get_in_params).
  unfold in_dict at 2.
  destruct (in_dict k (defining_dict p21 struct)), (dict_get k params); reflexivity.
Qed.

(** ** The coeval stage *)

(** X10: when the seed changes every iteration, or the chain samples a
    cosmological parameter, [setup] of a coeval stage whose class requires
    nothing only replaces the two parameter structures by the ones updated from
    the chain: the engine is not called, nothing is logged, the seed is not
    set. *)
Theorem setup_makes_no_boxes_when_they_would_change (p21 : py21cmfast) (cls : pyclass)
    (c : chain) (self : CoreCoevalModule) (w : world p21) :
  required_cores cls = [] →
  change_seed_every_iter self || samples_cosmology p21 self c = true →
  let up := CoreCoevalModule._update_params p21 self (chain_context_params c) in
  CoreCoevalModule.setup p21 cls (Some c) (self, w) =
    (Ok tt, (CoreCoevalModule.set_astro_cosmo_params (fst up) (snd up) self, w)).
Proof.
  intros Hreq Hcond up. unfold CoreCoevalModule.setup.
  unfold bind at 1. rewrite (CoreBase_check_without_requirement cls c (self, w) Hreq).
  unfold ModuleBase.parameter_names.
  unfold bind, ModuleBase.chain_of, ret, get_fst, set_fst.
  cbn [fst snd]. unfold CoreCoevalModule._update_params in *. cbn [fst snd] in *.
  unfold samples_cosmology, CoreCoevalModule._update_params in Hcond. cbn [snd] in Hcond.
  cbn [cosmo_params change_seed_every_iter CoreCoevalModule.set_astro_cosmo_params].
  destruct (change_seed_every_iter self); cbn [orb negb andb] in *.
  - rewrite andb_false_r. reflexivity.
  - rewrite Hcond. reflexivity.
Qed.

Lemma setup_makes_no_boxes_when_they_would_change_witness :
  CoreCoevalModule.setup ReferenceEngine.engine CoreCoevalModule_class
    (Some Examples.coeval_chain) (MoreExamples.changing_stage, ReferenceEngine.empty_world)
  = (Ok tt,
     (CoreCoevalModule.set_astro_cosmo_params
        (fst (CoreCoevalModule._update_params ReferenceEngine.engine
                MoreExamples.changing_stage (chain_context_params Examples.coeval_chain)))
        (snd (CoreCoevalModule._update_params ReferenceEngine.engine
                MoreExamples.changing_stage (chain_context_params Examples.coeval_chain)))
        MoreExamples.changing_stage,
      ReferenceEngine.empty_world)).
Proof.
  apply (setup_makes_no_boxes_when_they_would_change ReferenceEngine.engine
           CoreCoevalModule_class Examples.coeval_chain MoreExamples.changing_stage
           ReferenceEngine.empty_world).
  - reflexivity.
  - vm_compute. reflexivity.
Defined.

(** X11: when [setup] asks for the initial conditions and the engine
    raises, [setup] raises the same exception; the stage has its updated
    parameter structures but its seed is not set, one message is logged and
    the one request is recorded, no perturbed field is requested. *)
Theorem setup_passes_on_an_engine_failure (p21 : py21cmfast) (cls : pyclass)
    (c : chain) (self : CoreCoevalModule) (w : world p21) (e : exn) (engine' : E p21) :
  required_cores cls = [] →
  change_seed_every_iter self = false →
  samples_cosmology p21 self c = false →
  let up := CoreCoevalModule._update_params p21 self (chain_context_params c) in
  let updated := CoreCoevalModule.set_astro_cosmo_params (fst up) (snd up) self in
  initial_conditions p21 (setup_request updated) (w_engine w) = (Raise e, engine') →
  CoreCoevalModule.setup p21 cls (Some c) (self, w) =
    (Raise e,
     (updated,
      {| w_log := w_log w ++ [LogInfo "Initializing init and perturb boxes for the entire chain."];
         w_engine := engine';
         w_calls := w_calls w ++ [CallInitialConditions (setup_request updated)];
         w_heap := w_heap w |})).
Proof.
  intros Hreq Hchange Hsampled up updated Hic. unfold CoreCoevalModule.setup.
  unfold bind at 1. rewrite (CoreBase_check_without_requirement cls c (self, w) Hreq).
  unfold ModuleBase.parameter_names.
  unfold bind, ModuleBase.chain_of, ret, get_fst, set_fst,
    logger, on_snd, CoreCoevalModule.call_engine.
  cbn [fst snd]. subst updated up.
  unfold CoreCoevalModule._update_params in *. cbn [fst snd] in *.
  unfold samples_cosmology, CoreCoevalModule._update_params in Hsampled.
  cbn [snd] in Hsampled.
  cbn [cosmo_params change_seed_every_iter CoreCoevalModule.set_astro_cosmo_params].
  rewrite Hsampled, Hchange. cbn [negb andb].
  unfold emit, log_snd. unfold emit, log_world. unfold setup_request in *.
  cbn [fst snd w_engine w_log w_calls w_heap user_params cosmo_params io_options
       regenerate initial_conditions_seed global_params
       CoreCoevalModule.set_astro_cosmo_params] in *.
  rewrite Hic. reflexivity.
Qed.

Lemma setup_passes_on_an_engine_failure_witness :
  let w := EngineVariants.nothing_done EngineVariants.failing [] in
  let up := CoreCoevalModule._update_params EngineVariants.failing Examples.coeval_stage
              (chain_context_params Examples.coeval_chain) in
  let updated := CoreCoevalModule.set_astro_cosmo_params (fst up) (snd up)
                   Examples.coeval_stage in
  CoreCoevalModule.setup EngineVariants.failing CoreCoevalModule_class
    (Some Examples.coeval_chain) (Examples.coeval_stage, w)
  = (Raise (Raised 1),
     (updated,
      {| w_log := w_log w ++ [LogInfo "Initializing init and perturb boxes for the entire chain."];
         w_engine := ([] : E EngineVariants.failing);
         w_calls := w_calls w ++ [CallInitialConditions (setup_request updated)];
         w_heap := w_heap w |})).
Proof.
  intros w up updated.
  apply (setup_passes_on_an_engine_failure EngineVariants.failing CoreCoevalModule_class
           Examples.coeval_chain Examples.coeval_stage w (Raised 1)
           ([] : E EngineVariants.failing)).
  - reflexivity.
  - reflexivity.
  - vm_compute. reflexivity.
  - reflexivity.
Defined.

Section HeapProofs.
Context (p21 : py21cmfast).

Lemma perturb_loop_heap (m : CoreCoevalModule) (ic : IC p21) (regen : bool)
    (write : option bool) (addr : nat) (zs : list pyval) :
  ∀ (w w' : world p21) (l0 : list (PF p21)),
    w_heap w !! addr = Some l0 →
    for_each zs (fun z =>
      let rq := {| pf_redshift := z; pf_init_boxes := ic;
                   pf_direc := io_cache_dir (io_options m);
                   pf_regenerate := regen; pf_write := write;
                   pf_global_params := global_params m |} in
      pf <- CoreCoevalModule.call_engine p21 (CallPerturbField rq) (perturb_field p21 rq) ;;
      CoreCoevalModule.list_iadd p21 addr pf) w = (Ok tt, w') →
    (∃ pfs, w_heap w' !! addr = Some (l0 ++ pfs) ∧ length pfs = length zs) ∧
    (∀ a, a ≠ addr → w_heap w' !! a = w_heap w !! a).
Proof.
  induction zs as [| z zs IH]; intros w w' l0 Hl0 Hrun.
  - injection Hrun as <-. split; [| reflexivity]. exists []. by rewrite app_nil_r.
  - simpl in Hrun. unfold bind at 1 2 in Hrun.
    unfold CoreCoevalModule.call_engine at 1 in Hrun.
    destruct (perturb_field p21 _ (w_engine w)) as [[pf | e] e'] eqn:Hpf;
      [| discriminate].
    unfold CoreCoevalModule.list_iadd at 1 in Hrun.
    apply (IH _ _ (l0 ++ [pf])) in Hrun as [(pfs & Hpfs & Hlen) Hother].
    + cbn [w_heap] in *. split.
      * exists (pf :: pfs). rewrite Hpfs, <- app_assoc. simpl. auto.
      * intros a Ha. rewrite (Hother a Ha). apply list_lookup_alter_ne. congruence.
    + cbn [w_heap]. rewrite list_lookup_alter, Hl0. by rewrite decide_True.
Qed.
End HeapProofs.

(** X12: when [get_current_init_and_perturb] returns, the list it returns
    is a new one (no earlier list is changed), it holds exactly one perturbed
    field per redshift of the stage, and the engine was asked for the initial
    conditions once, without regeneration and with the seed of the stage, then
    for one field per redshift, in order. *)
Theorem current_boxes_hold_one_field_per_redshift (p21 : py21cmfast)
    (m : CoreCoevalModule) (cosmo : pyval) (w w' : world p21) (ic : IC p21) (addr : nat) :
  CoreCoevalModule.get_current_init_and_perturb p21 m cosmo w = (Ok (ic, addr), w') →
  addr = length (w_heap w) ∧
  (∃ pfs, w_heap w' !! addr = Some pfs ∧
          length pfs = length (iter_values (redshift m))) ∧
  (∀ a, a < length (w_heap w) → w_heap w' !! a = w_heap w !! a) ∧
  w_calls w' = w_calls w ++
    CallInitialConditions
      {| ic_user_params := user_params m; ic_cosmo_params := cosmo;
         ic_direc := io_cache_dir (io_options m); ic_regenerate := false;
         ic_random_seed := initial_conditions_seed m;
         ic_write := Some (io_cache_mcmc (io_options m));
         ic_global_params := global_params m |}
    :: pf_calls p21 m ic false (Some (io_cache_mcmc (io_options m))).
Proof.
  unfold CoreCoevalModule.get_current_init_and_perturb. unfold bind at 1.
  unfold CoreCoevalModule.call_engine at 1.
  destruct (initial_conditions p21 _ (w_engine w)) as [[ic0 | e] e']; [| discriminate].
  unfold bind at 1. unfold CoreCoevalModule.new_list at 1. unfold bind at 1.
  destruct (CoreCoevalModule.perturb_all p21 m ic0 false _ _ _) as [[[] | e] w1] eqn:Hpf;
    [| discriminate].
  intros Hrun. injection Hrun as <- <- <-.
  pose proof (perturb_all_trace p21 _ _ _ _ _ _ _ _ Hpf) as (n & Hcalls & Hn & _ & _).
  specialize (Hn eq_refl). cbn [w_calls] in Hcalls.
  unfold CoreCoevalModule.perturb_all in Hpf. unfold bind at 1 in Hpf.
  match type of Hpf with
  | context [py_iter ?v ?s] =>
      destruct (py_iter_values v s) as [Hit | [[e Hit] _]]; rewrite Hit in Hpf
  end; [| discriminate].
  apply (perturb_loop_heap p21 _ _ _ _ _ _ _ _ []) in Hpf as [(pfs & Hpfs & Hlen) Hother].
  - cbn [w_heap] in *. split; [reflexivity |]. split; [eauto |]. split.
    + intros a Ha. rewrite Hother by lia. by apply lookup_app_l.
    + rewrite Hcalls, <- app_assoc. simpl. rewrite take_ge; [reflexivity |].
      unfold pf_calls. rewrite length_map. lia.
  - cbn [w_heap]. rewrite lookup_app_r by lia. by rewrite Nat.sub_diag.
Qed.

Lemma current_boxes_hold_one_field_per_redshift_witness :
  ∃ pfs,
    w_heap (snd (CoreCoevalModule.get_current_init_and_perturb ReferenceEngine.engine
                   Examples.coeval_stage (cosmo_params Examples.coeval_stage)
                   ReferenceEngine.empty_world)) !! 0 = Some pfs ∧
    length pfs = 2.
Proof.
  refine (proj1 (proj2 (current_boxes_hold_one_field_per_redshift ReferenceEngine.engine
            Examples.coeval_stage (cosmo_params Examples.coeval_stage)
            ReferenceEngine.empty_world _ (cosmo_params Examples.coeval_stage, 1%Z) 0 _))).
  vm_compute. reflexivity.
Defined.

Section CoevalMore.
Context (p21 : py21cmfast).

Lemma build_model_data_split (self : CoreCoevalModule) (st : Ctx * world p21) :
  CoreCoevalModule.build_model_data p21 self st =
    (coeval <- fetch_coeval p21 self ;; add_ctx_variables p21 self coeval) st.
Proof.
  destruct st as [ctx w].
  unfold CoreCoevalModule.build_model_data, fetch_coeval, add_ctx_variables,
    bind, logger, get_fst, on_snd, CoreCoevalModule._update_params,
    CoreCoevalModule.read_list.
  cbn [fst snd].
  destruct (CoreCoevalModule.get_current_init_and_perturb p21 self _ _)
    as [[[ic addr] | e] w1]; cbn [fst snd]; [| reflexivity].
  destruct (CoreCoevalModule.call_engine p21 _ _ _) as [[coeval | e] w2];
    reflexivity.
Qed.

Lemma ctx_loop_prefix (coeval : list (Coeval p21)) (pre rest : list string)
    (ctx : Ctx) (w : world p21) :
  Forall (fun key => is_Some (CoreCoevalModule.collect_field p21 key coeval)) pre →
  for_each (pre ++ rest) (fun key =>
    match CoreCoevalModule.collect_field p21 key coeval with
    | Some vs => on_fst (fun ctx => (Ok tt, ctx_add key (VList vs) ctx))
    | None => raise (ValueError ("ctx_variable " +:+ key +:+ " not an attribute of Coeval"))
    end) (ctx, w)
  = for_each rest (fun key =>
    match CoreCoevalModule.collect_field p21 key coeval with
    | Some vs => on_fst (fun ctx => (Ok tt, ctx_add key (VList vs) ctx))
    | None => raise (ValueError ("ctx_variable " +:+ key +:+ " not an attribute of Coeval"))
    end) (with_fields p21 coeval pre ctx, w).
Proof.
  revert ctx. induction pre as [| key pre IH]; intros ctx Hall; [reflexivity |].
  apply Forall_cons in Hall as [[vs Hvs] Hall].
  simpl. unfold bind at 1. rewrite Hvs. simpl. by apply IH.
Qed.

Lemma with_fields_params (coeval : list (Coeval p21)) (keys : list string) (ctx : Ctx) :
  getParams (with_fields p21 coeval keys ctx) = getParams ctx.
Proof.
  revert ctx. induction keys as [| key keys IH]; intros ctx; [reflexivity |].
  simpl. rewrite IH. destruct (CoreCoevalModule.collect_field p21 key coeval); reflexivity.
Qed.

Lemma with_fields_other (coeval : list (Coeval p21)) (keys : list string) (ctx : Ctx)
    (key : string) :
  key ∉ keys →
  ctx_data (with_fields p21 coeval keys ctx) !! key = ctx_data ctx !! key.
Proof.
  revert ctx. induction keys as [| k keys IH]; intros ctx Hkey; [reflexivity |].
  apply not_elem_of_cons in Hkey as [Hne Hkey].
  simpl. rewrite IH by exact Hkey.
  destruct (CoreCoevalModule.collect_field p21 k coeval); [| reflexivity].
  simpl. by rewrite lookup_insert_ne.
Qed.

Lemma with_fields_lookup (coeval : list (Coeval p21)) (keys : list string) (ctx : Ctx)
    (key : string) (vs : list pyval) :
  CoreCoevalModule.collect_field p21 key coeval = Some vs →
  key ∈ keys ∨ ctx_data ctx !! key = Some (VList vs) →
  ctx_data (with_fields p21 coeval keys ctx) !! key = Some (VList vs).
Proof.
  intros Hvs. revert ctx. induction keys as [| k keys IH]; intros ctx Hin.
  - destruct Hin as [Hin | Hin]; [by apply elem_of_nil in Hin | exact Hin].
  - simpl. apply IH.
    destruct (decide (key = k)) as [-> | Hne].
    + right. rewrite Hvs. simpl. by rewrite lookup_insert_eq.
    + destruct Hin as [Hin | Hin].
      * left. apply elem_of_cons in Hin as [Heq | Hin]; [congruence | exact Hin].
      * right. destruct (CoreCoevalModule.collect_field p21 k coeval); [| exact Hin].
        simpl. by rewrite lookup_insert_ne.
Qed.
End CoevalMore.

(** X13: when the engine part of [build_model_data] succeeds and every
    name of [ctx_variables] is an attribute of the boxes, the call returns
    normally; the context then holds under each name the list of that attribute
    over the boxes, one entry per box, its other entries and its parameters
    are unchanged. *)
Theorem build_model_data_adds_every_field (p21 : py21cmfast) (self : CoreCoevalModule)
    (ctx : Ctx) (w w1 : world p21) (coeval : list (Coeval p21)) :
  fetch_coeval p21 self (ctx, w) = (Ok coeval, (ctx, w1)) →
  Forall (fun key => is_Some (CoreCoevalModule.collect_field p21 key coeval))
    (ctx_variables self) →
  ∃ ctx',
    CoreCoevalModule.build_model_data p21 self (ctx, w) =
      (Ok tt, (ctx', log_debug p21 ["Adding {} to context data"] w1)) ∧
    getParams ctx' = getParams ctx ∧
    (∀ key, key ∈ ctx_variables self →
       ∃ vs, ctx_data ctx' !! key = Some (VList vs) ∧
             mapM (fun c => coeval_getattr p21 c key) coeval = Some vs ∧
             length vs = length coeval) ∧
    (∀ key, key ∉ ctx_variables self → ctx_data ctx' !! key = ctx_data ctx !! key).
Proof.
  intros Hfetch Hall. exists (with_fields p21 coeval (ctx_variables self) ctx).
  split; [| split; [| split]].
  - rewrite build_model_data_split. unfold bind at 1. rewrite Hfetch.
    unfold add_ctx_variables, bind, logger. 
    rewrite <- (app_nil_r (ctx_variables self)) at 1.
    unfold emit, log_snd. cbn [fst snd].
    rewrite ctx_loop_prefix by exact Hall. reflexivity.
  - apply with_fields_params.
  - intros key Hin.
    pose proof (proj1 (Forall_forall _ _) Hall key Hin) as [vs Hvs].
    exists vs. split; [| split].
    + apply with_fields_lookup; [exact Hvs | by left].
    + exact Hvs.
    + symmetry. unfold CoreCoevalModule.collect_field in Hvs. by apply length_mapM in Hvs.
  - intros key Hout. by apply with_fields_other.
Qed.

Lemma build_model_data_adds_every_field_witness :
  ∃ ctx',
    fst (CoreCoevalModule.build_model_data ReferenceEngine.engine Examples.coeval_stage
           (Examples.iteration_ctx 30, ReferenceEngine.empty_world)) = Ok tt ∧
    fst (snd (CoreCoevalModule.build_model_data ReferenceEngine.engine Examples.coeval_stage
                (Examples.iteration_ctx 30, ReferenceEngine.empty_world))) = ctx' ∧
    ctx_data ctx' !! "brightness_temp"
      = Some (VList [VArray [FVal 1]; VArray [FVal 1]]).
Proof.
  destruct (build_model_data_adds_every_field ReferenceEngine.engine Examples.coeval_stage
              (Examples.iteration_ctx 30) ReferenceEngine.empty_world
              (snd (snd (fetch_coeval ReferenceEngine.engine Examples.coeval_stage
                           (Examples.iteration_ctx 30, ReferenceEngine.empty_world))))
              (map ReferenceEngine.coeval_box [(VNum 6, 1%Z); (VNum 7, 1%Z)]))
    as (ctx' & Hrun & _ & Hfields & _).
  - vm_compute. reflexivity.
  - repeat (apply Forall_cons; split; [eexists; vm_compute; reflexivity |]).
    apply Forall_nil_2.
  - exists ctx'. rewrite Hrun. split; [reflexivity |]. split; [reflexivity |].
    destruct (Hfields "brightness_temp") as (vs & Hvs & Hmap & _).
    + apply elem_of_cons; by left.
    + rewrite Hvs. vm_compute in Hmap. congruence.
Defined.

(** X14: when a name of [ctx_variables] is not an attribute of the boxes,
    [build_model_data] raises [ValueError] naming it; by then the context
    holds, under each name before it, the list of that attribute over the
    boxes, one entry per box, and nothing else has changed in the context. *)
Theorem build_model_data_names_the_missing_field (p21 : py21cmfast)
    (self : CoreCoevalModule) (ctx : Ctx) (w w1 : world p21)
    (coeval : list (Coeval p21)) (pre post : list string) (key : string) :
  fetch_coeval p21 self (ctx, w) = (Ok coeval, (ctx, w1)) →
  ctx_variables self = pre ++ key :: post →
  Forall (fun k => is_Some (CoreCoevalModule.collect_field p21 k coeval)) pre →
  CoreCoevalModule.collect_field p21 key coeval = None →
  ∃ ctx',
    CoreCoevalModule.build_model_data p21 self (ctx, w) =
      (Raise (ValueError ("ctx_variable " +:+ key +:+ " not an attribute of Coeval")),
       (ctx', log_debug p21 ["Adding {} to context data"] w1)) ∧
    getParams ctx' = getParams ctx ∧
    (∀ k, k ∈ pre →
       ∃ vs, ctx_data ctx' !! k = Some (VList vs) ∧
             mapM (fun c => coeval_getattr p21 c k) coeval = Some vs ∧
             length vs = length coeval) ∧
    (∀ k, k ∉ pre → ctx_data ctx' !! k = ctx_data ctx !! k).
Proof.
  intros Hfetch Hvars Hpre Hkey. exists (with_fields p21 coeval pre ctx).
  split; [| split; [| split]].
  - rewrite build_model_data_split. unfold bind at 1. rewrite Hfetch.
    unfold add_ctx_variables, bind, logger. rewrite Hvars.
    unfold emit, log_snd. cbn [fst snd].
    rewrite ctx_loop_prefix by exact Hpre. simpl. rewrite Hkey. reflexivity.
  - apply with_fields_params.
  - intros k Hin.
    pose proof (proj1 (Forall_forall _ _) Hpre k Hin) as [vs Hvs].
    exists vs. split; [| split].
    + apply with_fields_lookup; [exact Hvs | by left].
    + exact Hvs.
    + symmetry. unfold CoreCoevalModule.collect_field in Hvs. by apply length_mapM in Hvs.
  - intros k Hout. by apply with_fields_other.
Qed.

Lemma build_model_data_names_the_missing_field_witness :
  ∃ ctx',
    CoreCoevalModule.build_model_data ReferenceEngine.engine MoreExamples.density_stage
      (Examples.iteration_ctx 30, ReferenceEngine.empty_world)
    = (Raise (ValueError "ctx_variable density not an attribute of Coeval"),
       (ctx',
        log_debug ReferenceEngine.engine ["Adding {} to context data"]
          (snd (snd (fetch_coeval ReferenceEngine.engine MoreExamples.density_stage
                       (Examples.iteration_ctx 30, ReferenceEngine.empty_world)))))) ∧
    ctx_data ctx' !! "brightness_temp"
      = Some (VList [VArray [FVal 1]; VArray [FVal 1]]) ∧
    ctx_data ctx' !! "density" = None.
Proof.
  destruct (build_model_data_names_the_missing_field ReferenceEngine.engine
              MoreExamples.density_stage (Examples.iteration_ctx 30)
              ReferenceEngine.empty_world
              (snd (snd (fetch_coeval ReferenceEngine.engine MoreExamples.density_stage
                           (Examples.iteration_ctx 30, ReferenceEngine.empty_world))))
              (map ReferenceEngine.coeval_box [(VNum 6, 1%Z); (VNum 7, 1%Z)])
              ["brightness_temp"] [] "density")
    as (ctx' & Hrun & _ & Hpre & Hother).
  - vm_compute. reflexivity.
  - reflexivity.
  - apply Forall_cons; split; [eexists; vm_compute; reflexivity | apply Forall_nil_2].
  - reflexivity.
  - exists ctx'. split; [exact Hrun |]. split.
    + destruct (Hpre "brightness_temp") as (vs & Hvs & Hmap & _).
      * apply elem_of_cons; by left.
      * rewrite Hvs. vm_compute in Hmap. congruence.
    + rewrite Hother; [reflexivity |].
      intros Hin. apply list_elem_of_singleton in Hin. discriminate Hin.
Defined.

(** ** The light cone *)

(** X15: the light-cone stage makes one request to the engine, for the
    first redshift of the stage with the parameters updated from the context;
    the other redshifts are not looked at. The light cone the engine returns is
    stored under "lightcone"; nothing is logged. *)
Theorem lightcone_uses_the_first_redshift_only (p21 : py21cmfast)
    (self : CoreLightConeModule) (ctx : Ctx) (w : world p21) (z0 : pyval)
    (zs : list pyval) (lightcone : pyval) (engine' : E p21) :
  redshift (lc_coeval self) = VList (z0 :: zs) →
  run_lightcone p21 (lightcone_request_of p21 self ctx z0) (w_engine w)
    = (Ok lightcone, engine') →
  CoreLightConeModule.build_model_data p21 self (ctx, w) =
    (Ok tt,
     (ctx_add "lightcone" lightcone ctx,
      {| w_log := w_log w; w_engine := engine';
         w_calls := w_calls w ++ [CallRunLightcone (lightcone_request_of p21 self ctx z0)];
         w_heap := w_heap w |})).
Proof.
  intros Hz Hrun. unfold CoreLightConeModule.build_model_data, lightcone_request_of in *.
  unfold CoreCoevalModule._update_params in *. cbn [fst snd] in *.
  unfold bind, get_fst, on_snd, on_fst, CoreCoevalModule.call_engine.
  cbv zeta in *. cbn [fst snd] in *.
  rewrite Hz. cbn [py_first]. unfold ret. cbn [fst snd]. rewrite Hrun. reflexivity.
Qed.

Lemma lightcone_uses_the_first_redshift_only_witness :
  CoreLightConeModule.build_model_data ReferenceEngine.engine
    (MoreExamples.lightcone_of (VList [VNum 7; VNum 9]) (VNum 12))
    (Examples.iteration_ctx 30, ReferenceEngine.empty_world)
  = (Ok tt,
     (ctx_add "lightcone" (VArray [FVal 0]) (Examples.iteration_ctx 30),
      {| w_log := []; w_engine := ([] : E ReferenceEngine.engine);
         w_calls := [CallRunLightcone
                       (lightcone_request_of ReferenceEngine.engine
                          (MoreExamples.lightcone_of (VList [VNum 7; VNum 9]) (VNum 12))
                          (Examples.iteration_ctx 30) (VNum 7))];
         w_heap := [] |})).
Proof.
  apply (lightcone_uses_the_first_redshift_only ReferenceEngine.engine
           (MoreExamples.lightcone_of (VList [VNum 7; VNum 9]) (VNum 12))
           (Examples.iteration_ctx 30) ReferenceEngine.empty_world (VNum 7) [VNum 9]
           (VArray [FVal 0]) ([] : E ReferenceEngine.engine)).
  - reflexivity.
  - reflexivity.
Defined.

(** X16: a light-cone stage whose redshift is an empty list raises
    [IndexError] in [build_model_data], before the engine is called and without
    touching the context. *)
Theorem lightcone_without_redshift_fails (p21 : py21cmfast)
    (self : CoreLightConeModule) (ctx : Ctx) (w : world p21) :
  redshift (lc_coeval self) = VList [] →
  CoreLightConeModule.build_model_data p21 self (ctx, w) =
    (Raise (IndexError "list index out of range"), (ctx, w)).
Proof.
  intros Hz. unfold CoreLightConeModule.build_model_data.
  unfold CoreCoevalModule._update_params.
  unfold bind, get_fst. cbv zeta. cbn [fst snd]. rewrite Hz. reflexivity.
Qed.

Lemma lightcone_without_redshift_fails_witness :
  CoreLightConeModule.build_model_data ReferenceEngine.engine
    (MoreExamples.lightcone_of (VList []) VNone)
    (Examples.iteration_ctx 30, ReferenceEngine.empty_world)
  = (Raise (IndexError "list index out of range"),
     (Examples.iteration_ctx 30, ReferenceEngine.empty_world)).
Proof.
  apply (lightcone_without_redshift_fails ReferenceEngine.engine
           (MoreExamples.lightcone_of (VList []) VNone)
           (Examples.iteration_ctx 30) ReferenceEngine.empty_world).
  reflexivity.
Defined.

(** A dict as redshift is looked up under the key [0], which it does not
    have. *)
Example lightcone_of_a_dict_redshift :
  fst (CoreLightConeModule.build_model_data ReferenceEngine.engine
         (MoreExamples.lightcone_of (VDict [("z", VNum 7)]) VNone)
         (Examples.iteration_ctx 30, ReferenceEngine.empty_world))
  = Raise (KeyError "0").
Proof. vm_compute. reflexivity. Qed.

(** ** The luminosity function *)

(** X17: [setup] of the luminosity stage, whether it returns or raises,
    attached or not, never calls the engine and logs nothing, and keeps the
    noise level, the name, the number of bins, the redshifts and the seed of
    the stage. *)
Theorem luminosity_setup_leaves_the_engine_alone (p21 : py21cmfast) (cls : pyclass)
    (ch : option chain) (self : CoreLuminosityFunction) (w : world p21) :
  let st := snd (CoreLuminosityFunction.setup p21 cls ch (self, w)) in
  snd st = w ∧
  _sigma (fst st) = _sigma self ∧ name (fst st) = name self ∧
  n_muv_bins (fst st) = n_muv_bins self ∧
  redshift (lf_coeval (fst st)) = redshift (lf_coeval self) ∧
  initial_conditions_seed (lf_coeval (fst st)) = initial_conditions_seed (lf_coeval self).
Proof.
  destruct (CoreLuminosityFunction.setup p21 cls ch (self, w)) as [r [self1 w1]] eqn:Hrun.
  cbn [fst snd].
  assert (Hboth : w1 = w ∧
            (self1 = self ∨
             ∃ ap cp, self1 = CoreLuminosityFunction.set_coeval
                                (CoreCoevalModule.set_astro_cosmo_params ap cp (lf_coeval self))
                                self)).
  { unfold CoreLuminosityFunction.setup in Hrun. unfold bind at 1 in Hrun.
    pose proof (CoreBase_check_state cls ch (self, w)) as Hstate.
    unfold CoreBase.setup in Hrun.
    destruct (CoreBase._check_required_cores cls ch (self, w)) as [[[] | e] st];
      simpl in Hstate; subst st.
    - destruct ch as [c |].
      + unfold bind, ModuleBase.chain_of, ret, get_fst, set_fst in Hrun.
        cbn [fst snd] in Hrun. unfold CoreCoevalModule._update_params in Hrun.
        injection Hrun as _ <- <-. split; [reflexivity |]. right. eauto.
      + injection Hrun as _ <- <-. auto.
    - injection Hrun as _ <- <-. auto. }
  destruct Hboth as [-> Hself]. split; [reflexivity |].
  destruct Hself as [-> | (ap & cp & ->)]; repeat split; reflexivity.
Qed.

Section LuminosityMore.
Context (p21 : py21cmfast).

Lemma filter_rows_state {S : Type} (lfunc rows : list (list fnum)) (s : S) :
  snd (CoreLuminosityFunction.filter_rows lfunc rows s) = s.
Proof.
  revert rows. induction lfunc as [| l ls IH]; intros [| m ms]; try reflexivity.
  simpl. unfold bind, CoreLuminosityFunction.select_not_nan.
  destruct (Nat.eqb _ _); [| reflexivity]. simpl.
  specialize (IH ms).
  destruct (CoreLuminosityFunction.filter_rows ls ms s) as [[rs | e] s']; exact IH.
Qed.

(** What [build_model_data] does to the context: one [add] under the name
    of the stage when it succeeds, nothing when it raises. *)
Lemma luminosity_build_ctx (self : CoreLuminosityFunction) (ctx ctx' : Ctx)
    (w w' : world p21) (r : result unit) :
  CoreLuminosityFunction.build_model_data p21 self (ctx, w) = (r, (ctx', w')) →
  (r = Ok tt ∧ ∃ v, ctx' = ctx_add ("luminosity_function" +:+ name self) v ctx) ∨
  ((∃ e, r = Raise e) ∧ ctx' = ctx).
Proof.
  unfold CoreLuminosityFunction.build_model_data.
  unfold CoreCoevalModule._update_params.
  unfold bind, get_fst, on_snd, on_fst. cbn [fst snd].
  destruct (CoreLuminosityFunction.run p21 self _ _ w) as [[res | e] w1];
    [| intros Heq; injection Heq as <- <- <-; right; eauto].
  cbn [fst snd].
  pose proof (filter_rows_state (lf_lfunc res) (lf_Muv res) (ctx, w1)) as H1.
  destruct (CoreLuminosityFunction.filter_rows (lf_lfunc res) (lf_Muv res) (ctx, w1))
    as [[Muv | e] st1]; simpl in H1; subst st1;
    [| intros Heq; injection Heq as <- <- <-; right; eauto].
  pose proof (filter_rows_state (lf_lfunc res) (lf_mhalo res) (ctx, w1)) as H2.
  destruct (CoreLuminosityFunction.filter_rows (lf_lfunc res) (lf_mhalo res) (ctx, w1))
    as [[mhalo | e] st2]; simpl in H2; subst st2;
    [| intros Heq; injection Heq as <- <- <-; right; eauto].
  pose proof (filter_rows_state (lf_lfunc res) (lf_lfunc res) (ctx, w1)) as H3.
  destruct (CoreLuminosityFunction.filter_rows (lf_lfunc res) (lf_lfunc res) (ctx, w1))
    as [[lfunc | e] st3]; simpl in H3; subst st3;
    [| intros Heq; injection Heq as <- <- <-; right; eauto].
  cbn [fst snd]. intros Heq. injection Heq as <- <- <-. left. eauto.
Qed.
End LuminosityMore.

(** X18: two luminosity stages with different names write to different
    entries of the context: whatever [build_model_data] of one does, returning
    or raising, the entry of the other is what it was. *)
Theorem luminosity_stages_with_different_names_coexist (p21 : py21cmfast)
    (a b : CoreLuminosityFunction) (ctx ctx' : Ctx) (w w' : world p21) (r : result unit) :
  name a ≠ name b →
  CoreLuminosityFunction.build_model_data p21 b (ctx, w) = (r, (ctx', w')) →
  ctx_get ("luminosity_function" +:+ name a) ctx'
    = ctx_get ("luminosity_function" +:+ name a) ctx.
Proof.
  intros Hname Hrun.
  destruct (luminosity_build_ctx p21 b ctx ctx' w w' r Hrun) as [[_ [v ->]] | [_ ->]];
    [| reflexivity].
  unfold ctx_get, ctx_add. cbn [ctx_data]. rewrite lookup_insert_ne; [reflexivity |].
  intros Heq. apply Hname. symmetry. by apply (inj (String.app "luminosity_function")) in Heq.
Qed.

Lemma luminosity_stages_with_different_names_coexist_witness :
  ctx_get ("luminosity_function" +:+ name (MoreExamples.luminosity_of VNone "_z6"))
    (fst (snd (CoreLuminosityFunction.build_model_data ReferenceEngine.engine
                 (MoreExamples.luminosity_of VNone "_z7")
                 (MoreExamples.ctx_with_bundle, ReferenceEngine.empty_world))))
  = ctx_get ("luminosity_function" +:+ name (MoreExamples.luminosity_of VNone "_z6"))
      MoreExamples.ctx_with_bundle.
Proof.
  refine (luminosity_stages_with_different_names_coexist ReferenceEngine.engine
            (MoreExamples.luminosity_of VNone "_z6") (MoreExamples.luminosity_of VNone "_z7")
            MoreExamples.ctx_with_bundle _ ReferenceEngine.empty_world
            (snd (snd (CoreLuminosityFunction.build_model_data ReferenceEngine.engine
                         (MoreExamples.luminosity_of VNone "_z7")
                         (MoreExamples.ctx_with_bundle, ReferenceEngine.empty_world))))
            (Ok tt) _ _).
  - intros Heq. vm_compute in Heq. discriminate Heq.
  - vm_compute. reflexivity.
Defined.

(** X19: when the first row of magnitudes the engine returns has not the
    length of the first row of the luminosity function, [build_model_data]
    raises [IndexError] after the engine call and adds nothing to the
    context. *)
Theorem luminosity_build_rejects_misaligned_rows (p21 : py21cmfast)
    (self : CoreLuminosityFunction) (ctx : Ctx) (w w' : world p21) (res : lf_arrays)
    (l m : list fnum) (ls ms : list (list fnum)) :
  let params := CoreCoevalModule._update_params p21 (lf_coeval self) (getParams ctx) in
  CoreLuminosityFunction.run p21 self (fst params) (snd params) w = (Ok res, w') →
  lf_lfunc res = l :: ls →
  lf_Muv res = m :: ms →
  length l ≠ length m →
  CoreLuminosityFunction.build_model_data p21 self (ctx, w) =
    (Raise (IndexError "boolean index did not match indexed array"), (ctx, w')).
Proof.
  intros params Hrun Hl Hm Hlen. unfold CoreLuminosityFunction.build_model_data.
  unfold bind at 1. unfold get_fst at 1. cbn [fst snd].
  fold params. destruct params as [ap cp]. cbn [fst snd] in Hrun.
  unfold bind at 1. unfold on_snd at 1. cbn [fst snd]. rewrite Hrun.
  rewrite Hl, Hm. unfold bind at 1. cbn [CoreLuminosityFunction.filter_rows].
  unfold bind at 1. unfold CoreLuminosityFunction.select_not_nan.
  destruct (Nat.eqb_spec (length l) (length m)); [contradiction | reflexivity].
Qed.

Lemma luminosity_build_rejects_misaligned_rows_witness :
  let self := MoreExamples.luminosity_of VNone "_z6" in
  let w := EngineVariants.nothing_done EngineVariants.misaligned [] in
  let params := CoreCoevalModule._update_params EngineVariants.misaligned (lf_coeval self)
                  (getParams LuminosityExample.ctx) in
  CoreLuminosityFunction.build_model_data EngineVariants.misaligned self
    (LuminosityExample.ctx, w)
  = (Raise (IndexError "boolean index did not match indexed array"),
     (LuminosityExample.ctx,
      snd (CoreLuminosityFunction.run EngineVariants.misaligned self (fst params)
             (snd params) w))).
Proof.
  intros self w params.
  apply (luminosity_build_rejects_misaligned_rows EngineVariants.misaligned self
           LuminosityExample.ctx w
           (snd (CoreLuminosityFunction.run EngineVariants.misaligned self (fst params)
                   (snd params) w))
           {| lf_Muv := [[FVal (-20)]]; lf_mhalo := [[FVal 10; FVal 11]];
              lf_lfunc := [[FVal (-3); FNaN]] |}
           [FVal (-3); FNaN] [FVal (-20)] [] []).
  - vm_compute. reflexivity.
  - reflexivity.
  - reflexivity.
  - simpl. lia.
Defined.

Lemma sigma_resolves {S : Type} (self : CoreLuminosityFunction) (n : nat) (s : S) :
  _sigma self ≠ VNone →
  py_len (redshift (lf_coeval self)) s = (Ok n, s) →
  ∃ v, CoreLuminosityFunction.sigma self s = (Ok v, s) ∧ v ≠ VNone ∧
       py_len v s = (Ok n, s).
Proof.
  intros Hset Hlen. unfold CoreLuminosityFunction.sigma.
  assert (Hrep : ∀ sg, py_len (VList (repeat sg n)) s = (Ok n, s)).
  { intros sg. simpl. unfold ret. by rewrite repeat_length. }
  destruct (_sigma self) as [| b | z | str | l | l | d | f | a] eqn:Hsg;
    try contradiction; cbn [has_len negb]; unfold bind;
    try (rewrite Hlen; eexists; split; [reflexivity |]; split; [discriminate | apply Hrep]).
  all: cbn [py_len]; unfold ret; rewrite Hlen;
    match goal with
    | |- context [Nat.eqb ?k ?k'] =>
        destruct (Nat.eqb_spec k k') as [Heq | Hne]; cbn [negb];
        [ eexists; split; [reflexivity |]; split; [discriminate |];
          cbn [py_len]; unfold ret; by rewrite Heq
        | eexists; split; [reflexivity |]; split; [discriminate | apply Hrep] ]
    end.
Qed.



(** X21: with a noise level set, [convert_model_to_mock] on a context that
    holds no luminosity function of this stage raises [TypeError] (the value
    [ctx.get] returns for a missing entry cannot be subscripted); the context
    and the random generator are unchanged. *)
Theorem mock_before_model_data_fails (RNG : Type)
    (np_random_normal : pyval -> nat -> M RNG (list fnum))
    (call_sigma : pyval -> pyval -> result pyval)
    (self : CoreLuminosityFunction) (n : nat) (ctx : Ctx) (rng : RNG) :
  _sigma self ≠ VNone →
  py_len (redshift (lf_coeval self)) (ctx, rng) = (Ok n, (ctx, rng)) →
  ctx_data ctx !! ("luminosity_function" +:+ name self) = None →
  CoreLuminosityFunction.convert_model_to_mock RNG np_random_normal call_sigma self
    (ctx, rng)
  = (Raise (TypeError "object is not subscriptable"), (ctx, rng)).
Proof.
  intros Hset Hlen Hmissing.
  destruct (sigma_resolves self n (ctx, rng) Hset Hlen) as (v & Hv & Hnone & _).
  unfold CoreLuminosityFunction.convert_model_to_mock. unfold bind at 1. rewrite Hv.
  destruct v; try contradiction;
    unfold bind, get_fst, ctx_get; cbn [fst snd]; rewrite Hmissing; reflexivity.
Qed.

Lemma mock_before_model_data_fails_witness :
  CoreLuminosityFunction.convert_model_to_mock nat LuminosityExample.constant_normal
    LuminosityExample.not_callable (MoreExamples.luminosity_of (VNum 2) "_z6")
    (LuminosityExample.ctx, 0)
  = (Raise (TypeError "object is not subscriptable"), (LuminosityExample.ctx, 0)).
Proof.
  apply (mock_before_model_data_fails nat LuminosityExample.constant_normal
           LuminosityExample.not_callable (MoreExamples.luminosity_of (VNum 2) "_z6")
           1 LuminosityExample.ctx 0).
  - intros Heq. vm_compute in Heq. discriminate Heq.
  - reflexivity.
  - reflexivity.
Defined.

Section MockShape.
Variable RNG : Type.
Variable np_random_normal : pyval -> nat -> M RNG (list fnum).
Variable call_sigma : pyval -> pyval -> result pyval.

Lemma lfunc_row_reads (key : string) (items0 : pydict) (rows : list (list fnum))
    (i : nat) (a : list fnum) (ctx : Ctx) (g : RNG) :
  holds_rows key items0 rows ctx → rows !! i = Some a →
  CoreLuminosityFunction.lfunc_row RNG key i (ctx, g) = (Ok a, (ctx, g)).
Proof.
  intros (items & Hkey & Hlfunc & _) Hrow.
  unfold CoreLuminosityFunction.lfunc_row, bind, get_fst, ctx_get,
    CoreLuminosityFunction.subscript, ret. cbn [fst snd].
  rewrite Hkey. cbn [default]; unfold id. rewrite Hlfunc.
  rewrite list_lookup_fmap, Hrow. reflexivity.
Qed.

Lemma mock_row_keeps_the_shape (key : string) (items0 : pydict) (muv sg : pyval)
    (rows : list (list fnum)) (i : nat) (ctx : Ctx) (g : RNG) :
  (∀ m, ∃ msg, call_sigma sg m = Raise (TypeError msg)) →
  (∀ k g0, ∃ l g1, np_random_normal sg k g0 = (Ok l, g1) ∧ length l = k) →
  holds_rows key items0 rows ctx → i < length rows →
  ∃ ctx' g' rows',
    CoreLuminosityFunction.mock_row RNG np_random_normal call_sigma key muv i sg (ctx, g)
      = (Ok tt, (ctx', g')) ∧
    holds_rows key items0 rows' ctx' ∧ map length rows' = map length rows ∧
    getParams ctx' = getParams ctx ∧
    ∀ k, k ≠ key → ctx_data ctx' !! k = ctx_data ctx !! k.
Proof.
  intros Hcall Hnormal Hrows Hi.
  destruct (lookup_lt_is_Some_2 rows i Hi) as [a Ha].
  destruct (Hcall muv) as [msg Hmsg].
  destruct (Hnormal (length a) g) as (l & g1 & Hdraw & Hlen).
  pose proof (lfunc_row_reads key items0 rows i a ctx g Hrows Ha) as Hread.
  pose proof (lfunc_row_reads key items0 rows i a ctx g1 Hrows Ha) as Hread1.
  destruct Hrows as (items & Hkey & Hlfunc & Hother).
  exists (ctx_add key
            (VDict (dict_set "lfunc"
                      (VList (<[i := VArray (zip_with fnum_add a l)]> (map VArray rows)))
                      items)) ctx),
         g1, (<[i := zip_with fnum_add a l]> rows).
  split; [| split; [| split; [| split]]].
  - unfold CoreLuminosityFunction.mock_row, CoreLuminosityFunction.add_noise.
    unfold bind at 1. rewrite Hread, Hmsg. unfold bind at 1, lift_result.
    unfold bind at 1. rewrite Hread.
    unfold bind, lift_result, on_snd. cbn [fst snd]. rewrite Hdraw. cbn [fst snd].
    unfold CoreLuminosityFunction.lfunc_row_iadd, bind. rewrite Hread1.
    unfold on_fst, ctx_get. cbn [fst snd]. rewrite Hkey. cbn [default]; unfold id.
    rewrite Hlfunc. reflexivity.
  - eexists. split; [| split].
    + unfold ctx_add. cbn [ctx_data]. apply lookup_insert_eq.
    + rewrite dict_get_set. cbn. by rewrite list_fmap_insert.
    + intros k Hk. rewrite dict_get_set.
      destruct (String.eqb_spec k "lfunc"); [contradiction | apply Hother, Hk].
  - rewrite list_fmap_insert. apply list_insert_id.
    rewrite list_lookup_fmap, Ha. cbn. f_equal.
    rewrite length_zip_with. lia.
  - reflexivity.
  - intros k Hk. unfold ctx_add. cbn [ctx_data]. by apply lookup_insert_ne.
Qed.

Lemma mock_rows_keep_the_shape (key : string) (items0 : pydict) (muv sg : pyval)
    (n : nat) :
  (∀ m, ∃ msg, call_sigma sg m = Raise (TypeError msg)) →
  (∀ k g0, ∃ l g1, np_random_normal sg k g0 = (Ok l, g1) ∧ length l = k) →
  ∀ (i : nat) (rows : list (list fnum)) (ctx : Ctx) (g : RNG),
  holds_rows key items0 rows ctx → i + n ≤ length rows →
  ∃ ctx' g' rows',
    CoreLuminosityFunction.mock_rows RNG np_random_normal call_sigma key muv i
      (repeat sg n) (ctx, g) = (Ok tt, (ctx', g')) ∧
    holds_rows key items0 rows' ctx' ∧ map length rows' = map length rows ∧
    getParams ctx' = getParams ctx ∧
    ∀ k, k ≠ key → ctx_data ctx' !! k = ctx_data ctx !! k.
Proof.
  intros Hcall Hnormal. induction n as [| n IH]; intros i rows ctx g Hrows Hi.
  - exists ctx, g, rows. repeat split; done.
  - destruct (mock_row_keeps_the_shape key items0 muv sg rows i ctx g Hcall Hnormal Hrows)
      as (ctx1 & g1 & rows1 & Hrun1 & Hrows1 & Hshape1 & Hparams1 & Hother1); [lia |].
    assert (Hlen1 : length rows1 = length rows).
    { rewrite <- (length_map length rows1), Hshape1. apply length_map. }
    destruct (IH (Datatypes.S i) rows1 ctx1 g1 Hrows1) as
      (ctx2 & g2 & rows2 & Hrun2 & Hrows2 & Hshape2 & Hparams2 & Hother2); [lia |].
    exists ctx2, g2, rows2. split; [| split; [| split; [| split]]].
    + cbn [repeat CoreLuminosityFunction.mock_rows]. unfold bind. rewrite Hrun1.
      exact Hrun2.
    + exact Hrows2.
    + congruence.
    + congruence.
    + intros k Hk. rewrite Hother2, Hother1; done.
Qed.
End MockShape.

(** X22: with a scalar noise level (not callable, accepted by the random
    generator, which draws as many numbers as asked), [convert_model_to_mock]
    returns normally on a context that holds a bundle with one row per
    redshift at least: every row of "lfunc" keeps its length, the entries
    "Muv" and "mhalo" of the bundle, the other entries of the context and the
    sampled parameters are unchanged. *)
Theorem mock_noise_keeps_the_shape_of_the_bundle (RNG : Type)
    (np_random_normal : pyval -> nat -> M RNG (list fnum))
    (call_sigma : pyval -> pyval -> result pyval)
    (self : CoreLuminosityFunction) (zs : list pyval) (items : pydict) (muv : pyval)
    (rows : list (list fnum)) (ctx : Ctx) (rng : RNG) :
  let key := "luminosity_function" +:+ name self in
  _sigma self ≠ VNone → has_len (_sigma self) = false →
  (∀ m, ∃ msg, call_sigma (_sigma self) m = Raise (TypeError msg)) →
  (∀ k g, ∃ l g', np_random_normal (_sigma self) k g = (Ok l, g') ∧ length l = k) →
  redshift (lf_coeval self) = VList zs →
  ctx_data ctx !! key = Some (VDict items) →
  dict_get "lfunc" items = Some (VList (map VArray rows)) →
  dict_get "Muv" items = Some muv →
  length zs ≤ length rows →
  ∃ ctx' rng' items' rows',
    CoreLuminosityFunction.convert_model_to_mock RNG np_random_normal call_sigma self
      (ctx, rng) = (Ok tt, (ctx', rng')) ∧
    ctx_data ctx' !! key = Some (VDict items') ∧
    dict_get "lfunc" items' = Some (VList (map VArray rows')) ∧
    map length rows' = map length rows ∧
    (∀ k, k ≠ "lfunc" → dict_get k items' = dict_get k items) ∧
    getParams ctx' = getParams ctx ∧
    (∀ k, k ≠ key → ctx_data ctx' !! k = ctx_data ctx !! k).
Proof.
  intros key Hset Hscalar Hcall Hnormal Hz Hkey Hlfunc Hmuv Hlen.
  assert (Hrows : holds_rows key items rows ctx) by (exists items; done).
  destruct (mock_rows_keep_the_shape RNG np_random_normal call_sigma key items muv
              (_sigma self) (length zs) Hcall Hnormal 0 rows ctx rng Hrows)
    as (ctx' & rng' & rows' & Hrun & (items' & Hkey' & Hlfunc' & Hother') & Hshape
        & Hparams & Hother); [lia |].
  exists ctx', rng', items', rows'. repeat split; try done.
  assert (Hsigma : ∀ st : Ctx * RNG,
            CoreLuminosityFunction.sigma self st = (Ok (VList (repeat (_sigma self) (length zs))), st)).
  { intros st. unfold CoreLuminosityFunction.sigma. rewrite Hz.
    destruct (_sigma self); try contradiction; try discriminate Hscalar; reflexivity. }
  unfold CoreLuminosityFunction.convert_model_to_mock.
  unfold bind at 1. rewrite Hsigma.
  unfold bind at 1, get_fst. cbn [fst snd]. fold key.
  unfold ctx_get. rewrite Hkey. cbn [default]; unfold id.
  unfold bind at 1, CoreLuminosityFunction.subscript. rewrite Hlfunc. unfold ret at 1.
  unfold bind at 1. rewrite Hmuv. unfold ret at 1.
  unfold bind at 1. rewrite Hsigma.
  unfold bind, py_iter, ret. exact Hrun.
Qed.

Lemma mock_noise_keeps_the_shape_of_the_bundle_witness :
  ∃ (ctx' : Ctx) (rng' : nat) (items' : pydict) (rows' : list (list fnum)),
    CoreLuminosityFunction.convert_model_to_mock nat LuminosityExample.constant_normal
      LuminosityExample.not_callable (MoreExamples.luminosity_of (VNum 2) "_z6")
      (MoreExamples.ctx_with_bundle, 0) = (Ok tt, (ctx', rng')) ∧
    ctx_data ctx' !! "luminosity_function_z6" = Some (VDict items') ∧
    dict_get "lfunc" items' = Some (VList (map VArray rows')) ∧
    map length rows' = [2] ∧
    dict_get "Muv" items' = Some (VList [VArray [FVal (-20); FVal (-18)]]).
Proof.
  destruct (mock_noise_keeps_the_shape_of_the_bundle nat LuminosityExample.constant_normal
              LuminosityExample.not_callable (MoreExamples.luminosity_of (VNum 2) "_z6")
              [VNum 6] MoreExamples.bundle (VList [VArray [FVal (-20); FVal (-18)]])
              [[FVal (-3); FVal (-5)]] MoreExamples.ctx_with_bundle 0)
    as (ctx' & rng' & items' & rows' & Hrun & Hkey & Hlfunc & Hshape & Hother & _).
  - intros Heq. vm_compute in Heq. discriminate Heq.
  - reflexivity.
  - intros m. eexists. reflexivity.
  - intros k g. eexists _, _. split; [reflexivity | apply repeat_length].
  - reflexivity.
  - reflexivity.
  - reflexivity.
  - reflexivity.
  - simpl. lia.
  - exists ctx', rng', items', rows'. repeat split; try assumption.
    rewrite Hother by discriminate. reflexivity.
Defined.

(** X23: [simulate_mock] of a luminosity stage without noise level first
    builds the model data and then raises [ValueError]: the context the
    failed call leaves holds the model data, as after [__call__], and the
    random generator is untouched. *)
Theorem simulate_mock_without_sigma_keeps_the_model (p21 : py21cmfast) (RNG : Type)
    (np_random_normal : pyval -> nat -> M RNG (list fnum))
    (call_sigma : pyval -> pyval -> result pyval)
    (self : CoreLuminosityFunction) (ctx ctx' : Ctx) (w w' : world p21) (rng : RNG) :
  _sigma self = VNone →
  CoreLuminosityFunction.build_model_data p21 self (ctx, w) = (Ok tt, (ctx', w')) →
  luminosity_simulate_mock p21 RNG np_random_normal call_sigma self (ctx, (w, rng))
    = (Raise (ValueError "Cannot create a mock with sigma=None!"), (ctx', (w', rng))) ∧
  __call__ (luminosity_build p21 RNG self) (ctx, (w, rng)) = (Ok tt, (ctx', (w', rng))).
Proof.
  intros Hsigma Hbuild.
  unfold luminosity_simulate_mock, simulate_mock, __call__, bind, luminosity_build,
    luminosity_mock. cbn [fst snd]. rewrite Hbuild. cbn [fst snd].
  unfold CoreLuminosityFunction.convert_model_to_mock, CoreLuminosityFunction.sigma.
  rewrite Hsigma. split; reflexivity.
Qed.

Lemma simulate_mock_without_sigma_keeps_the_model_witness :
  luminosity_simulate_mock ReferenceEngine.engine nat LuminosityExample.constant_normal
    LuminosityExample.not_callable (MoreExamples.luminosity_of VNone "_z6")
    (LuminosityExample.ctx, (ReferenceEngine.empty_world, 0))
  = (Raise (ValueError "Cannot create a mock with sigma=None!"),
     (MoreExamples.ctx_with_bundle, (LuminosityExample.world_after_run, 0))) ∧
  __call__ (luminosity_build ReferenceEngine.engine nat
              (MoreExamples.luminosity_of VNone "_z6"))
    (LuminosityExample.ctx, (ReferenceEngine.empty_world, 0))
  = (Ok tt, (MoreExamples.ctx_with_bundle, (LuminosityExample.world_after_run, 0))).
Proof.
  apply (simulate_mock_without_sigma_keeps_the_model ReferenceEngine.engine nat
           LuminosityExample.constant_normal LuminosityExample.not_callable
           (MoreExamples.luminosity_of VNone "_z6") LuminosityExample.ctx
           MoreExamples.ctx_with_bundle ReferenceEngine.empty_world
           LuminosityExample.world_after_run 0).
  - reflexivity.
  - vm_compute. reflexivity.
Defined.
